(** * MS_SDR_FIX: the webhook ingestion pipeline

    A shallow embedding of the Go packages [cache], [webhook] and [router]
    of the relay, and the properties of the pipeline stated over it.

    Conventions of the embedding.
    - A Go [string] is a Rocq [string] (a sequence of bytes).
    - A Go [(T, error)] result is a [result]; a [(T, bool)] result is a pair.
    - [time.Time] and [time.Duration] are integers (nanoseconds).
    - Functions of Go's standard library that are rune-aware or that parse
      and print JSON are not code of this repository: they are the fields
      of the class [GoRuntime], and every statement holds for any
      implementation of them.  [RefRuntime] is one implementation, used to
      run the code on concrete requests.
    - Code with effects (the cache, the clock, the tenant store, outbound
      HTTP, logs and alerts) runs in the monad [M]: it transforms a
      [State] and appends to a trace of [Effect]s. *)

From Stdlib Require Import ZArith Ascii String DecimalString.
From stdpp Require Import base option list strings gmap.

Local Open Scope Z_scope.

(** ** Results and errors *)

(** A value of Go's [error] interface produced by a library call. *)
Definition error := string.

Inductive result (E A : Type) : Type :=
| Ok (a : A)
| Err (e : E).
Arguments Ok {E A} a.
Arguments Err {E A} e.

Definition is_Ok {E A} (r : result E A) : bool :=
  match r with Ok _ => true | Err _ => false end.

(** ** Package [strings]: the byte-level functions *)

Module strings.

(** The double quote, which a string literal cannot hold directly. *)
Definition dq : string := String "034"%char "".

Definition quoted (s : string) : string := dq +:+ s +:+ dq.

Definition isEmpty (s : string) : bool :=
  match s with EmptyString => true | String _ _ => false end.

Fixpoint HasPrefix (s prefix : string) : bool :=
  match prefix, s with
  | EmptyString, _ => true
  | String _ _, EmptyString => false
  | String p prefix', String c s' =>
      if Ascii.eqb p c then HasPrefix s' prefix' else false
  end.

(** [len(s) >= len(suffix) && s[len(s)-len(suffix):] == suffix] *)
Definition HasSuffix (s suffix : string) : bool :=
  let n := String.length s in
  let k := String.length suffix in
  (k <=? n)%nat && String.eqb (String.substring (n - k) k s) suffix.

Fixpoint Contains (s substr : string) : bool :=
  HasPrefix s substr ||
  match s with
  | EmptyString => false
  | String _ s' => Contains s' substr
  end.

(** [ReplaceAll(s, old, new)] for one-byte [old] and [new], the only way
    the program calls it. *)
Fixpoint ReplaceAll (s : string) (old new : ascii) : string :=
  match s with
  | EmptyString => EmptyString
  | String c s' =>
      String (if Ascii.eqb c old then new else c) (ReplaceAll s' old new)
  end.

(** [Map(mapping, s)] for a mapping that keeps or drops each character
    ([None] stands for the negative rune).  The program's mapping only
    looks at one-byte characters, for which bytes and runes agree. *)
Fixpoint Map (mapping : ascii → option ascii) (s : string) : string :=
  match s with
  | EmptyString => EmptyString
  | String c s' =>
      match mapping c with
      | Some c' => String c' (Map mapping s')
      | None => Map mapping s'
      end
  end.

(** [s[:n]] for [n <= len(s)]. *)
Definition slice_to (n : nat) (s : string) : string := String.substring 0 n s.

End strings.

(** ** JSON values, as [encoding/json] decodes them into [any] *)

#[warnings="-register-all"]
Inductive jvalue : Type :=
| JNull
| JBool (b : bool)
| JNumber (lexeme : string)
| JString (s : string)
| JArray (elems : list jvalue)
| JObject (members : list (string * jvalue)).

(** A [map[string]any].  The order of the list is the order in which a
    [range] over the map visits it, which Go leaves unspecified; the
    decoder fixes it. *)
Definition jobject := list (string * jvalue).

(** [v, ok := m[key]] *)
Fixpoint jlookup (m : jobject) (key : string) : option jvalue :=
  match m with
  | [] => None
  | (k, v) :: m' => if String.eqb k key then Some v else jlookup m' key
  end.

(** [m[key] = v] *)
Fixpoint jset (m : jobject) (key : string) (v : jvalue) : jobject :=
  match m with
  | [] => [(key, v)]
  | (k, v0) :: m' =>
      if String.eqb k key then (k, v) :: m' else (k, v0) :: jset m' key v
  end.

(** [v, ok := m[key].(string)] *)
Definition jlookup_string (m : jobject) (key : string) : option string :=
  match jlookup m key with
  | Some (JString s) => Some s
  | _ => None
  end.

(** [v, ok := m[key].(map[string]interface{})] *)
Definition jlookup_object (m : jobject) (key : string) : option jobject :=
  match jlookup m key with
  | Some (JObject o) => Some o
  | _ => None
  end.

Definition jkeys (m : jobject) : list string := m.*1.

(** ** Time *)

Definition Time := Z.
Definition Duration := Z.

(** [t.After(u)] *)
Definition After (t u : Time) : bool := u <? t.

(** [t.Add(d)] *)
Definition Add (t : Time) (d : Duration) : Time := t + d.

(** The zero value of a Go type. *)
Class GoZero (V : Type) := zero : V.
Global Instance string_zero : GoZero string := EmptyString.

(** ** Package [cache] (internal/cache/memory.go) *)

Module cache.

Record entry (V : Type) : Type := Entry {
  value : V;
  expiresAt : Time
}.
Arguments Entry {V} _ _.
Arguments value {V} _.
Arguments expiresAt {V} _.

Record MemoryCache (K V : Type) `{Countable K} : Type := MkCache {
  ttl : Duration;
  items : gmap K (entry V)
}.
Arguments MkCache {K V _ _} _ _.
Arguments ttl {K V _ _} _.
Arguments items {K V _ _} _.

Section methods.
Context {K V : Type} `{Countable K} `{GoZero V}.

Definition NewMemoryCache (ttl : Duration) : MemoryCache K V :=
  MkCache ttl ∅.

(** The methods read the clock themselves: [now] gives the successive
    readings of [time.Now()], a method takes the number of readings made
    so far and returns, with the table as it leaves it, the number made
    when it is done.

    [Get] reads the table under the read lock and, when it finds an
    entry, compares its deadline with the clock. *)
Definition Get (now : nat → Time) (key : K) (c : MemoryCache K V) (n : nat)
  : (V * bool) * (MemoryCache K V * nat) :=
  match items c !! key with
  | None => ((zero, false), (c, n))
  | Some e =>
      if After (now n) (expiresAt e) then ((zero, false), (c, S n))
      else ((value e, true), (c, S n))
  end.

Definition Set_ (now : nat → Time) (key : K) (v : V) (c : MemoryCache K V)
    (n : nat) : MemoryCache K V * nat :=
  (MkCache (ttl c) (<[key := Entry v (Add (now n) (ttl c))]> (items c)), S n).

Definition Delete (key : K) (c : MemoryCache K V) : MemoryCache K V :=
  MkCache (ttl c) (delete key (items c)).

(** One tick of [StartJanitor]: every entry whose deadline has passed
    at [now] is deleted. *)
Definition sweep (now : Time) (c : MemoryCache K V) : MemoryCache K V :=
  MkCache (ttl c) (filter (λ kv, After now (expiresAt kv.2) = false) (items c)).

End methods.

End cache.

(** ** Data model *)

(** *** internal/models *)

Inductive models_Plan : Type := PlanFREE | PlanPRO | PlanSCALE.

Record Client : Type := {
  ID : string;
  SecretID : string;
  Name : string;
  WebhookURL : string;
  Plan : models_Plan;
  RateLimitPerMin : Z;
  IsActive : bool;
  CreatedAt : Time;
  UpdatedAt : Time
}.

(** *** internal/config *)

Record Config : Type := {
  Port : string;
  DatabaseURL : string;
  CacheTTL : Duration;
  AdminIngestURL : string;
  AdminServiceToken : string;
  SlackWebhookURL : string;
  SlackBotToken : string;
  SlackChannelID : string
}.

(** *** internal/webhook *)

Record eventFields : Type := {
  Info : option jobject;
  Message : option jobject
}.

Record jsonDataEnvelope : Type := { Event : eventFields }.

Record LIDConvertRequest : Type := { LID : string }.

Record LIDConvertResponseData : Type := {
  Success : bool;
  JID : string;
  JIDClear : string
}.

Record LIDConvertResponse : Type := {
  Status : bool;
  Data : LIDConvertResponseData
}.

Record ConvertedEventInfo : Type := {
  OriginalData : string;
  Chat : string;
  ChatJID : string;
  Sender : string;
  SenderJID : string;
  SenderAlt : string;
  SenderAltJID : string;
  RecipientAlt : string;
  RecipientAltJID : string;
  IsGroup : bool;
  Conversions : gmap string string
}.

(** *** net/http, as far as the program uses it *)

(** An outbound request: what [http.NewRequest] and the [Header.Set] calls
    that follow it build before [Do]. *)
Record OutRequest : Type := {
  Method : string;
  URL : string;
  ContentType : string;
  Authorization : option string;
  ReqBody : string
}.

Record HTTPResponse : Type := {
  StatusCode : Z;
  RespContentType : string;
  RespBody : string
}.

(** The [Do] method of an [http.Client].  The answer may differ from one call to the next:
    the first argument is the number of requests issued before this one. *)
Definition Transport := nat → OutRequest → result error HTTPResponse.

(** An inbound [POST /webhook/:secretId], as the handler reads it:
    the route parameter, the Content-Type header, what [io.ReadAll] gives
    for the body, and the first value of each form field after
    [ParseForm], respectively [ParseMultipartForm]. *)
Record Request : Type := {
  Param_secretId : string;
  Header_ContentType : string;
  Body : result error string;
  Form : list (string * string);
  MultipartForm : list (string * string)
}.

(** [r.FormValue(key)]: the first value of the field, or the empty string. *)
Fixpoint FormValue (form : list (string * string)) (key : string) : string :=
  match form with
  | [] => EmptyString
  | (k, v) :: form' => if String.eqb k key then v else FormValue form' key
  end.

(** What the handler writes back: [c.JSON(code, gin.H{...})], or the
    destination's answer copied through. *)
Inductive Response : Type :=
| RespJSON (code : Z) (obj : list (string * string))
| RespMirror (code : Z) (contentType : string) (body : string).

Definition StatusOK : Z := 200.
Definition StatusBadRequest : Z := 400.
Definition StatusNotFound : Z := 404.
Definition StatusInternalServerError : Z := 500.
Definition StatusBadGateway : Z := 502.

(** ** The library functions the program takes from Go's runtime *)

Class GoRuntime : Type := {
  (** package [strings], rune-aware functions *)
  ToLower : string → string;
  ToUpper : string → string;
  TrimSpace : string → string;
  EqualFold : string → string → bool;
  (** [json.Unmarshal] into a [map[string]any]; [None] is the nil map
      that the document [null] leaves behind *)
  json_Unmarshal_map : string → result error (option jobject);
  (** [json.Unmarshal] into a [jsonDataEnvelope] *)
  json_Unmarshal_envelope : string → result error jsonDataEnvelope;
  (** [json.NewDecoder(body).Decode] into a [LIDConvertResponse] *)
  json_Decode_LIDConvertResponse : string → result error LIDConvertResponse;
  json_Marshal_LIDConvertRequest : LIDConvertRequest → result error string;
  json_Marshal_map : option jobject → result error string;
  (** [http.NewRequest(method, url, body)]: whether it accepts the pair *)
  http_NewRequest : string → string → result error unit
}.

(** ** Effects *)

Inductive SlackRoute : Type :=
| ViaWebhook (url : string)
| ViaBot (botToken channelID : string).

Inductive SlackMsg : Type :=
| MsgBodyReadError (secretID : string) (err : error)
| MsgJsonDataMissing (secretID contentType : string) (len : nat)
| MsgClientNotFound (secretID : string)
| MsgNewRequestError (targetURL secretID : string) (err : error)
| MsgForwardFailed (targetURL secretID : string) (err : error).

Inductive InfoLine : Type :=
| UnexpectedContentType (contentType : string)
| DebugEnvelopeKeys (keys : list string)
| DebugFromJsonData
| DebugTryBody (keys : list string)
| DebugJSONAsKey
| DebugJSONAsValue
| DebugFromBodyJsonData
| DebugBodyWithoutJSON
| DebugNoEnvelope
| DebugEnvelopeParseError (err : error)
| DebugExtracted (preview : string)
| ClientNotFound (secretID : string)
| RejectedGroup (reason : string)
| WebhookSend (secretID : string) (size : nat).

Inductive ErrorLine : Type :=
| BodyReadError (err : error)
| JsonDataMissing (contentType : string) (bodyLen : nat) (preview : string)
| NewRequestError (err : error)
| ForwardError (err : error).

Inductive Effect : Type :=
| InfoLog (l : InfoLine)
| ErrorLog (l : ErrorLine)
| SlackNotify (route : SlackRoute) (msg : SlackMsg)
| StoreQuery (secretID : string)
| HTTPSend (req : OutRequest).

(** The mutable state a request can see: the shared cache, the number of
    clock readings taken and the number of outbound requests issued. *)
Record State : Type := {
  Cache : cache.MemoryCache string string;
  clock : nat;
  sent : nat
}.

(** The process environment: [os.Getenv] and the successive readings of
    [time.Now]. *)
Record Host : Type := {
  Getenv : string → string;
  Now : nat → Time
}.

(** A run of effectful code: its value, the state it leaves, and what
    left the process on the way, oldest first. *)
Record Run (A : Type) : Type := {
  val : A;
  final : State;
  trace : list Effect
}.
Arguments val {A} _.
Arguments final {A} _.
Arguments trace {A} _.

Definition M (A : Type) : Type := State → Run A.

Definition ret {A : Type} (a : A) : M A :=
  λ s, {| val := a; final := s; trace := [] |}.

Definition bind {A B : Type} (m : M A) (f : A → M B) : M B :=
  λ s, let r1 := m s in
       let r2 := f (val r1) (final r1) in
       {| val := val r2; final := final r2; trace := trace r1 ++ trace r2 |}.

Declare Scope go_scope.
Delimit Scope go_scope with go.
Bind Scope go_scope with M.
Notation "x ← y ; z" := (bind y (λ x : _, z)) : go_scope.
Notation "' x ← y ; z" := (bind y (λ x : _, z)) : go_scope.
Notation "x ;; z" := (bind x (λ _, z)) : go_scope.
Local Open Scope go_scope.

Definition emit (e : Effect) : M unit :=
  λ s, {| val := tt; final := s; trace := [e] |}.

(** The state after [n] more readings of the clock. *)
Definition tick (n : nat) (s : State) : State :=
  {| Cache := Cache s; clock := n + clock s; sent := sent s |}.

(** A method of the shared cache, run on the cache and the clock of the
    state. *)
Definition onCache {A : Type}
    (f : cache.MemoryCache string string → nat
         → A * (cache.MemoryCache string string * nat))
  : M A :=
  λ s, let r := f (Cache s) (clock s) in
       {| val := r.1;
          final := {| Cache := r.2.1; clock := r.2.2; sent := sent s |};
          trace := [] |}.

(** [client.Do(req)] *)
Definition httpDo (t : Transport) (req : OutRequest)
  : M (result error HTTPResponse) :=
  λ s, {| val := t (sent s) req;
          final := {| Cache := Cache s; clock := clock s;
                      sent := S (sent s) |};
          trace := [HTTPSend req] |}.

(** The outbound requests of a trace. *)
Fixpoint requests (t : list Effect) : list OutRequest :=
  match t with
  | [] => []
  | HTTPSend req :: t' => req :: requests t'
  | _ :: t' => requests t'
  end.

(** The tenants looked up in the store along a trace. *)
Fixpoint storeQueries (t : list Effect) : list string :=
  match t with
  | [] => []
  | StoreQuery secretID :: t' => secretID :: storeQueries t'
  | _ :: t' => storeQueries t'
  end.

(** The kinds of effect. *)
Definition isLogLine (e : Effect) : bool :=
  match e with InfoLog _ | ErrorLog _ => true | _ => false end.

(** Effects that reach another host: a request, or an alert. *)
Definition isOutbound (e : Effect) : bool :=
  match e with HTTPSend _ | SlackNotify _ _ => true | _ => false end.

(** A computation that only writes log lines: it returns the same value
    in every state and leaves the state alone. *)
Definition logsOnly {A : Type} (m : M A) (a : A) (t : list Effect) : Prop :=
  Forall (λ e, isLogLine e = true) t
  ∧ ∀ s, m s = {| val := a; final := s; trace := t |}.

Definition quiet {A : Type} (m : M A) : Prop := ∃ a t, logsOnly m a t.

(** ** Package [webhook] (internal/webhook/converter.go) *)

Module webhook.
Import strings.

(** The errors the converter builds with [fmt.Errorf], one constructor
    per message. *)
Inductive ConvError : Type :=
| ErrURLNotConfigured
| ErrTokenMissing
| ErrSerializeRequest (e : error)
| ErrCreateRequest (e : error)
| ErrExecuteRequest (e : error)
| ErrAPIStatus (code : Z) (body : string)
| ErrDecodeResponse (e : error)
| ErrConversionFailed
| ErrParseEvent (e : error)
| ErrParseOriginal (e : error)
| ErrSerializeModified (e : error).

Record LIDConverter : Type := {
  BaseURL : string;
  HTTPClient : Transport
}.

Definition emptyInfo (jsonDataStr : string) : ConvertedEventInfo :=
  {| OriginalData := jsonDataStr;
     Chat := ""; ChatJID := ""; Sender := ""; SenderJID := "";
     SenderAlt := ""; SenderAltJID := "";
     RecipientAlt := ""; RecipientAltJID := "";
     IsGroup := false; Conversions := ∅ |}.

(** Assignments to the fields of [result]. *)
Definition set_Chat (v : string) (r : ConvertedEventInfo) :=
  {| OriginalData := OriginalData r; Chat := v; ChatJID := ChatJID r;
     Sender := Sender r; SenderJID := SenderJID r;
     SenderAlt := SenderAlt r; SenderAltJID := SenderAltJID r;
     RecipientAlt := RecipientAlt r; RecipientAltJID := RecipientAltJID r;
     IsGroup := IsGroup r; Conversions := Conversions r |}.
Definition set_ChatJID (v : string) (r : ConvertedEventInfo) :=
  {| OriginalData := OriginalData r; Chat := Chat r; ChatJID := v;
     Sender := Sender r; SenderJID := SenderJID r;
     SenderAlt := SenderAlt r; SenderAltJID := SenderAltJID r;
     RecipientAlt := RecipientAlt r; RecipientAltJID := RecipientAltJID r;
     IsGroup := IsGroup r; Conversions := Conversions r |}.
Definition set_Sender (v : string) (r : ConvertedEventInfo) :=
  {| OriginalData := OriginalData r; Chat := Chat r; ChatJID := ChatJID r;
     Sender := v; SenderJID := SenderJID r;
     SenderAlt := SenderAlt r; SenderAltJID := SenderAltJID r;
     RecipientAlt := RecipientAlt r; RecipientAltJID := RecipientAltJID r;
     IsGroup := IsGroup r; Conversions := Conversions r |}.
Definition set_SenderJID (v : string) (r : ConvertedEventInfo) :=
  {| OriginalData := OriginalData r; Chat := Chat r; ChatJID := ChatJID r;
     Sender := Sender r; SenderJID := v;
     SenderAlt := SenderAlt r; SenderAltJID := SenderAltJID r;
     RecipientAlt := RecipientAlt r; RecipientAltJID := RecipientAltJID r;
     IsGroup := IsGroup r; Conversions := Conversions r |}.
Definition set_SenderAlt (v : string) (r : ConvertedEventInfo) :=
  {| OriginalData := OriginalData r; Chat := Chat r; ChatJID := ChatJID r;
     Sender := Sender r; SenderJID := SenderJID r;
     SenderAlt := v; SenderAltJID := SenderAltJID r;
     RecipientAlt := RecipientAlt r; RecipientAltJID := RecipientAltJID r;
     IsGroup := IsGroup r; Conversions := Conversions r |}.
Definition set_SenderAltJID (v : string) (r : ConvertedEventInfo) :=
  {| OriginalData := OriginalData r; Chat := Chat r; ChatJID := ChatJID r;
     Sender := Sender r; SenderJID := SenderJID r;
     SenderAlt := SenderAlt r; SenderAltJID := v;
     RecipientAlt := RecipientAlt r; RecipientAltJID := RecipientAltJID r;
     IsGroup := IsGroup r; Conversions := Conversions r |}.
Definition set_RecipientAlt (v : string) (r : ConvertedEventInfo) :=
  {| OriginalData := OriginalData r; Chat := Chat r; ChatJID := ChatJID r;
     Sender := Sender r; SenderJID := SenderJID r;
     SenderAlt := SenderAlt r; SenderAltJID := SenderAltJID r;
     RecipientAlt := v; RecipientAltJID := RecipientAltJID r;
     IsGroup := IsGroup r; Conversions := Conversions r |}.
Definition set_RecipientAltJID (v : string) (r : ConvertedEventInfo) :=
  {| OriginalData := OriginalData r; Chat := Chat r; ChatJID := ChatJID r;
     Sender := Sender r; SenderJID := SenderJID r;
     SenderAlt := SenderAlt r; SenderAltJID := SenderAltJID r;
     RecipientAlt := RecipientAlt r; RecipientAltJID := v;
     IsGroup := IsGroup r; Conversions := Conversions r |}.
Definition set_IsGroup (v : bool) (r : ConvertedEventInfo) :=
  {| OriginalData := OriginalData r; Chat := Chat r; ChatJID := ChatJID r;
     Sender := Sender r; SenderJID := SenderJID r;
     SenderAlt := SenderAlt r; SenderAltJID := SenderAltJID r;
     RecipientAlt := RecipientAlt r; RecipientAltJID := RecipientAltJID r;
     IsGroup := v; Conversions := Conversions r |}.
(** [result.Conversions[field] = fmt.Sprintf("%s -> %s", from, to)] *)
Definition set_Conversion (field from to : string) (r : ConvertedEventInfo) :=
  {| OriginalData := OriginalData r; Chat := Chat r; ChatJID := ChatJID r;
     Sender := Sender r; SenderJID := SenderJID r;
     SenderAlt := SenderAlt r; SenderAltJID := SenderAltJID r;
     RecipientAlt := RecipientAlt r; RecipientAltJID := RecipientAltJID r;
     IsGroup := IsGroup r;
     Conversions := <[field := from +:+ " -> " +:+ to]> (Conversions r) |}.

Section converter.
Context {RT : GoRuntime}.

Definition NewLIDConverter (baseURL : string) (client : Transport)
  : LIDConverter :=
  {| BaseURL :=
       if HasSuffix baseURL "/"
       then slice_to (String.length baseURL - 1) baseURL
       else baseURL;
     HTTPClient := client |}.

Definition IsLID (id : string) : bool :=
  HasSuffix (ToLower id) "@lid".

Definition IsJID (id : string) : bool :=
  let lower := ToLower id in
  Contains lower "@s.whatsapp.net" || Contains lower "@g.us".

(** The request [ConvertLIDToJID] sends once the payload is
    serialized: a POST to [BaseURL/user/parselid] with a JSON content
    type and the bearer token. *)
Definition parselidRequest (c : LIDConverter) (apiToken reqBody : string)
  : OutRequest :=
  {| Method := "POST";
     URL := BaseURL c +:+ "/user/parselid";
     ContentType := "application/json";
     Authorization :=
       if isEmpty apiToken then None else Some ("Bearer " +:+ apiToken);
     ReqBody := reqBody |}.

Definition ConvertLIDToJID (c : LIDConverter) (lid apiToken : string)
  : M (result ConvError string) :=
  if negb (IsLID lid) then ret (Ok lid)
  else if isEmpty (BaseURL c) then ret (Err ErrURLNotConfigured)
  else if isEmpty apiToken then ret (Err ErrTokenMissing)
  else
    match json_Marshal_LIDConvertRequest {| LID := lid |} with
    | Err err => ret (Err (ErrSerializeRequest err))
    | Ok reqBody =>
        match http_NewRequest "POST" (BaseURL c +:+ "/user/parselid") with
        | Err err => ret (Err (ErrCreateRequest err))
        | Ok _ =>
            resp ← httpDo (HTTPClient c) (parselidRequest c apiToken reqBody);
            match resp with
            | Err err => ret (Err (ErrExecuteRequest err))
            | Ok resp =>
                if negb (StatusCode resp =? StatusOK) then
                  let bodyStr := RespBody resp in
                  let bodyStr :=
                    if (200 <? String.length bodyStr)%nat
                    then slice_to 200 bodyStr +:+ "..."
                    else bodyStr in
                  ret (Err (ErrAPIStatus (StatusCode resp) bodyStr))
                else
                  match json_Decode_LIDConvertResponse (RespBody resp) with
                  | Err err => ret (Err (ErrDecodeResponse err))
                  | Ok response =>
                      if negb (Status response)
                         || negb (Success (Data response))
                      then ret (Err ErrConversionFailed)
                      else ret (Ok (JID (Data response)))
                  end
            end
        end
    end.

(** The four blocks of [DetectAndConvertIDs] that fill [result] from
    [info], in the order of the source. *)

Definition detectChat (c : LIDConverter) (apiToken : string)
    (info : jobject) (result : ConvertedEventInfo)
  : M ConvertedEventInfo :=
  match jlookup_string info "Chat" with
  | Some chat =>
      if isEmpty chat then ret result
      else
        let result := set_Chat chat result in
        if IsLID chat then
          r ← ConvertLIDToJID c chat apiToken;
          match r with
          | Ok jid =>
              ret (set_Conversion "Chat" chat jid (set_ChatJID jid result))
          | Err _ => ret result
          end
        else ret (set_ChatJID chat result)
  | None => ret result
  end.

Definition detectSender (c : LIDConverter) (apiToken : string)
    (info : jobject) (result : ConvertedEventInfo)
  : M ConvertedEventInfo :=
  match jlookup_string info "Sender" with
  | Some sender =>
      if isEmpty sender then ret result
      else
        let result := set_Sender sender result in
        if IsLID sender then
          r ← ConvertLIDToJID c sender apiToken;
          match r with
          | Ok jid =>
              ret (set_Conversion "Sender" sender jid
                      (set_SenderJID jid result))
          | Err _ => ret result
          end
        else ret (set_SenderJID sender result)
  | None => ret result
  end.

Definition detectSenderAlt (c : LIDConverter) (apiToken : string)
    (info : jobject) (result : ConvertedEventInfo)
  : M ConvertedEventInfo :=
  match jlookup_string info "SenderAlt" with
  | Some senderAlt =>
      if isEmpty senderAlt then ret result
      else
        let result := set_SenderAlt senderAlt result in
        if IsLID senderAlt then
          r ← ConvertLIDToJID c senderAlt apiToken;
          match r with
          | Ok jid =>
              let result :=
                set_Conversion "SenderAlt" senderAlt jid
                  (set_SenderAltJID jid result) in
              if isEmpty (SenderJID result)
              then ret (set_SenderJID jid result)
              else ret result
          | Err _ => ret result
          end
        else ret result
  | None => ret result
  end.

Definition detectRecipientAlt (c : LIDConverter) (apiToken : string)
    (info : jobject) (result : ConvertedEventInfo)
  : M ConvertedEventInfo :=
  match jlookup_string info "RecipientAlt" with
  | Some recipientAlt =>
      if isEmpty recipientAlt then ret result
      else
        let result := set_RecipientAlt recipientAlt result in
        if IsLID recipientAlt then
          r ← ConvertLIDToJID c recipientAlt apiToken;
          match r with
          | Ok jid =>
              let result :=
                set_Conversion "RecipientAlt" recipientAlt jid
                  (set_RecipientAltJID jid result) in
              if isEmpty (ChatJID result)
              then ret (set_ChatJID jid result)
              else ret result
          | Err _ => ret result
          end
        else ret result
  | None => ret result
  end.

(** The [IsGroup] block: a boolean, or the string "true" in any case. *)
Definition detectIsGroup (info : jobject) (result : ConvertedEventInfo)
  : ConvertedEventInfo :=
  match jlookup info "IsGroup" with
  | Some (JBool v) => set_IsGroup v result
  | Some (JString v) => set_IsGroup (EqualFold (TrimSpace v) "true") result
  | _ => result
  end.

(** The closing check on the chat identifier. *)
Definition detectGroupChat (result : ConvertedEventInfo)
  : ConvertedEventInfo :=
  if isEmpty (ChatJID result) then result
  else
    let lowerChat := ToLower (ChatJID result) in
    if Contains lowerChat "@g.us" || Contains lowerChat "@broadcast"
    then set_IsGroup true result
    else result.

Definition DetectAndConvertIDs (c : LIDConverter)
    (jsonDataStr apiToken : string)
  : M (result ConvError ConvertedEventInfo) :=
  match json_Unmarshal_envelope jsonDataStr with
  | Err err => ret (Err (ErrParseEvent err))
  | Ok env =>
      let result := emptyInfo jsonDataStr in
      result ←
        match Info (Event env) with
        | Some info =>
            result ← detectChat c apiToken info result;
            result ← detectSender c apiToken info result;
            result ← detectSenderAlt c apiToken info result;
            result ← detectRecipientAlt c apiToken info result;
            ret (detectIsGroup info result)
        | None => ret result
        end;
      ret (Ok (detectGroupChat result))
  end.

Definition GetFinalChat (c : ConvertedEventInfo) : string :=
  if isEmpty (ChatJID c) then Chat c else ChatJID c.

Definition GetFinalSender (c : ConvertedEventInfo) : string :=
  if isEmpty (SenderJID c) then Sender c else SenderJID c.

(** [len(c.Conversions) > 0] *)
Definition HasConversions (c : ConvertedEventInfo) : bool :=
  (0 <? size (Conversions c))%nat.

(** [info[field] = jid] when [jid] and [orig] are non-empty and differ. *)
Definition applyField (field jid orig : string) (info : jobject)
  : jobject :=
  if negb (isEmpty jid) && negb (isEmpty orig) && negb (String.eqb jid orig)
  then jset info field (JString jid)
  else info.

(** The block of [ApplyConversionsToJSON] that rewrites the parsed
    document.  [event] and [info] are references into [jsonData]: the
    assignments to [info] are written back along the path that reached
    it. *)
Definition applyConversions (c : ConvertedEventInfo)
    (jsonData : option jobject) : option jobject :=
  match jsonData ≫= (λ m, jlookup_object m "event") with
  | Some event =>
      match jlookup_object event "Info" with
      | Some info =>
          let info := applyField "Chat" (ChatJID c) (Chat c) info in
          let info := applyField "Sender" (SenderJID c) (Sender c) info in
          let info :=
            applyField "SenderAlt" (SenderAltJID c) (SenderAlt c) info in
          let info :=
            applyField "RecipientAlt" (RecipientAltJID c) (RecipientAlt c)
              info in
          (λ m, jset m "event" (JObject (jset event "Info" (JObject info))))
            <$> jsonData
      | None => jsonData
      end
  | None => jsonData
  end.

Definition ApplyConversionsToJSON (c : ConvertedEventInfo)
  : result ConvError string :=
  if negb (HasConversions c) then Ok (OriginalData c)
  else
    match json_Unmarshal_map (OriginalData c) with
    | Err err => Err (ErrParseOriginal err)
    | Ok jsonData =>
        match json_Marshal_map (applyConversions c jsonData) with
        | Err err => Err (ErrSerializeModified err)
        | Ok modifiedJSON => Ok modifiedJSON
        end
    end.

(** *** internal/webhook/parse.go *)

(** [err.Error()] for the errors of the converter. *)
Definition Error (err : ConvError) : string :=
  match err with
  | ErrURLNotConfigured => "URL da API Avisa não configurada"
  | ErrTokenMissing => "token da API não fornecido para conversão LID->JID"
  | ErrSerializeRequest e => "erro ao serializar requisição: " +:+ e
  | ErrCreateRequest e => "erro ao criar requisição HTTP: " +:+ e
  | ErrExecuteRequest e => "erro ao executar requisição: " +:+ e
  | ErrAPIStatus code body =>
      "API retornou status " +:+ NilZero.string_of_int (Z.to_int code)
      +:+ ", corpo: " +:+ body
  | ErrDecodeResponse e => "erro ao decodificar resposta: " +:+ e
  | ErrConversionFailed => "conversão falhou na API"
  | ErrParseEvent e => "erro ao fazer parse do evento: " +:+ e
  | ErrParseOriginal e => "erro ao fazer parse do JSON original: " +:+ e
  | ErrSerializeModified e => "erro ao serializar JSON modificado: " +:+ e
  end.

(** [v, ok := m[key]] on a map that may be nil. *)
Definition mlookup (m : option jobject) (key : string) : option jvalue :=
  m ≫= (λ o, jlookup o key).

(** [isGroup = true; if reason == "" { reason = r }] when [cond] holds. *)
Definition markGroup (cond : bool) (r : string) (st : bool * string)
  : bool * string :=
  if cond then (true, if isEmpty st.2 then r else st.2) else st.

(** The legacy classifier: group flag, chat, sender and reason. *)
Definition ExtractEventInfo (jsonDataStr : string)
  : bool * string * string * string :=
  match json_Unmarshal_envelope jsonDataStr with
  | Ok env =>
      let info := Info (Event env) in
      let st :=
        match mlookup info "IsGroup" with
        | Some v =>
            let isGroup :=
              match v with
              | JBool t => t
              | JString t => EqualFold (TrimSpace t) "true"
              | _ => false
              end in
            (isGroup, if isGroup then "is_group_true" else "")
        | None => (false, "")
        end in
      let chat :=
        match mlookup info "Chat" with Some (JString v) => v | _ => "" end in
      let sender :=
        match mlookup info "Sender" with Some (JString v) => v | _ => "" end in
      let lowerChat := ToLower chat in
      let st := markGroup (Contains lowerChat "@g.us") "chat_has_g_us" st in
      let st :=
        markGroup (Contains lowerChat "@broadcast"
                   || Contains lowerChat "status@broadcast")
          "chat_status_broadcast" st in
      let st :=
        match Message (Event env) with
        | Some message =>
            match jlookup_object message "senderKeyDistributionMessage" with
            | Some skdm =>
                match jlookup_string skdm "groupID" with
                | Some gid =>
                    let lowerGid := ToLower gid in
                    markGroup (Contains lowerGid "@broadcast"
                               || Contains lowerGid "status@broadcast"
                               || Contains lowerGid "@g.us")
                      "message_group_id_broadcast" st
                | None => st
                end
            | None => st
            end
        | None => st
        end in
      (st.1, chat, sender, st.2)
  | Err _ => (false, "", "", "json_parse_failed")
  end.

(** The lines [ExtractEventInfoWithConversion] prints when it is given a
    logger. *)
Inductive ParseLog : Type :=
| LogStart (size : nat)
| LogNoConverter
| LogTokenPresent
| LogTokenAbsent
| LogConversionError (err : ConvError)
| LogDone (isGroup : bool) (chat sender : string)
| LogConversionsHeader
| LogConversion (field conversion : string)
| LogNoConversions
| LogOriginalsHeader
| LogOriginal (field v : string).

(** The six results of [ExtractEventInfoWithConversion], and what it
    printed. *)
Record Extracted : Type := {
  isGroup : bool;
  chat : string;
  sender : string;
  reason : string;
  conversions : gmap string string;
  eventInfo : option ConvertedEventInfo;
  logged : list ParseLog
}.

(** [if logger != nil { logger.Printf(...) }] *)
Definition logIf (logger : bool) (lines : list ParseLog) : list ParseLog :=
  if logger then lines else [].

(** The line of an original identifier, when it is not empty. *)
Definition originalLine (field v : string) : list ParseLog :=
  if isEmpty v then [] else [LogOriginal field v].

(** [converter] is [None] for the nil converter; [logger] tells whether a
    logger was given.  The conversions are printed in the order in which
    the [range] over the map visits them. *)
Definition ExtractEventInfoWithConversion (jsonDataStr : string)
    (converter : option LIDConverter) (apiToken : string) (logger : bool)
  : M Extracted :=
  let log0 := logIf logger [LogStart (String.length jsonDataStr)] in
  match converter with
  | None =>
      let '(isGroup, chat, sender, reason) := ExtractEventInfo jsonDataStr in
      ret {| isGroup := isGroup; chat := chat; sender := sender;
             reason := reason; conversions := ∅; eventInfo := None;
             logged := log0 ++ logIf logger [LogNoConverter] |}
  | Some converter =>
      let log1 :=
        log0 ++ logIf logger
                  [if isEmpty apiToken then LogTokenAbsent
                   else LogTokenPresent] in
      r ← DetectAndConvertIDs converter jsonDataStr apiToken;
      match r with
      | Err err =>
          let '(isGroup, chat, sender, reason) :=
            ExtractEventInfo jsonDataStr in
          ret {| isGroup := isGroup; chat := chat; sender := sender;
                 reason := reason;
                 conversions := {["conversion_error" := Error err]};
                 eventInfo := None;
                 logged := log1 ++ logIf logger [LogConversionError err] |}
      | Ok convertedEventInfo =>
          let isGroup := IsGroup convertedEventInfo in
          let chat := GetFinalChat convertedEventInfo in
          let sender := GetFinalSender convertedEventInfo in
          let conversions := Conversions convertedEventInfo in
          let reason :=
            if isGroup then
              if Contains (ToLower chat) "@g.us" then "chat_has_g_us"
              else if Contains (ToLower chat) "@broadcast"
                   then "chat_broadcast"
                   else "is_group_true"
            else "" in
          let details :=
            [LogDone isGroup chat sender]
            ++ (if (0 <? size conversions)%nat
                then LogConversionsHeader
                     :: ((λ fc, LogConversion fc.1 fc.2)
                           <$> map_to_list conversions)
                else [LogNoConversions])
            ++ (if negb (isEmpty (Chat convertedEventInfo))
                   || negb (isEmpty (Sender convertedEventInfo))
                   || negb (isEmpty (SenderAlt convertedEventInfo))
                   || negb (isEmpty (RecipientAlt convertedEventInfo))
                then LogOriginalsHeader
                     :: originalLine "Chat" (Chat convertedEventInfo)
                     ++ originalLine "Sender" (Sender convertedEventInfo)
                     ++ originalLine "SenderAlt"
                          (SenderAlt convertedEventInfo)
                     ++ originalLine "RecipientAlt"
                          (RecipientAlt convertedEventInfo)
                else []) in
          ret {| isGroup := isGroup; chat := chat; sender := sender;
                 reason := reason; conversions := conversions;
                 eventInfo := Some convertedEventInfo;
                 logged := log1 ++ logIf logger details |}
      end
  end.

(** *** Vocabulary for the statements about the converter *)

(** The four fields of [Info] that may hold a legacy identifier. *)
Definition idFields : list string :=
  ["Chat"; "Sender"; "SenderAlt"; "RecipientAlt"].

(** The identifier service converted [lid] into [jid] during a run
    that started in state [s] and left the trace [t]: the request for
    [lid] went out as one of the run's requests, and the answer to it
    was a 200 whose body decodes to a positive result carrying [jid]. *)
Definition converted (c : LIDConverter) (apiToken : string) (s : State)
    (t : list Effect) (lid jid : string) : Prop :=
  ∃ (i : nat) reqBody resp response,
    json_Marshal_LIDConvertRequest {| LID := lid |} = Ok reqBody
    ∧ requests t !! i = Some (parselidRequest c apiToken reqBody)
    ∧ HTTPClient c (sent s + i)%nat (parselidRequest c apiToken reqBody)
      = Ok resp
    ∧ StatusCode resp = StatusOK
    ∧ json_Decode_LIDConvertResponse (RespBody resp) = Ok response
    ∧ Status response = true
    ∧ Success (Data response) = true
    ∧ JID (Data response) = jid.

(** The converter is able to send a request for [lid]: it has a base
    URL and a token, and the request can be built. *)
Definition sendable (c : LIDConverter) (apiToken lid reqBody : string)
  : Prop :=
  BaseURL c ≠ "" ∧ apiToken ≠ ""
  ∧ json_Marshal_LIDConvertRequest {| LID := lid |} = Ok reqBody
  ∧ http_NewRequest "POST" (BaseURL c +:+ "/user/parselid") = Ok tt.

End converter.

End webhook.

(** ** Package [router] (internal/router/handlers.go) *)

Module router.
Import strings.

(** The store behind [ClientSvc.GetBySecretID]: a client pointer (or
    nil) and an error (or nil). *)
Definition ClientService := string → option Client * option error.

Record Dependencies : Type := {
  Cfg : Config;
  HTTPClient : Transport;
  ClientSvc : ClientService
}.

(** The three answers of the store that do not give a usable tenant:
    an error, an inactive tenant, and no tenant at all. *)
Inductive storeFailure : option Client * option error → Prop :=
| storeError client e : storeFailure (client, Some e)
| storeInactive client :
    IsActive client = false → storeFailure (Some client, None)
| storeAbsent : storeFailure (None, None).

(** [d.Cache.Get(key)] *)
Definition cacheGet (h : Host) (key : string) : M (string * bool) :=
  onCache (cache.Get (Now h) key).

(** [d.Cache.Set(key, value)] *)
Definition cacheSet (h : Host) (key value : string) : M unit :=
  onCache (λ c n, (tt, cache.Set_ (Now h) key value c n)).

(** [d.ClientSvc.GetBySecretID(c, secretID)] *)
Definition getBySecretID (d : Dependencies) (secretID : string)
  : M (option Client * option error) :=
  emit (StoreQuery secretID);;
  ret (ClientSvc d secretID).

Definition logInfo (l : InfoLine) : M unit := emit (InfoLog l).
Definition logError (l : ErrorLine) : M unit := emit (ErrorLog l).

(** The patterns of the raw filter that hold a double quote. *)
Definition isgroupPlain : string := quoted "isgroup" +:+ ":true".
Definition isgroupEscaped : string :=
  "\" +:+ dq +:+ "isgroup\" +:+ dq +:+ ":true".

Section handlers.
Context {RT : GoRuntime} (h : Host).

(** ENV in the format CLIENT_{UUID} *)
Definition resolveClientWebhookURLFromEnv (secretID : string)
  : string * bool :=
  let underscored := ReplaceAll secretID "-" "_" in
  let lower := "CLIENT_" +:+ ToLower underscored in
  let upper := "CLIENT_" +:+ ToUpper underscored in
  let v := TrimSpace (Getenv h lower) in
  if negb (isEmpty v) then (v, true)
  else
    let v := TrimSpace (Getenv h upper) in
    if negb (isEmpty v) then (v, true)
    else ("", false).

(** cache -> ENV -> repo *)
Definition resolveClientWebhookCached (d : Dependencies)
    (secretID : string) : M (string * bool) :=
  '(v, ok) ← cacheGet h secretID;
  if ok then ret (v, true)
  else
    let '(url, ok) := resolveClientWebhookURLFromEnv secretID in
    if ok then
      cacheSet h secretID url;;
      ret (url, true)
    else
      '(client, err) ← getBySecretID d secretID;
      match err, client with
      | None, Some client =>
          if IsActive client then
            cacheSet h secretID (WebhookURL client);;
            ret (WebhookURL client, true)
          else ret ("", false)
      | _, _ => ret ("", false)
      end.

(** The closure [notifySlack] of the webhook handler: the alert is
    handed to a goroutine, which the model records as an effect. *)
Definition notifySlack (d : Dependencies) (msg : SlackMsg) : M unit :=
  let url := TrimSpace (SlackWebhookURL (Cfg d)) in
  if negb (isEmpty url) then emit (SlackNotify (ViaWebhook url) msg)
  else
    let bt := TrimSpace (SlackBotToken (Cfg d)) in
    let ch := TrimSpace (SlackChannelID (Cfg d)) in
    if negb (isEmpty bt) && negb (isEmpty ch)
    then emit (SlackNotify (ViaBot bt ch) msg)
    else ret tt.

(** The [for key, value := range body] loop of the JSON case; the
    result is what the loop leaves in [jsonDataStr], empty when no
    member matches. *)
Fixpoint rangeBody (body : jobject) : M string :=
  match body with
  | [] => ret ""
  | (key, value) :: rest =>
      if HasPrefix key "{" && HasSuffix key "}" then
        logInfo DebugJSONAsKey;;
        ret key
      else
        match value with
        | JString v =>
            if HasPrefix v "{" then
              logInfo DebugJSONAsValue;;
              ret v
            else rangeBody rest
        | _ => rangeBody rest
        end
  end.

(** [v, ok := m[key].(string); ok && strings.TrimSpace(v) != ""] *)
Definition nonBlankString (m : jobject) (key : string) : option string :=
  match jlookup_string m key with
  | Some v => if isEmpty (TrimSpace v) then None else Some v
  | None => None
  end.

(** The case [application/json] of the switch that computes
    [jsonDataStr]. *)
Definition jsonDataFromJSON (bodyBytes : string) : M string :=
  let bodyTrim := TrimSpace bodyBytes in
  if isEmpty bodyTrim then ret ""
  else
    match json_Unmarshal_map bodyBytes with
    | Ok m =>
        let m := default [] m in
        logInfo (DebugEnvelopeKeys (jkeys m));;
        match nonBlankString m "jsonData" with
        | Some v =>
            logInfo DebugFromJsonData;;
            ret v
        | None =>
            match jlookup_object m "body" with
            | Some body =>
                logInfo (DebugTryBody (jkeys body));;
                jsonDataStr ← rangeBody body;
                if isEmpty jsonDataStr then
                  match nonBlankString body "jsonData" with
                  | Some v =>
                      logInfo DebugFromBodyJsonData;;
                      ret v
                  | None =>
                      logInfo DebugBodyWithoutJSON;;
                      ret bodyTrim
                  end
                else ret jsonDataStr
            | None =>
                logInfo DebugNoEnvelope;;
                ret bodyTrim
            end
        end
    | Err err =>
        logInfo (DebugEnvelopeParseError err);;
        ret bodyTrim
    end.

(** The whole switch on the content type. *)
Definition extractJsonData (req : Request) (ctLower bodyBytes : string)
  : M string :=
  if HasPrefix ctLower "application/json" then jsonDataFromJSON bodyBytes
  else if HasPrefix ctLower "multipart/form-data"
  then ret (FormValue (MultipartForm req) "jsonData")
  else ret (FormValue (Form req) "jsonData").

(** [s], cut to [n] bytes and marked when it is longer. *)
Definition preview (n : nat) (s : string) : string :=
  if (n <? String.length s)%nat then slice_to n s +:+ "..." else s.

(** The mapping of the raw filter: blanks, tabs and line ends go. *)
Definition dropSpace (r : ascii) : option ascii :=
  if Ascii.eqb r " " || Ascii.eqb r "010" || Ascii.eqb r "013"
     || Ascii.eqb r "009"
  then None else Some r.

(** The immediate filter on the raw payload. *)
Definition rawGroupMatch (jsonDataStr : string) : bool :=
  let rawLower := ToLower jsonDataStr in
  let rawCompact := Map dropSpace rawLower in
  Contains rawLower "@g.us" || Contains rawLower "@broadcast"
  || Contains rawLower "status@broadcast"
  || Contains rawCompact isgroupPlain
  || Contains rawCompact isgroupEscaped.

(** The request the handler forwards. *)
Definition forwardRequest (targetURL contentType dataToSend : string)
  : OutRequest :=
  {| Method := "POST";
     URL := targetURL;
     ContentType :=
       if isEmpty contentType then "application/x-www-form-urlencoded"
       else contentType;
     Authorization := None;
     ReqBody := dataToSend |}.

(** The last block of the handler, from "Dados para envio": the raw
    body goes to the destination and the answer comes back. *)
Definition forward (d : Dependencies)
    (secretID contentType bodyBytes targetURL : string) : M Response :=
  let dataToSend := bodyBytes in
  logInfo (WebhookSend secretID (String.length dataToSend));;
  match http_NewRequest "POST" targetURL with
  | Err err =>
      logError (NewRequestError err);;
      notifySlack d (MsgNewRequestError targetURL secretID err);;
      ret (RespJSON StatusInternalServerError [("error", "erro interno")])
  | Ok _ =>
      resp ← httpDo (HTTPClient d)
               (forwardRequest targetURL contentType dataToSend);
      match resp with
      | Err err =>
          logError (ForwardError err);;
          notifySlack d (MsgForwardFailed targetURL secretID err);;
          ret (RespJSON StatusBadGateway
                 [("error", "destino indisponível")])
      | Ok resp =>
          ret (RespMirror (StatusCode resp) (RespContentType resp)
                 (RespBody resp))
      end
  end.

(** The blocks before it, from "Valida cliente/secret": the tenant is
    resolved, then the raw filter runs. *)
Definition route (d : Dependencies)
    (secretID contentType bodyBytes jsonDataStr : string) : M Response :=
  '(targetURL, ok) ← resolveClientWebhookCached d secretID;
  if negb ok then
    logInfo (ClientNotFound secretID);;
    notifySlack d (MsgClientNotFound secretID);;
    ret (RespJSON StatusNotFound [("error", "Cliente não encontrado")])
  else if rawGroupMatch jsonDataStr then
    logInfo (RejectedGroup "filter_raw_match");;
    ret (RespJSON StatusOK [("status", "ignored_group_message")])
  else forward d secretID contentType bodyBytes targetURL.

(** The handler of [POST /webhook/:secretId]. *)
Definition webhook (d : Dependencies) (req : Request) : M Response :=
  let secretID := TrimSpace (Param_secretId req) in
  if isEmpty secretID then
    ret (RespJSON StatusBadRequest [("error", "secret id ausente")])
  else
    let contentType := Header_ContentType req in
    let ctLower := ToLower contentType in
    (if negb (HasPrefix ctLower "application/x-www-form-urlencoded"
              || HasPrefix ctLower "multipart/form-data"
              || HasPrefix ctLower "application/json")
     then logInfo (UnexpectedContentType contentType)
     else ret tt);;
    match Body req with
    | Err err =>
        logError (BodyReadError err);;
        notifySlack d (MsgBodyReadError secretID err);;
        ret (RespJSON StatusBadRequest [("error", "corpo inválido")])
    | Ok bodyBytes =>
        jsonDataStr ← extractJsonData req ctLower bodyBytes;
        (if negb (isEmpty jsonDataStr)
         then logInfo (DebugExtracted (preview 100 jsonDataStr))
         else ret tt);;
        if isEmpty (TrimSpace jsonDataStr) then
          logError (JsonDataMissing contentType (String.length bodyBytes)
                      (preview 256 bodyBytes));;
          notifySlack d (MsgJsonDataMissing secretID contentType
                           (String.length bodyBytes));;
          ret (RespJSON StatusBadRequest [("error", "jsonData ausente")])
        else route d secretID contentType bodyBytes jsonDataStr
    end.

(** [POST /admin/cache/purge/:secretId], past its token check. *)
Definition purge (secretID : string) : M unit :=
  onCache (λ c n, (tt, (cache.Delete secretID c, n))).

(** *** The administration routes that use the resolver and the cache *)

(** [models.ResolveResponse] *)
Record ResolveResponse : Type := {
  ResolvedWebhookURL : string;
  ResolvedRateLimitPerMin : Z;
  ResolvedPlan : models_Plan
}.

(** What these routes write back: [c.JSON] with a [gin.H] of strings or
    with a [ResolveResponse], or [c.Status] alone. *)
Inductive AdminResponse : Type :=
| AdminJSON (code : Z) (obj : list (string * string))
| AdminResolved (code : Z) (r : ResolveResponse)
| AdminStatus (code : Z).

Definition StatusUnauthorized : Z := 401.
Definition StatusNoContent : Z := 204.

(** [GET /api/clients/by-secret/:secretId]: ENV first, then the store;
    [secretId] is the route parameter as it came. *)
Definition resolveBySecret (d : Dependencies) (secretId : string)
  : M AdminResponse :=
  let secretID := secretId in
  let '(url, ok) := resolveClientWebhookURLFromEnv secretID in
  if ok then
    ret (AdminResolved StatusOK
           {| ResolvedWebhookURL := url; ResolvedRateLimitPerMin := 60;
              ResolvedPlan := PlanFREE |})
  else
    '(cli, err) ← getBySecretID d secretID;
    match err, cli with
    | None, Some cli =>
        if IsActive cli then
          ret (AdminResolved StatusOK
                 {| ResolvedWebhookURL := WebhookURL cli;
                    ResolvedRateLimitPerMin := RateLimitPerMin cli;
                    ResolvedPlan := Plan cli |})
        else ret (AdminJSON StatusNotFound
                    [("error", "Cliente não encontrado")])
    | _, _ => ret (AdminJSON StatusNotFound
                     [("error", "Cliente não encontrado")])
    end.

(** [POST /admin/cache/purge/:secretId]; [adminKey] is the value of the
    header [x-admin-key]. *)
Definition adminCachePurge (d : Dependencies) (adminKey secretId : string)
  : M AdminResponse :=
  let token := adminKey in
  if isEmpty (TrimSpace (AdminServiceToken (Cfg d)))
     || negb (String.eqb token (AdminServiceToken (Cfg d)))
  then ret (AdminJSON StatusUnauthorized [("error", "unauthorized")])
  else
    let secretID := TrimSpace secretId in
    if isEmpty secretID then
      ret (AdminJSON StatusBadRequest [("error", "secretId requerido")])
    else
      purge secretID;;
      ret (AdminStatus StatusNoContent).

End handlers.

End router.

(** ** Package [notify] (internal/notify) *)

Module notify.
Import strings.

(** The package variable [last]: when each alert was last posted. *)
Definition Table := gmap string Time.

Definition Minute : Duration := 60 * 1000000000.

(** [time.Now()], as one more reading of the clock. *)
Definition timeNow (h : Host) : M Time :=
  λ s, {| val := Now h (clock s); final := tick 1 s; trace := [] |}.

(** The block between [mu.Lock()] and [mu.Unlock()]: [false] when the
    same key was stamped less than a minute ago; the key is stamped
    otherwise.  The clock is read by [time.Since] only when the key is
    in the table. *)
Definition stamp (h : Host) (key : string) (last : Table)
  : M (bool * Table) :=
  recent ←
    match last !! key with
    | Some t =>
        now ← timeNow h;
        ret (now - t <? Minute)
    | None => ret false
    end;
  if recent then ret (false, last)
  else
    now ← timeNow h;
    ret (true, <[key := now]> last).

(** [fmt.Errorf] with the status of the answer. *)
Definition statusError (prefix : string) (code : Z) : error :=
  prefix +:+ NilZero.string_of_int (Z.to_int code).

Section posting.
Context {RT : GoRuntime} (h : Host).

(** The part from [http.NewRequestWithContext] on, shared by the two
    functions but for the request they build and the text of the status
    error. *)
Definition send (t : Transport) (req : OutRequest) (prefix : string)
  : M (option error) :=
  match http_NewRequest "POST" (URL req) with
  | Err err => ret (Some err)
  | Ok _ =>
      resp ← httpDo t req;
      match resp with
      | Err err => ret (Some err)
      | Ok resp =>
          if 300 <=? StatusCode resp
          then ret (Some (statusError prefix (StatusCode resp)))
          else ret None
      end
  end.

(** [body, _ := json.Marshal(m)] *)
Definition marshalOrEmpty (m : jobject) : string :=
  match json_Marshal_map (Some m) with
  | Ok body => body
  | Err _ => ""
  end.

Definition PostSlack (t : Transport) (webhookURL text : string)
    (last : Table) : M (option error * Table) :=
  if isEmpty webhookURL || isEmpty text then ret (None, last)
  else
    let key := text in
    '(fresh, last) ← stamp h key last;
    if negb fresh then ret (None, last)
    else
      let body := marshalOrEmpty [("text", JString text)] in
      err ← send t {| Method := "POST"; URL := webhookURL;
                      ContentType := "application/json";
                      Authorization := None; ReqBody := body |}
              "slack returned status ";
      ret (err, last).

Definition PostSlackWithBot (t : Transport)
    (botToken channelID text : string) (last : Table)
  : M (option error * Table) :=
  if isEmpty botToken || isEmpty channelID || isEmpty text
  then ret (None, last)
  else
    let key := "bot:" +:+ channelID +:+ ":" +:+ text in
    '(fresh, last) ← stamp h key last;
    if negb fresh then ret (None, last)
    else
      let body :=
        marshalOrEmpty [("channel", JString channelID);
                        ("text", JString text)] in
      err ← send t {| Method := "POST";
                      URL := "https://slack.com/api/chat.postMessage";
                      ContentType := "application/json; charset=utf-8";
                      Authorization := Some ("Bearer " +:+ botToken);
                      ReqBody := body |}
              "slack chat.postMessage status ";
      ret (err, last).

End posting.

End notify.

(** ** Package [config] (internal/config) *)

Module config.

(** [int] and [time.Duration] are 64-bit: the product wraps around. *)
Definition wrap64 (z : Z) : Z := (z + 2 ^ 63) mod 2 ^ 64 - 2 ^ 63.

Definition Second : Duration := 1000000000.

Section loading.
(** [strconv.Atoi] *)
Variable Atoi : string → result error Z.

Definition Load (getenv : string → string) : Config :=
  let port := getenv "PORT" in
  let port := if strings.isEmpty port then "8080" else port in
  let dbURL := getenv "DATABASE_URL" in
  let ttlStr := getenv "CACHE_TTL_SECONDS" in
  let ttlSeconds := 60 in
  let ttlSeconds :=
    if negb (strings.isEmpty ttlStr) then
      match Atoi ttlStr with
      | Ok v => if 0 <? v then v else ttlSeconds
      | Err _ => ttlSeconds
      end
    else ttlSeconds in
  {| Port := port;
     DatabaseURL := dbURL;
     CacheTTL := wrap64 (ttlSeconds * Second);
     AdminIngestURL := getenv "ADMIN_INGEST_URL";
     AdminServiceToken := getenv "ADMIN_SERVICE_TOKEN";
     SlackWebhookURL := getenv "SLACK_WEBHOOK_URL";
     SlackBotToken := getenv "SLACK_BOT_TOKEN";
     SlackChannelID := getenv "SLACK_CHANNEL_ID" |}.

End loading.

End config.

(** ** The control plane: packages [repository] and [service], and the
    handlers that create and update a tenant *)

Module control.
Import strings.

(** [models.Client] as these layers handle it: the plan is the string it
    is in Go, which a request may fill with any text. *)
Record Row : Type := {
  ID : string;
  SecretID : string;
  Name : string;
  WebhookURL : string;
  Plan : string;
  RateLimitPerMin : Z;
  IsActive : bool;
  CreatedAt : Time;
  UpdatedAt : Time
}.

Definition PlanFREE : string := "FREE".

(** The statements the repository executes, with their arguments. *)
Inductive Statement : Type :=
| INSERT (id secret_id name webhook_url plan : string)
         (rate_limit_per_min : Z) (is_active : bool)
| UPDATE (name webhook_url plan : string) (rate_limit_per_min : Z)
         (is_active : bool) (id : string).

(** The database behind [r.db.Exec], and the identifiers that
    [uuid.NewString] draws, in order. *)
Record Database : Type := {
  Exec : Statement → option error;
  NewString : nat → string
}.

(** What a call leaves: the error it returns, the client behind the
    pointer it was given, the statements it executed and the number of
    identifiers drawn so far. *)
Record Outcome : Type := {
  err : option error;
  row : Row;
  executed : list Statement;
  drawn : nat
}.

Definition set_ID (v : string) (c : Row) : Row :=
  {| ID := v; SecretID := SecretID c; Name := Name c;
     WebhookURL := WebhookURL c; Plan := Plan c;
     RateLimitPerMin := RateLimitPerMin c; IsActive := IsActive c;
     CreatedAt := CreatedAt c; UpdatedAt := UpdatedAt c |}.
Definition set_SecretID (v : string) (c : Row) : Row :=
  {| ID := ID c; SecretID := v; Name := Name c;
     WebhookURL := WebhookURL c; Plan := Plan c;
     RateLimitPerMin := RateLimitPerMin c; IsActive := IsActive c;
     CreatedAt := CreatedAt c; UpdatedAt := UpdatedAt c |}.
Definition set_Plan (v : string) (c : Row) : Row :=
  {| ID := ID c; SecretID := SecretID c; Name := Name c;
     WebhookURL := WebhookURL c; Plan := v;
     RateLimitPerMin := RateLimitPerMin c; IsActive := IsActive c;
     CreatedAt := CreatedAt c; UpdatedAt := UpdatedAt c |}.
Definition set_RateLimitPerMin (v : Z) (c : Row) : Row :=
  {| ID := ID c; SecretID := SecretID c; Name := Name c;
     WebhookURL := WebhookURL c; Plan := Plan c;
     RateLimitPerMin := v; IsActive := IsActive c;
     CreatedAt := CreatedAt c; UpdatedAt := UpdatedAt c |}.
Definition set_IsActive (v : bool) (c : Row) : Row :=
  {| ID := ID c; SecretID := SecretID c; Name := Name c;
     WebhookURL := WebhookURL c; Plan := Plan c;
     RateLimitPerMin := RateLimitPerMin c; IsActive := v;
     CreatedAt := CreatedAt c; UpdatedAt := UpdatedAt c |}.

(** *** repository *)

Definition repository_Create (db : Database) (c : Row) (n : nat)
  : Outcome :=
  let '(c, n) :=
    if isEmpty (ID c) then (set_ID (NewString db n) c, S n) else (c, n) in
  let '(c, n) :=
    if isEmpty (SecretID c)
    then (set_SecretID (NewString db n) c, S n) else (c, n) in
  let stmt :=
    INSERT (ID c) (SecretID c) (Name c) (WebhookURL c) (Plan c)
      (RateLimitPerMin c) (IsActive c) in
  {| err := Exec db stmt; row := c; executed := [stmt]; drawn := n |}.

Definition repository_Update (db : Database) (c : Row) (n : nat)
  : Outcome :=
  let stmt :=
    UPDATE (Name c) (WebhookURL c) (Plan c) (RateLimitPerMin c)
      (IsActive c) (ID c) in
  {| err := Exec db stmt; row := c; executed := [stmt]; drawn := n |}.

(** *** service *)

Definition required : error := "name e webhookUrl são obrigatórios".

(** The defaults both methods apply. *)
Definition defaults (c : Row) : Row :=
  let c :=
    if RateLimitPerMin c <=? 0 then set_RateLimitPerMin 60 c else c in
  if isEmpty (Plan c) then set_Plan PlanFREE c else c.

Definition Create (db : Database) (c : Row) (n : nat) : Outcome :=
  if isEmpty (Name c) || isEmpty (WebhookURL c) then
    {| err := Some required; row := c; executed := []; drawn := n |}
  else
    let c := defaults c in
    let c := set_IsActive true c in
    repository_Create db c n.

Definition Update (db : Database) (c : Row) (n : nat) : Outcome :=
  if isEmpty (ID c) then
    {| err := Some "id é obrigatório"; row := c; executed := [];
       drawn := n |}
  else if isEmpty (Name c) || isEmpty (WebhookURL c) then
    {| err := Some required; row := c; executed := []; drawn := n |}
  else repository_Update db (defaults c) n.

(** *** The handlers *)

(** The anonymous struct the two handlers bind the body to;
    [updateClient] has no [SecretID] in it. *)
Record Input : Type := {
  in_Name : string;
  in_SecretID : string;
  in_WebhookURL : string;
  in_Plan : string;
  in_RateLimitPerMin : Z;
  in_IsActive : option bool
}.

(** [c.JSON(code, gin.H{"error": msg})] and
    [c.JSON(code, gin.H{"client": client})] *)
Inductive Reply : Type :=
| ReplyError (code : Z) (msg : string)
| ReplyClient (code : Z) (client : Row).

Definition StatusCreated : Z := 201.

(** [bound] is what [c.ShouldBindJSON(&in)] gives. *)
Definition createClient (db : Database) (bound : result error Input)
    (n : nat) : Reply * list Statement * nat :=
  match bound with
  | Err _ => (ReplyError StatusBadRequest "payload inválido", [], n)
  | Ok input =>
      let client :=
        {| ID := ""; SecretID := in_SecretID input; Name := in_Name input;
           WebhookURL := in_WebhookURL input; Plan := in_Plan input;
           RateLimitPerMin := in_RateLimitPerMin input; IsActive := true;
           CreatedAt := 0; UpdatedAt := 0 |} in
      let client :=
        match in_IsActive input with
        | Some b => set_IsActive b client
        | None => client
        end in
      let o := Create db client n in
      match err o with
      | Some e => (ReplyError StatusBadRequest e, executed o, drawn o)
      | None => (ReplyClient StatusCreated (row o), executed o, drawn o)
      end
  end.

Definition updateClient (db : Database) (id : string)
    (bound : result error Input) (n : nat)
  : Reply * list Statement * nat :=
  match bound with
  | Err _ => (ReplyError StatusBadRequest "payload inválido", [], n)
  | Ok input =>
      let cli :=
        {| ID := id; SecretID := ""; Name := in_Name input;
           WebhookURL := in_WebhookURL input; Plan := in_Plan input;
           RateLimitPerMin := in_RateLimitPerMin input; IsActive := true;
           CreatedAt := 0; UpdatedAt := 0 |} in
      let cli :=
        match in_IsActive input with
        | Some b => set_IsActive b cli
        | None => cli
        end in
      let o := Update db cli n in
      match err o with
      | Some e => (ReplyError StatusBadRequest e, executed o, drawn o)
      | None => (ReplyClient StatusOK (row o), executed o, drawn o)
      end
  end.

End control.

(** ** A reference runtime

    One implementation of [GoRuntime], to run the program on concrete
    requests.  It is written after Go's functions for ASCII text (case
    and space functions) and for JSON documents without [\u] escapes;
    numbers keep their lexeme. *)

Module RefRuntime.
Import strings.

Definition isUpperByte (c : ascii) : bool :=
  let n := nat_of_ascii c in (65 <=? n)%nat && (n <=? 90)%nat.
Definition isLowerByte (c : ascii) : bool :=
  let n := nat_of_ascii c in (97 <=? n)%nat && (n <=? 122)%nat.
Definition lowerByte (c : ascii) : ascii :=
  if isUpperByte c then ascii_of_nat (nat_of_ascii c + 32) else c.
Definition upperByte (c : ascii) : ascii :=
  if isLowerByte c then ascii_of_nat (nat_of_ascii c - 32) else c.

Fixpoint mapBytes (f : ascii → ascii) (s : string) : string :=
  match s with
  | EmptyString => EmptyString
  | String c s' => String (f c) (mapBytes f s')
  end.

Definition ToLower (s : string) : string := mapBytes lowerByte s.
Definition ToUpper (s : string) : string := mapBytes upperByte s.

Definition isSpaceByte (c : ascii) : bool :=
  let n := nat_of_ascii c in
  ((9 <=? n)%nat && (n <=? 13)%nat) || (n =? 32)%nat.

Fixpoint trimLeft (s : string) : string :=
  match s with
  | EmptyString => EmptyString
  | String c s' => if isSpaceByte c then trimLeft s' else s
  end.

Fixpoint trimRight (s : string) : string :=
  match s with
  | EmptyString => EmptyString
  | String c s' =>
      let t := trimRight s' in
      if isEmpty t && isSpaceByte c then EmptyString else String c t
  end.

Definition TrimSpace (s : string) : string := trimRight (trimLeft s).

Definition EqualFold (s t : string) : bool :=
  String.eqb (ToLower s) (ToLower t).

(** *** Reading JSON *)

Definition isJSONSpace (c : ascii) : bool :=
  Ascii.eqb c " " || Ascii.eqb c "009" || Ascii.eqb c "010"
  || Ascii.eqb c "013".

Fixpoint skipSpace (s : string) : string :=
  match s with
  | EmptyString => EmptyString
  | String c s' => if isJSONSpace c then skipSpace s' else s
  end.

Definition isDigit (c : ascii) : bool :=
  let n := nat_of_ascii c in (48 <=? n)%nat && (n <=? 57)%nat.

(** The longest prefix of [s] made of characters that satisfy [p], and
    the rest. *)
Fixpoint span (p : ascii → bool) (s : string) : string * string :=
  match s with
  | EmptyString => (EmptyString, EmptyString)
  | String c s' =>
      if p c then let '(a, b) := span p s' in (String c a, b)
      else (EmptyString, s)
  end.

Fixpoint drop (n : nat) (s : string) : string :=
  match n, s with
  | O, _ => s
  | S _, EmptyString => EmptyString
  | S n', String _ s' => drop n' s'
  end.

Definition unescape (c : ascii) : option ascii :=
  if Ascii.eqb c "034" then Some "034"%char
  else if Ascii.eqb c "\" then Some "\"%char
  else if Ascii.eqb c "/" then Some "/"%char
  else if Ascii.eqb c "b" then Some "008"%char
  else if Ascii.eqb c "f" then Some "012"%char
  else if Ascii.eqb c "n" then Some "010"%char
  else if Ascii.eqb c "r" then Some "013"%char
  else if Ascii.eqb c "t" then Some "009"%char
  else None.

(** The characters of a string literal after its opening quote, up to
    the closing one, and what follows it. *)
Fixpoint lexString (s : string) : option (string * string) :=
  match s with
  | EmptyString => None
  | String c s' =>
      if Ascii.eqb c "034" then Some (EmptyString, s')
      else if Ascii.eqb c "\" then
        match s' with
        | EmptyString => None
        | String e s'' =>
            match unescape e, lexString s'' with
            | Some c', Some (str, rest) => Some (String c' str, rest)
            | _, _ => None
            end
        end
      else if (nat_of_ascii c <? 32)%nat then None
      else
        match lexString s' with
        | Some (str, rest) => Some (String c str, rest)
        | None => None
        end
  end.

(** A number of the JSON grammar: an optional minus, an integer part
    without a leading zero, an optional fraction, an optional exponent. *)
Definition lexNumber (s : string) : option (string * string) :=
  let '(sign, s) :=
    match s with
    | String "-" r => ("-", r)
    | _ => (EmptyString, s)
    end in
  let '(int, s) := span isDigit s in
  if isEmpty int || (HasPrefix int "0" && (1 <? String.length int)%nat)
  then None
  else
    let fracPart :=
      match s with
      | String "." r =>
          let '(ds, r') := span isDigit r in
          if isEmpty ds then None else Some ("." +:+ ds, r')
      | _ => Some (EmptyString, s)
      end in
    match fracPart with
    | None => None
    | Some (frac, s) =>
        let expOf (e : string) (r : string) :=
          let '(sg, r) :=
            match r with
            | String "+" r' => ("+", r')
            | String "-" r' => ("-", r')
            | _ => (EmptyString, r)
            end in
          let '(ds, r') := span isDigit r in
          if isEmpty ds then None else Some (e +:+ sg +:+ ds, r') in
        let expPart :=
          match s with
          | String "e" r => expOf "e" r
          | String "E" r => expOf "E" r
          | _ => Some (EmptyString, s)
          end in
        match expPart with
        | None => None
        | Some (ex, s) => Some (sign +:+ int +:+ frac +:+ ex, s)
        end
    end.

(** A value, the members of an object after its brace, and the elements
    of an array after its bracket.  [fuel] bounds the nesting and the
    number of members; the length of the text is enough. *)
Fixpoint parseValue (fuel : nat) (s : string) : option (jvalue * string) :=
  match fuel with
  | O => None
  | S fuel =>
      match skipSpace s with
      | EmptyString => None
      | String c rest as s =>
          if Ascii.eqb c "{" then
            match skipSpace rest with
            | String "}" rest' => Some (JObject [], rest')
            | rest' =>
                match parseMembers fuel rest' [] with
                | Some (m, r) => Some (JObject m, r)
                | None => None
                end
            end
          else if Ascii.eqb c "[" then
            match skipSpace rest with
            | String "]" rest' => Some (JArray [], rest')
            | rest' =>
                match parseElements fuel rest' with
                | Some (l, r) => Some (JArray l, r)
                | None => None
                end
            end
          else if Ascii.eqb c "034" then
            match lexString rest with
            | Some (str, r) => Some (JString str, r)
            | None => None
            end
          else if HasPrefix s "true" then Some (JBool true, drop 4 s)
          else if HasPrefix s "false" then Some (JBool false, drop 5 s)
          else if HasPrefix s "null" then Some (JNull, drop 4 s)
          else
            match lexNumber s with
            | Some (n, r) => Some (JNumber n, r)
            | None => None
            end
      end
  end
with parseMembers (fuel : nat) (s : string) (acc : jobject)
  : option (jobject * string) :=
  match fuel with
  | O => None
  | S fuel =>
      match skipSpace s with
      | String "034" rest =>
          match lexString rest with
          | Some (key, r) =>
              match skipSpace r with
              | String ":" r' =>
                  match parseValue fuel r' with
                  | Some (v, r'') =>
                      let acc := jset acc key v in
                      match skipSpace r'' with
                      | String "," r3 => parseMembers fuel r3 acc
                      | String "}" r3 => Some (acc, r3)
                      | _ => None
                      end
                  | None => None
                  end
              | _ => None
              end
          | None => None
          end
      | _ => None
      end
  end
with parseElements (fuel : nat) (s : string)
  : option (list jvalue * string) :=
  match fuel with
  | O => None
  | S fuel =>
      match parseValue fuel s with
      | Some (v, r) =>
          match skipSpace r with
          | String "," r' =>
              match parseElements fuel r' with
              | Some (l, r'') => Some (v :: l, r'')
              | None => None
              end
          | String "]" r' => Some ([v], r')
          | _ => None
          end
      | None => None
      end
  end.

(** A whole document: one value and nothing but space after it. *)
Definition parseDocument (s : string) : option jvalue :=
  match parseValue (S (String.length s)) s with
  | Some (v, rest) => if isEmpty (skipSpace rest) then Some v else None
  | None => None
  end.

(** The first value of a stream, as a [json.Decoder] reads it. *)
Definition parseFirst (s : string) : option jvalue :=
  fst <$> parseValue (S (String.length s)) s.

(** *** Decoding into the program's types *)

(** A key of the document names a struct field when they are equal up
    to case. *)
Definition names (key field : string) : bool := EqualFold key field.

Definition typeError : error := "json: cannot unmarshal value into Go type".
Definition syntaxError : error := "json: invalid document".

(** Into a map: [null] makes it nil, an object adds its members. *)
Definition intoMap (old : option jobject) (v : jvalue)
  : result error (option jobject) :=
  match v with
  | JNull => Ok None
  | JObject m =>
      Ok (Some (fold_left (λ acc kv, jset acc kv.1 kv.2) m (default [] old)))
  | _ => Err typeError
  end.

Definition intoBool (old : bool) (v : jvalue) : result error bool :=
  match v with
  | JNull => Ok old
  | JBool b => Ok b
  | _ => Err typeError
  end.

Definition intoString (old : string) (v : jvalue) : result error string :=
  match v with
  | JNull => Ok old
  | JString s => Ok s
  | _ => Err typeError
  end.

(** Into a struct: [null] leaves it alone, an object sets the fields its
    members name, one member after the other. *)
Fixpoint intoStruct {T : Type}
    (field : string → jvalue → T → result error T)
    (members : jobject) (old : T) : result error T :=
  match members with
  | [] => Ok old
  | (k, v) :: rest =>
      match field k v old with
      | Ok new => intoStruct field rest new
      | Err e => Err e
      end
  end.

Definition struct {T : Type}
    (field : string → jvalue → T → result error T)
    (old : T) (v : jvalue) : result error T :=
  match v with
  | JNull => Ok old
  | JObject m => intoStruct field m old
  | _ => Err typeError
  end.

Definition eventField (k : string) (v : jvalue) (old : eventFields)
  : result error eventFields :=
  if names k "Info" then
    match intoMap (Info old) v with
    | Ok m => Ok {| Info := m; Message := Message old |}
    | Err e => Err e
    end
  else if names k "Message" then
    match intoMap (Message old) v with
    | Ok m => Ok {| Info := Info old; Message := m |}
    | Err e => Err e
    end
  else Ok old.

Definition envelopeField (k : string) (v : jvalue) (old : jsonDataEnvelope)
  : result error jsonDataEnvelope :=
  if names k "event" then
    match struct eventField (Event old) v with
    | Ok e => Ok {| Event := e |}
    | Err e => Err e
    end
  else Ok old.

Definition dataField (k : string) (v : jvalue) (old : LIDConvertResponseData)
  : result error LIDConvertResponseData :=
  if names k "success" then
    match intoBool (Success old) v with
    | Ok b => Ok {| Success := b; JID := JID old; JIDClear := JIDClear old |}
    | Err e => Err e
    end
  else if names k "jid" then
    match intoString (JID old) v with
    | Ok s => Ok {| Success := Success old; JID := s; JIDClear := JIDClear old |}
    | Err e => Err e
    end
  else if names k "jidClear" then
    match intoString (JIDClear old) v with
    | Ok s => Ok {| Success := Success old; JID := JID old; JIDClear := s |}
    | Err e => Err e
    end
  else Ok old.

Definition responseField (k : string) (v : jvalue) (old : LIDConvertResponse)
  : result error LIDConvertResponse :=
  if names k "status" then
    match intoBool (Status old) v with
    | Ok b => Ok {| Status := b; Data := Data old |}
    | Err e => Err e
    end
  else if names k "data" then
    match struct dataField (Data old) v with
    | Ok d => Ok {| Status := Status old; Data := d |}
    | Err e => Err e
    end
  else Ok old.

Definition json_Unmarshal_map (s : string) : result error (option jobject) :=
  match parseDocument s with
  | Some v => intoMap None v
  | None => Err syntaxError
  end.

Definition json_Unmarshal_envelope (s : string)
  : result error jsonDataEnvelope :=
  match parseDocument s with
  | Some v =>
      struct envelopeField {| Event := {| Info := None; Message := None |} |} v
  | None => Err syntaxError
  end.

Definition json_Decode_LIDConvertResponse (s : string)
  : result error LIDConvertResponse :=
  match parseFirst s with
  | Some v =>
      struct responseField
        {| Status := false;
           Data := {| Success := false; JID := ""; JIDClear := "" |} |} v
  | None => Err syntaxError
  end.

(** *** Writing JSON *)

Definition hexDigit (n : nat) : ascii :=
  if (n <? 10)%nat then ascii_of_nat (48 + n) else ascii_of_nat (87 + n).

(** One byte of a string literal.  Quotes, backslashes, control
    characters and the three HTML characters are escaped. *)
Definition escapeByte (c : ascii) : string :=
  let n := nat_of_ascii c in
  if Ascii.eqb c "034" then "\" +:+ dq
  else if Ascii.eqb c "\" then "\\"
  else if Ascii.eqb c "010" then "\n"
  else if Ascii.eqb c "013" then "\r"
  else if Ascii.eqb c "009" then "\t"
  else if (n <? 32)%nat || Ascii.eqb c "<" || Ascii.eqb c ">"
          || Ascii.eqb c "&"
  then "\u00" +:+ String (hexDigit (n / 16)) (String (hexDigit (n mod 16)) "")
  else String c "".

Fixpoint escape (s : string) : string :=
  match s with
  | EmptyString => EmptyString
  | String c s' => escapeByte c +:+ escape s'
  end.

Definition marshalString (s : string) : string := quoted (escape s).

Fixpoint join (l : list string) : string :=
  match l with
  | [] => EmptyString
  | [x] => x
  | x :: l' => x +:+ "," +:+ join l'
  end.

(** Insertion of a member in a list ordered by key: maps are written
    with their keys sorted. *)
Fixpoint insertByKey (kv : string * string) (l : list (string * string))
  : list (string * string) :=
  match l with
  | [] => [kv]
  | kv' :: l' =>
      if String.leb kv.1 kv'.1 then kv :: l else kv' :: insertByKey kv l'
  end.

Definition sortByKey (l : list (string * string)) : list (string * string) :=
  foldr insertByKey [] l.

Fixpoint marshalValue (v : jvalue) : string :=
  match v with
  | JNull => "null"
  | JBool true => "true"
  | JBool false => "false"
  | JNumber n => n
  | JString s => marshalString s
  | JArray l =>
      "[" +:+ join ((fix each (l : list jvalue) : list string :=
                       match l with
                       | [] => []
                       | x :: l' => marshalValue x :: each l'
                       end) l) +:+ "]"
  | JObject m =>
      let written :=
        (fix each (m : jobject) : list (string * string) :=
           match m with
           | [] => []
           | (k, x) :: m' => (k, marshalValue x) :: each m'
           end) m in
      "{" +:+ join ((λ kv, marshalString kv.1 +:+ ":" +:+ kv.2)
                      <$> sortByKey written) +:+ "}"
  end.

Definition json_Marshal_map (m : option jobject) : result error string :=
  match m with
  | None => Ok "null"
  | Some m => Ok (marshalValue (JObject m))
  end.

Definition json_Marshal_LIDConvertRequest (r : LIDConvertRequest)
  : result error string :=
  Ok (marshalValue (JObject [("lid", JString (LID r))])).

(** [http.NewRequest] refuses a URL that holds a control character. *)
Fixpoint hasControlByte (s : string) : bool :=
  match s with
  | EmptyString => false
  | String c s' =>
      let n := nat_of_ascii c in
      (n <? 32)%nat || (n =? 127)%nat || hasControlByte s'
  end.

Definition http_NewRequest (method url : string) : result error unit :=
  if hasControlByte url
  then Err "net/url: invalid control character in URL"
  else Ok tt.

Definition runtime : GoRuntime :=
  Build_GoRuntime ToLower ToUpper TrimSpace EqualFold
    json_Unmarshal_map json_Unmarshal_envelope
    json_Decode_LIDConvertResponse json_Marshal_LIDConvertRequest
    json_Marshal_map http_NewRequest.

End RefRuntime.

(** ** A concrete deployment

    One tenant store, one environment, one destination and one identifier
    service, to run the handler and the converter on concrete requests
    with the reference runtime. *)

Module Sample.
Import strings.

Definition second : Duration := 1000000000.

Definition tenant (secret url : string) (active : bool) : Client :=
  {| ID := "id-" +:+ secret; SecretID := secret; Name := "tenant";
     WebhookURL := url; Plan := PlanFREE; RateLimitPerMin := 60;
     IsActive := active; CreatedAt := 0; UpdatedAt := 0 |}.

(** The store: one active tenant, one inactive tenant, one secret on
    which the query fails, and no row for any other secret. *)
Definition store : router.ClientService :=
  λ secretID,
    if String.eqb secretID "abc"
    then (Some (tenant "abc" "http://dest/x" true), None)
    else if String.eqb secretID "off"
    then (Some (tenant "off" "http://dest/off" false), None)
    else if String.eqb secretID "boom"
    then (None, Some "connection reset by peer")
    else (None, Some "no rows in result set").

(** The environment: an override for the secret [e-1], padded with
    blanks, and a variable that holds only blanks for the secret
    [blank]. *)
Definition host : Host :=
  {| Getenv := λ key,
       if String.eqb key "CLIENT_E_1" then " http://env/e1 "
       else if String.eqb key "CLIENT_blank" then "   "
       else "";
     Now := λ n, 1000 * second + Z.of_nat n |}.

(** The network.  The destination answers 201; the identifier service
    converts [123@lid], refuses [999@lid] and is unreachable for any
    other identifier. *)
Definition network : Transport :=
  λ _ req,
    if String.eqb (URL req) "http://dest/x" then
      Ok {| StatusCode := 201; RespContentType := "text/plain";
            RespBody := "ok" |}
    else if String.eqb (URL req) "http://avisa/user/parselid" then
      if Contains (ReqBody req) "123@lid" then
        Ok {| StatusCode := 200; RespContentType := "application/json";
              RespBody :=
                "{" +:+ quoted "status" +:+ ":true," +:+ quoted "data"
                +:+ ":{" +:+ quoted "success" +:+ ":true," +:+ quoted "jid"
                +:+ ":" +:+ quoted "5511@s.whatsapp.net" +:+ "}}" |}
      else if Contains (ReqBody req) "999@lid" then
        Ok {| StatusCode := 500; RespContentType := "text/plain";
              RespBody := "internal error" |}
      else Err "dial tcp: connection refused"
    else Err "dial tcp: no such host".

Definition config : Config :=
  {| Port := "8080"; DatabaseURL := "postgres://db"; CacheTTL := 60 * second;
     AdminIngestURL := ""; AdminServiceToken := "";
     SlackWebhookURL := "http://slack/hook"; SlackBotToken := "";
     SlackChannelID := "" |}.

Definition deps : router.Dependencies :=
  {| router.Cfg := config; router.HTTPClient := network;
     router.ClientSvc := store |}.

Definition converter : webhook.LIDConverter :=
  {| webhook.BaseURL := "http://avisa"; webhook.HTTPClient := network |}.

(** A fresh process, and one whose cache holds a live route for [abc]. *)
Definition fresh : State :=
  {| Cache := cache.NewMemoryCache (CacheTTL config); clock := 0; sent := 0 |}.

Definition warm : State :=
  {| Cache := (cache.Set_ (λ _, 999 * second) "abc" "http://dest/x"
                 (cache.NewMemoryCache (CacheTTL config)) 0).1;
     clock := 0; sent := 0 |}.

Definition post (secret contentType body : string) : Request :=
  {| Param_secretId := secret; Header_ContentType := contentType;
     Body := Ok body; Form := []; MultipartForm := [] |}.

(** The envelope [{"jsonData": e}] for an [e] that needs no escaping. *)
Definition envelope (e : string) : string :=
  "{" +:+ quoted "jsonData" +:+ ":" +:+ quoted e +:+ "}".

(** [{"event":{"Info":{...}}}] with the given members of [Info]. *)
Definition eventWith (info : string) : string :=
  "{" +:+ quoted "event" +:+ ":{" +:+ quoted "Info" +:+ ":{" +:+ info
  +:+ "}}}".

Definition member (key v : string) : string :=
  quoted key +:+ ":" +:+ quoted v.

(** An event with three legacy identifiers: the service converts the
    first, refuses the second and cannot be reached for the third. *)
Definition mixedEvent : string :=
  eventWith (member "Chat" "123@lid" +:+ "," +:+ member "Sender" "999@lid"
             +:+ "," +:+ member "SenderAlt" "777@lid").

(** The handler, the resolver and the extractor of this deployment. *)
Definition handle (req : Request) : M Response :=
  router.webhook (RT := RefRuntime.runtime) host deps req.

Definition resolve (secretID : string) : M (string * bool) :=
  router.resolveClientWebhookCached (RT := RefRuntime.runtime) host deps
    secretID.

Definition payload (contentType body : string) : string :=
  val (router.extractJsonData (RT := RefRuntime.runtime)
         (post "abc" contentType body) (RefRuntime.ToLower contentType)
         body fresh).

(** The body [ConvertLIDToJID] sends for an identifier. *)
Definition lidBody (lid : string) : string :=
  "{" +:+ member "lid" lid +:+ "}".

End Sample.

(** * Properties *)

Import strings.

(** ** The expiring cache *)

Section cache_facts.
Context {K V : Type} `{Countable K} `{GoZero V}.
Implicit Types (c : cache.MemoryCache K V) (key : K) (now : nat → Time)
  (n : nat).

Lemma After_spec (t u : Time) : After t u = true ↔ u < t.
Proof. unfold After. apply Z.ltb_lt. Qed.

Lemma After_false (t u : Time) : After t u = false ↔ t ≤ u.
Proof. unfold After. rewrite Z.ltb_ge. reflexivity. Qed.

Lemma Get_keeps_table now key c n : (cache.Get now key c n).2.1 = c.
Proof.
  unfold cache.Get. destruct (cache.items c !! key) as [e|]; [|done].
  by destruct (After (now n) (cache.expiresAt e)).
Qed.

(** [Get] reads the clock once when it finds an entry, and not at all
    when it finds none. *)
Lemma Get_readings now key c n :
  (cache.Get now key c n).2.2
  = if cache.items c !! key is Some _ then S n else n.
Proof.
  unfold cache.Get. destruct (cache.items c !! key) as [e|]; [|done].
  by destruct (After (now n) (cache.expiresAt e)).
Qed.

Lemma Get_hit now key c n e :
  cache.items c !! key = Some e → now n ≤ cache.expiresAt e →
  cache.Get now key c n = ((cache.value e, true), (c, S n)).
Proof.
  intros Hl Hle. unfold cache.Get. rewrite Hl.
  apply After_false in Hle. by rewrite Hle.
Qed.

Lemma Get_absent now key c n :
  cache.items c !! key = None →
  cache.Get now key c n = ((zero, false), (c, n)).
Proof. intros Hl. unfold cache.Get. by rewrite Hl. Qed.

Lemma Get_expired now key c n e :
  cache.items c !! key = Some e → cache.expiresAt e < now n →
  cache.Get now key c n = ((zero, false), (c, S n)).
Proof.
  intros Hl Hlt. unfold cache.Get. rewrite Hl.
  apply After_spec in Hlt. by rewrite Hlt.
Qed.

Lemma Get_found now key c n v :
  (cache.Get now key c n).1 = (v, true) →
  cache.Get now key c n = ((v, true), (c, S n)).
Proof.
  unfold cache.Get. destruct (cache.items c !! key) as [e|]; [|by inversion 1].
  destruct (After (now n) (cache.expiresAt e)); by inversion 1.
Qed.

(** C9.  [Get] finds a key exactly when the table holds an entry for it
    whose deadline the clock has not passed, and then returns that
    entry's value; it reports not-found, with the zero value, exactly
    when the entry is absent or expired; in every case it leaves the
    table as it was, the expired entry included.  The current time is
    the reading [now n] that [Get] takes from the clock. *)
Theorem Get_found_iff_live now key c n :
  (∀ v, (cache.Get now key c n).1 = (v, true) ↔
        ∃ e, cache.items c !! key = Some e ∧ now n ≤ cache.expiresAt e
             ∧ cache.value e = v)
  ∧ ((cache.Get now key c n).1 = (zero, false) ↔
       cache.items c !! key = None
       ∨ ∃ e, cache.items c !! key = Some e ∧ cache.expiresAt e < now n)
  ∧ (cache.Get now key c n).2.1 = c.
Proof.
  split; [|split].
  - intros v. split.
    + unfold cache.Get.
      destruct (cache.items c !! key) as [e|] eqn:Hl; [|by inversion 1].
      destruct (After (now n) (cache.expiresAt e)) eqn:Ha; [by inversion 1|].
      inversion 1; subst. exists e. by rewrite <- After_false.
    + intros (e & Hl & Hle & <-). by rewrite (Get_hit _ _ _ _ e).
  - split.
    + unfold cache.Get.
      destruct (cache.items c !! key) as [e|] eqn:Hl; [|by left].
      destruct (After (now n) (cache.expiresAt e)) eqn:Ha; [|by inversion 1].
      intros _. right. exists e. by rewrite <- After_spec.
    + intros [Hl | (e & Hl & Hlt)].
      * by rewrite Get_absent.
      * by rewrite (Get_expired _ _ _ _ e).
  - apply Get_keeps_table.
Qed.

(** A sweep removes exactly the entries that [Get] no longer finds. *)
Lemma sweep_lookup (t : Time) key c :
  cache.items (cache.sweep t c) !! key =
    match cache.items c !! key with
    | Some e => if After t (cache.expiresAt e) then None else Some e
    | None => None
    end.
Proof.
  unfold cache.sweep. simpl.
  destruct (cache.items c !! key) as [e|] eqn:Hl.
  - destruct (After t (cache.expiresAt e)) eqn:Ha.
    + apply map_lookup_filter_None. right. intros e' Hl'.
      rewrite Hl in Hl'. inversion Hl'; subst. simpl. by rewrite Ha.
    + apply map_lookup_filter_Some. by split.
  - apply map_lookup_filter_None. by left.
Qed.

Lemma sweep_keeps_Get now key c n :
  (cache.Get now key (cache.sweep (now n) c) n).1 = (cache.Get now key c n).1.
Proof.
  unfold cache.Get at 1. rewrite sweep_lookup. unfold cache.Get.
  destruct (cache.items c !! key) as [e|]; [|done].
  destruct (After (now n) (cache.expiresAt e)) eqn:Ha; [done|]. by rewrite Ha.
Qed.

End cache_facts.

(** The witness of C9: a live entry is found, and the same entry is not
    found once its deadline has passed. *)
Lemma Get_found_iff_live_witness :
  (cache.Get (Now Sample.host) "abc" (Cache Sample.warm) 0).1
    = ("http://dest/x", true)
  ∧ (cache.Get (λ _, 2000 * Sample.second) "abc" (Cache Sample.warm) 0).1
    = ("", false).
Proof.
  split.
  - apply (Get_found_iff_live (Now Sample.host) "abc" (Cache Sample.warm) 0).
    exists (cache.Entry "http://dest/x" (1059 * Sample.second)).
    by vm_compute.
  - apply (Get_found_iff_live (λ _, 2000 * Sample.second) "abc"
             (Cache Sample.warm) 0).
    right. exists (cache.Entry "http://dest/x" (1059 * Sample.second)).
    by vm_compute.
Defined.

(** ** The monad *)

Lemma requests_app (t1 t2 : list Effect) :
  requests (t1 ++ t2) = requests t1 ++ requests t2.
Proof.
  induction t1 as [|e t1 IH]; [done|].
  destruct e; simpl; by rewrite ?IH.
Qed.

Lemma storeQueries_app (t1 t2 : list Effect) :
  storeQueries (t1 ++ t2) = storeQueries t1 ++ storeQueries t2.
Proof.
  induction t1 as [|e t1 IH]; [done|].
  destruct e; simpl; by rewrite ?IH.
Qed.

Lemma isEmpty_true (s : string) : isEmpty s = true ↔ s = "".
Proof. by destruct s. Qed.

Lemma isEmpty_false (s : string) : isEmpty s = false ↔ s ≠ "".
Proof. by destruct s. Qed.

(** Membership in a list that is written out. *)
Ltac in_list :=
  repeat first [ apply list_elem_of_here | apply list_elem_of_further ].

(** ** Lookups in a document after an assignment *)

Lemma jlookup_jset_eq (m : jobject) (k : string) (v : jvalue) :
  jlookup (jset m k v) k = Some v.
Proof.
  induction m as [|[k0 v0] m IH]; simpl.
  - by rewrite String.eqb_refl.
  - destruct (String.eqb k0 k) eqn:E; simpl; by rewrite E.
Qed.

Lemma jlookup_jset_ne (m : jobject) (k k' : string) (v : jvalue) :
  k ≠ k' → jlookup (jset m k v) k' = jlookup m k'.
Proof.
  intros Hne. induction m as [|[k0 v0] m IH]; simpl.
  - apply String.eqb_neq in Hne. by rewrite Hne.
  - destruct (String.eqb k0 k) eqn:E; simpl.
    + apply String.eqb_eq in E as ->.
      apply String.eqb_neq in Hne. by rewrite Hne.
    + by rewrite IH.
Qed.

(** ** The identifier converter *)

Section converter_facts.
Context {RT : GoRuntime}.
Import webhook.
Implicit Types (c : LIDConverter) (s : State).

Lemma ConvertLIDToJID_not_LID c lid apiToken s :
  IsLID lid = false →
  ConvertLIDToJID c lid apiToken s
    = {| val := Ok lid; final := s; trace := [] |}.
Proof. intros Hl. unfold ConvertLIDToJID. by rewrite Hl. Qed.

Lemma ConvertLIDToJID_no_token c lid s :
  IsLID lid = true → BaseURL c ≠ "" →
  ConvertLIDToJID c lid "" s
    = {| val := Err ErrTokenMissing; final := s; trace := [] |}.
Proof.
  intros Hl Hb. unfold ConvertLIDToJID. rewrite Hl. simpl.
  apply isEmpty_false in Hb. by rewrite Hb.
Qed.

(** C6.  An identifier that is not in the legacy format comes back
    unchanged, with no error, no request sent and the state untouched,
    whatever the base URL and the token are; a legacy identifier, with a
    base URL configured and an empty token, gives the token-missing
    error, again with no request sent. *)
Theorem ConvertLIDToJID_noop_and_missing_token c :
  (∀ lid apiToken s,
      IsLID lid = false →
      val (ConvertLIDToJID c lid apiToken s) = Ok lid
      ∧ trace (ConvertLIDToJID c lid apiToken s) = []
      ∧ final (ConvertLIDToJID c lid apiToken s) = s)
  ∧ (∀ lid s,
      IsLID lid = true → BaseURL c ≠ "" →
      val (ConvertLIDToJID c lid "" s) = Err ErrTokenMissing
      ∧ trace (ConvertLIDToJID c lid "" s) = []
      ∧ final (ConvertLIDToJID c lid "" s) = s).
Proof.
  split.
  - intros lid apiToken s Hl. by rewrite ConvertLIDToJID_not_LID.
  - intros lid s Hl Hb. by rewrite ConvertLIDToJID_no_token.
Qed.

(** What a call on a legacy identifier leaves behind: either nothing, or
    exactly the request for that identifier; a result without error
    comes from a positive answer to that request. *)
Lemma ConvertLIDToJID_LID c lid apiToken s :
  IsLID lid = true →
  let r := ConvertLIDToJID c lid apiToken s in
  Cache (final r) = Cache s ∧ clock (final r) = clock s
  ∧ sent (final r) = (sent s + length (requests (trace r)))%nat
  ∧ (∀ jid, val r = Ok jid → converted c apiToken s (trace r) lid jid)
  ∧ (∀ reqBody, sendable c apiToken lid reqBody →
       trace r = [HTTPSend (parselidRequest c apiToken reqBody)]).
Proof.
  intros Hl r. subst r. unfold ConvertLIDToJID. rewrite Hl. simpl.
  destruct (isEmpty (BaseURL c)) eqn:Hb.
  { simpl. repeat split; try done; try lia.
    intros reqBody (Hne & _). by apply isEmpty_false in Hne; congruence. }
  destruct (isEmpty apiToken) eqn:Ht.
  { simpl. repeat split; try done; try lia.
    intros reqBody (_ & Hne & _). by apply isEmpty_false in Hne; congruence. }
  destruct (json_Marshal_LIDConvertRequest {| LID := lid |})
    as [reqBody|e] eqn:Hm.
  2:{ simpl. repeat split; try done; try lia.
      intros reqBody (_ & _ & Hm' & _). congruence. }
  destruct (http_NewRequest "POST" (BaseURL c +:+ "/user/parselid"))
    as [u|e] eqn:Hn.
  2:{ simpl. repeat split; try done; try lia.
      intros reqBody' (_ & _ & _ & Hn'). congruence. }
  unfold bind, httpDo. simpl.
  assert (Hsend : ∀ reqBody', sendable c apiToken lid reqBody' →
            reqBody' = reqBody).
  { intros reqBody' (_ & _ & Hm' & _). congruence. }
  destruct (HTTPClient c (sent s) (parselidRequest c apiToken reqBody))
    as [resp|e] eqn:Hd; simpl.
  2:{ repeat split; try done; try lia.
      intros reqBody' ->%Hsend. done. }
  destruct (StatusCode resp =? StatusOK) eqn:Hc; simpl.
  2:{ repeat split; try done; try lia.
      intros reqBody' ->%Hsend. done. }
  destruct (json_Decode_LIDConvertResponse (RespBody resp))
    as [response|e] eqn:Hdec; simpl.
  2:{ repeat split; try done; try lia.
      intros reqBody' ->%Hsend. done. }
  destruct (Status response) eqn:Hst; simpl.
  2:{ repeat split; try done; try lia.
      intros reqBody' ->%Hsend. done. }
  destruct (Success (Data response)) eqn:Hsu; simpl.
  2:{ repeat split; try done; try lia.
      intros reqBody' ->%Hsend. done. }
  repeat split; try done; try lia.
  - intros jid [= <-]. exists 0%nat, reqBody, resp, response.
    rewrite Nat.add_0_r. apply Z.eqb_eq in Hc. done.
  - intros reqBody' ->%Hsend. done.
Qed.

(** A conversion seen in a later part of a run is a conversion of the
    whole run. *)
Lemma converted_later c apiToken s0 s t0 t lid jid :
  sent s = (sent s0 + length (requests t0))%nat →
  converted c apiToken s t lid jid →
  converted c apiToken s0 (t0 ++ t) lid jid.
Proof.
  intros Hs (i & reqBody & resp & response & Hm & Hi & Hd & Hrest).
  exists (length (requests t0) + i)%nat, reqBody, resp, response.
  split; [done|]. split.
  - rewrite requests_app, lookup_app_r by lia.
    by replace (length (requests t0) + i - length (requests t0))%nat
      with i by lia.
  - split; [|done]. by rewrite Nat.add_assoc, <- Hs.
Qed.

Lemma converted_earlier c apiToken s t t' lid jid :
  converted c apiToken s t lid jid →
  converted c apiToken s (t ++ t') lid jid.
Proof.
  intros (i & reqBody & resp & response & Hm & Hi & Hrest).
  exists i, reqBody, resp, response. split; [done|]. split; [|done].
  rewrite requests_app. by apply lookup_app_l_Some.
Qed.

(** What one block of [DetectAndConvertIDs] does for its field: the
    only entry it may add to [Conversions] is the one of its field, and
    then the service converted the identifier; and when the field holds
    a legacy identifier that can be sent, the request goes out. *)
Definition block_spec (field : string)
    (block : LIDConverter → string → jobject → ConvertedEventInfo
             → M ConvertedEventInfo) : Prop :=
  ∀ c apiToken info result s,
    let r := block c apiToken info result s in
    sent (final r) = (sent s + length (requests (trace r)))%nat
    ∧ (∀ f v, Conversions (val r) !! f = Some v →
         Conversions result !! f = Some v
         ∨ (f = field ∧ ∃ lid jid,
              jlookup_string info field = Some lid ∧ lid ≠ ""
              ∧ IsLID lid = true ∧ v = lid +:+ " -> " +:+ jid
              ∧ converted c apiToken s (trace r) lid jid))
    ∧ (∀ lid reqBody,
         jlookup_string info field = Some lid → lid ≠ "" →
         IsLID lid = true → sendable c apiToken lid reqBody →
         HTTPSend (parselidRequest c apiToken reqBody) ∈ trace r).

Ltac block_idle :=
  simpl; split; [lia|]; split; [by left|];
  intros; simplify_eq; try congruence.

Ltac block_proof c apiToken info result s x jid :=
  intros c apiToken info result s; simpl;
  match goal with
  | |- context [jlookup_string info ?field] =>
      destruct (jlookup_string info field) as [x|] eqn:Hx; [|by block_idle]
  end;
  destruct (isEmpty x) eqn:He;
  [ block_idle; match goal with
                | Hne : _ ≠ "" |- _ => by apply isEmpty_false in Hne; congruence
                end |];
  destruct (IsLID x) eqn:Hl; [|by block_idle];
  unfold bind; simpl;
  destruct (ConvertLIDToJID_LID c x apiToken s Hl)
    as (HC & Hk & Hs & Hok & Hsend); simpl in *;
  split;
  [ repeat match goal with
      | |- context [match ?v with Ok _ => _ | Err _ => _ end] => destruct v
      | |- context [if ?b then _ else _] => destruct b
      end; simpl; rewrite ?app_nil_r; lia |];
  split;
  [ intros f v;
    destruct (val (ConvertLIDToJID c x apiToken s)) as [jid|e] eqn:Hv;
    simpl;
    repeat match goal with
      | |- context [if ?b then _ else _] => destruct b
      end; simpl; rewrite ?app_nil_r;
    try (intros Hf; by left);
    intros Hf;
    (apply lookup_insert_Some in Hf as [[<- <-] | [Hne Hf]]; [right|by left]);
    (split; [done|]); exists x, jid;
    apply isEmpty_false in He; repeat split; try done; by apply Hok
  | intros lid reqBody [= <-] Hne _ Hse;
    specialize (Hsend _ Hse);
    apply elem_of_app; left; rewrite Hsend; apply list_elem_of_singleton;
    done ].

Lemma detectChat_spec : block_spec "Chat" detectChat.
Proof. unfold block_spec, detectChat. block_proof c apiToken info res0 s x jid. Qed.

Lemma detectSender_spec : block_spec "Sender" detectSender.
Proof. unfold block_spec, detectSender. block_proof c apiToken info res0 s x jid. Qed.

Lemma detectSenderAlt_spec : block_spec "SenderAlt" detectSenderAlt.
Proof. unfold block_spec, detectSenderAlt. block_proof c apiToken info res0 s x jid. Qed.

Lemma detectRecipientAlt_spec : block_spec "RecipientAlt" detectRecipientAlt.
Proof. unfold block_spec, detectRecipientAlt. block_proof c apiToken info res0 s x jid. Qed.

Lemma detectIsGroup_Conversions info (result : ConvertedEventInfo) :
  Conversions (detectIsGroup info result) = Conversions result.
Proof.
  unfold detectIsGroup.
  destruct (jlookup info "IsGroup") as [[]|]; done.
Qed.

Lemma detectGroupChat_Conversions (result : ConvertedEventInfo) :
  Conversions (detectGroupChat result) = Conversions result.
Proof.
  unfold detectGroupChat. destruct (isEmpty (ChatJID result)); [done|].
  by destruct (_ || _).
Qed.


Lemma HasConversions_false (c : ConvertedEventInfo) :
  HasConversions c = false ↔ Conversions c = ∅.
Proof.
  unfold HasConversions. rewrite Nat.ltb_ge, Nat.le_0_r.
  apply map_size_empty_iff.
Qed.

Lemma HasConversions_true (c : ConvertedEventInfo) :
  HasConversions c = true ↔ Conversions c ≠ ∅.
Proof.
  rewrite <- HasConversions_false. by destruct (HasConversions c).
Qed.

(** [applyField] writes [jid] under [field] when [jid] and [orig] are
    not empty and differ, and leaves every other member as it is. *)
Lemma applyField_lookup (field jid orig : string) (info : jobject) k :
  jlookup (applyField field jid orig info) k
  = if decide (k = field ∧ jid ≠ "" ∧ orig ≠ "" ∧ jid ≠ orig)
    then Some (JString jid) else jlookup info k.
Proof.
  unfold applyField.
  destruct (isEmpty jid) eqn:Hj; simpl.
  { apply isEmpty_true in Hj. case_decide; [|done]. tauto. }
  destruct (isEmpty orig) eqn:Ho; simpl.
  { apply isEmpty_true in Ho. case_decide; [|done]. tauto. }
  apply isEmpty_false in Hj, Ho.
  destruct (String.eqb jid orig) eqn:He; simpl.
  { apply String.eqb_eq in He. case_decide; [|done]. tauto. }
  apply String.eqb_neq in He.
  case_decide as Hd.
  - destruct Hd as [-> _]. apply jlookup_jset_eq.
  - apply jlookup_jset_ne. intros <-. tauto.
Qed.

(** C10.  With no conversion recorded, [ApplyConversionsToJSON] returns
    [OriginalData] as it is, with no error and without parsing it.  With
    at least one conversion recorded, it parses [OriginalData], fails
    when that does not parse, and otherwise serializes the parsed
    document with the identifiers substituted: when the document has an
    [event] object with an [Info] object, what is serialized is a
    document that differs from the parsed one only inside [event.Info],
    and there only in the four identifier fields, each of which holds its
    final identifier exactly when that identifier and the original are
    not empty and differ; a document without such objects is serialized
    as it was parsed. *)
Theorem ApplyConversionsToJSON_verbatim_without_conversions :
  (∀ c : ConvertedEventInfo,
      Conversions c = ∅ → ApplyConversionsToJSON c = Ok (OriginalData c))
  ∧ (∀ (c : ConvertedEventInfo) e, Conversions c ≠ ∅ →
       json_Unmarshal_map (OriginalData c) = Err e →
       ApplyConversionsToJSON c = Err (ErrParseOriginal e))
  ∧ (∀ (c : ConvertedEventInfo) jsonData, Conversions c ≠ ∅ →
       json_Unmarshal_map (OriginalData c) = Ok jsonData →
       ApplyConversionsToJSON c =
         match json_Marshal_map (applyConversions c jsonData) with
         | Ok modifiedJSON => Ok modifiedJSON
         | Err e => Err (ErrSerializeModified e)
         end)
  ∧ (∀ (c : ConvertedEventInfo) m event info, Conversions c ≠ ∅ →
       json_Unmarshal_map (OriginalData c) = Ok (Some m) →
       jlookup_object m "event" = Some event →
       jlookup_object event "Info" = Some info →
       ∃ m' event' info',
         ApplyConversionsToJSON c =
           match json_Marshal_map (Some m') with
           | Ok modifiedJSON => Ok modifiedJSON
           | Err e => Err (ErrSerializeModified e)
           end
         ∧ (∀ k, k ≠ "event" → jlookup m' k = jlookup m k)
         ∧ jlookup_object m' "event" = Some event'
         ∧ (∀ k, k ≠ "Info" → jlookup event' k = jlookup event k)
         ∧ jlookup_object event' "Info" = Some info'
         ∧ (∀ k, k ∉ idFields → jlookup info' k = jlookup info k)
         ∧ ∀ field jid orig,
             (field, jid, orig)
             ∈ [("Chat", ChatJID c, Chat c);
                ("Sender", SenderJID c, Sender c);
                ("SenderAlt", SenderAltJID c, SenderAlt c);
                ("RecipientAlt", RecipientAltJID c, RecipientAlt c)] →
             jlookup info' field
             = if decide (jid ≠ "" ∧ orig ≠ "" ∧ jid ≠ orig)
               then Some (JString jid) else jlookup info field)
  ∧ (∀ (c : ConvertedEventInfo) jsonData, Conversions c ≠ ∅ →
       json_Unmarshal_map (OriginalData c) = Ok jsonData →
       (jsonData ≫= (λ m, jlookup_object m "event"))
         ≫= (λ event, jlookup_object event "Info") = None →
       ApplyConversionsToJSON c =
         match json_Marshal_map jsonData with
         | Ok modifiedJSON => Ok modifiedJSON
         | Err e => Err (ErrSerializeModified e)
         end).
Proof.
  assert (Hrun : ∀ (c : ConvertedEventInfo) jsonData, Conversions c ≠ ∅ →
            json_Unmarshal_map (OriginalData c) = Ok jsonData →
            ApplyConversionsToJSON c =
              match json_Marshal_map (applyConversions c jsonData) with
              | Ok modifiedJSON => Ok modifiedJSON
              | Err e => Err (ErrSerializeModified e)
              end).
  { intros c jsonData Hc Hj. unfold ApplyConversionsToJSON.
    apply HasConversions_true in Hc. rewrite Hc, Hj. simpl.
    by destruct (json_Marshal_map _). }
  split; [|split; [|split; [exact Hrun|split]]].
  - intros c Hc. unfold ApplyConversionsToJSON.
    apply HasConversions_false in Hc. by rewrite Hc.
  - intros c e Hc He. unfold ApplyConversionsToJSON.
    apply HasConversions_true in Hc. by rewrite Hc, He.
  - intros c m event info Hc Hj He Hi. rewrite (Hrun c (Some m) Hc Hj).
    unfold applyConversions. simpl. rewrite He, Hi. simpl.
    eexists _, _, _. split; [reflexivity|].
    split; [by intros k Hk; apply jlookup_jset_ne|].
    unfold jlookup_object. rewrite jlookup_jset_eq. split; [done|].
    split; [by intros k Hk; apply jlookup_jset_ne|].
    rewrite jlookup_jset_eq. split; [done|]. split.
    + intros k Hk. rewrite !applyField_lookup.
      repeat case_decide; try done;
        destruct_and?; subst; exfalso; apply Hk; unfold idFields; in_list.
    + intros field jid orig Hin. rewrite !applyField_lookup.
      repeat (apply elem_of_cons in Hin as [[= -> -> ->] | Hin]);
        [..|by apply elem_of_nil in Hin];
        repeat case_decide; try done; destruct_and?; try done; tauto.
  - intros c jsonData Hc Hj Hnone. rewrite (Hrun c jsonData Hc Hj).
    unfold applyConversions.
    destruct (jsonData ≫= (λ m, jlookup_object m "event"))
      as [event|]; [|done].
    simpl in Hnone. by rewrite Hnone.
Qed.

End converter_facts.

(** The witness of C6: an identifier of the canonical format passes
    through, and a legacy identifier without a token is refused before
    anything is sent. *)
Lemma ConvertLIDToJID_noop_and_missing_token_witness :
  val (webhook.ConvertLIDToJID (RT := RefRuntime.runtime) Sample.converter
         "5511@s.whatsapp.net" "tok" Sample.fresh)
    = Ok "5511@s.whatsapp.net"
  ∧ val (webhook.ConvertLIDToJID (RT := RefRuntime.runtime) Sample.converter
           "123@LID" "" Sample.fresh)
    = Err webhook.ErrTokenMissing
  ∧ trace (webhook.ConvertLIDToJID (RT := RefRuntime.runtime) Sample.converter
             "123@LID" "" Sample.fresh) = [].
Proof.
  destruct (ConvertLIDToJID_noop_and_missing_token (RT := RefRuntime.runtime)
              Sample.converter) as [Hnoop Htoken].
  split.
  - apply Hnoop. reflexivity.
  - destruct (Htoken "123@LID" Sample.fresh) as (Hv & Ht & _).
    + reflexivity.
    + discriminate.
    + by split.
Defined.

(** The witness of C10: a record without conversions whose original data
    is not JSON comes back as it is; with a conversion recorded the same
    data is refused; and an event whose chat was converted is serialized
    with the final identifier in its place. *)
Lemma ApplyConversionsToJSON_verbatim_without_conversions_witness :
  webhook.ApplyConversionsToJSON (RT := RefRuntime.runtime)
    (webhook.emptyInfo "not json") = Ok "not json"
  ∧ webhook.ApplyConversionsToJSON (RT := RefRuntime.runtime)
      (webhook.set_Conversion "Chat" "1@lid" "5511@s.whatsapp.net"
         (webhook.emptyInfo "not json"))
    = Err (webhook.ErrParseOriginal RefRuntime.syntaxError)
  ∧ webhook.ApplyConversionsToJSON (RT := RefRuntime.runtime)
      (webhook.set_Conversion "Chat" "123@lid" "5511@s.whatsapp.net"
         (webhook.set_ChatJID "5511@s.whatsapp.net"
            (webhook.set_Chat "123@lid"
               (webhook.emptyInfo
                  (Sample.eventWith (Sample.member "Chat" "123@lid"))))))
    = Ok (Sample.eventWith (Sample.member "Chat" "5511@s.whatsapp.net"))
  ∧ ∃ m' event' info',
      webhook.ApplyConversionsToJSON (RT := RefRuntime.runtime)
        (webhook.set_Conversion "Chat" "123@lid" "5511@s.whatsapp.net"
           (webhook.set_ChatJID "5511@s.whatsapp.net"
              (webhook.set_Chat "123@lid"
                 (webhook.emptyInfo
                    (Sample.eventWith (Sample.member "Chat" "123@lid"))))))
      = match json_Marshal_map (GoRuntime := RefRuntime.runtime) (Some m') with
        | Ok modifiedJSON => Ok modifiedJSON
        | Err e => Err (webhook.ErrSerializeModified e)
        end
      ∧ jlookup_object m' "event" = Some event'
      ∧ jlookup_object event' "Info" = Some info'
      ∧ jlookup info' "Chat" = Some (JString "5511@s.whatsapp.net").
Proof.
  destruct (ApplyConversionsToJSON_verbatim_without_conversions
              (RT := RefRuntime.runtime)) as (Hempty & Hfail & _ & Hsub & _).
  split; [|split; [|split]].
  - apply Hempty. reflexivity.
  - apply Hfail.
    + simpl. apply insert_non_empty.
    + reflexivity.
  - by vm_compute.
  - destruct (Hsub
                (webhook.set_Conversion "Chat" "123@lid" "5511@s.whatsapp.net"
                   (webhook.set_ChatJID "5511@s.whatsapp.net"
                      (webhook.set_Chat "123@lid"
                         (webhook.emptyInfo
                            (Sample.eventWith
                               (Sample.member "Chat" "123@lid"))))))
                [("event", JObject [("Info", JObject [("Chat", JString "123@lid")])])]
                [("Info", JObject [("Chat", JString "123@lid")])]
                [("Chat", JString "123@lid")])
      as (m' & event' & info' & Hrun & _ & Hev & _ & Hinfo & _ & Hfields).
    + simpl. apply insert_non_empty.
    + by vm_compute.
    + reflexivity.
    + reflexivity.
    + exists m', event', info'. split; [exact Hrun|].
      split; [exact Hev|]. split; [exact Hinfo|].
      rewrite (Hfields "Chat" "5511@s.whatsapp.net" "123@lid")
        by apply list_elem_of_here.
      reflexivity.
Defined.


(** ** Tenant resolution *)

Section resolver_facts.
Context {RT : GoRuntime} (h : Host).
Import router.
Implicit Types (d : Dependencies) (s : State).

Lemma resolve_cached d secretID s v :
  (cache.Get (Now h) secretID (Cache s) (clock s)).1 = (v, true) →
  resolveClientWebhookCached h d secretID s
    = {| val := (v, true); final := tick 1 s; trace := [] |}.
Proof.
  intros Hg%Get_found. unfold resolveClientWebhookCached, bind, cacheGet.
  unfold onCache. simpl. by rewrite Hg.
Qed.

Lemma resolve_from_env d secretID s url :
  let g := cache.Get (Now h) secretID (Cache s) (clock s) in
  g.1.2 = false →
  resolveClientWebhookURLFromEnv h secretID = (url, true) →
  resolveClientWebhookCached h d secretID s
    = {| val := (url, true);
         final := {| Cache := (cache.Set_ (Now h) secretID url (Cache s)
                                 g.2.2).1;
                     clock := S g.2.2; sent := sent s |};
         trace := [] |}.
Proof.
  intros g Hg He. unfold resolveClientWebhookCached, bind, cacheGet.
  unfold onCache. simpl. fold g.
  pose proof (Get_keeps_table (Now h) secretID (Cache s) (clock s)) as Hk.
  fold g in Hk. destruct g as [[v ok] [c n]]. simpl in *. subst ok c.
  by rewrite He.
Qed.

Lemma resolve_from_store d secretID s :
  let g := cache.Get (Now h) secretID (Cache s) (clock s) in
  g.1.2 = false →
  (resolveClientWebhookURLFromEnv h secretID).2 = false →
  resolveClientWebhookCached h d secretID s
    = match ClientSvc d secretID with
      | (Some client, None) =>
          if IsActive client then
            {| val := (WebhookURL client, true);
               final := {| Cache := (cache.Set_ (Now h) secretID
                                       (WebhookURL client) (Cache s) g.2.2).1;
                           clock := S g.2.2; sent := sent s |};
               trace := [StoreQuery secretID] |}
          else {| val := ("", false);
                  final := {| Cache := Cache s; clock := g.2.2;
                              sent := sent s |};
                  trace := [StoreQuery secretID] |}
      | _ => {| val := ("", false);
                final := {| Cache := Cache s; clock := g.2.2;
                            sent := sent s |};
                trace := [StoreQuery secretID] |}
      end.
Proof.
  intros g Hg He. unfold resolveClientWebhookCached, bind, cacheGet.
  unfold onCache. simpl. fold g.
  pose proof (Get_keeps_table (Now h) secretID (Cache s) (clock s)) as Hk.
  fold g in Hk. destruct g as [[v ok] [c n]]. simpl in *. subst ok c.
  destruct (resolveClientWebhookURLFromEnv h secretID) as [url ok].
  simpl in He. subst ok. simpl.
  destruct (ClientSvc d secretID) as [[client|] [e|]]; simpl; try done.
  by destruct (IsActive client).
Qed.

Lemma env_lower secretID :
  let key := "CLIENT_" +:+ ToLower (ReplaceAll secretID "-" "_") in
  TrimSpace (Getenv h key) ≠ "" →
  resolveClientWebhookURLFromEnv h secretID
    = (TrimSpace (Getenv h key), true).
Proof.
  intros key Hne. unfold resolveClientWebhookURLFromEnv. fold key.
  apply isEmpty_false in Hne. by rewrite Hne.
Qed.

Lemma env_upper secretID :
  let lower := "CLIENT_" +:+ ToLower (ReplaceAll secretID "-" "_") in
  let upper := "CLIENT_" +:+ ToUpper (ReplaceAll secretID "-" "_") in
  TrimSpace (Getenv h lower) = "" →
  TrimSpace (Getenv h upper) ≠ "" →
  resolveClientWebhookURLFromEnv h secretID
    = (TrimSpace (Getenv h upper), true).
Proof.
  intros lower upper Hl Hu. unfold resolveClientWebhookURLFromEnv.
  fold lower upper. rewrite Hl. simpl.
  apply isEmpty_false in Hu. by rewrite Hu.
Qed.

Lemma env_none secretID :
  let lower := "CLIENT_" +:+ ToLower (ReplaceAll secretID "-" "_") in
  let upper := "CLIENT_" +:+ ToUpper (ReplaceAll secretID "-" "_") in
  TrimSpace (Getenv h lower) = "" →
  TrimSpace (Getenv h upper) = "" →
  resolveClientWebhookURLFromEnv h secretID = ("", false).
Proof.
  intros lower upper Hl Hu. unfold resolveClientWebhookURLFromEnv.
  fold lower upper. by rewrite Hl, Hu.
Qed.

End resolver_facts.

Section resolver_claims.
Context {RT : GoRuntime}.
Import router.
Implicit Types (h : Host) (d : Dependencies) (s : State).

(** C3, as amended.  [Resolve] tries three sources in order and stops at
    the first hit.  (1) A live cache entry is returned, and then neither
    the environment nor the store is consulted and the cache is left as
    it is.  (2) On a miss, the variable named [CLIENT_] followed by the
    secret with [-] replaced by [_], in lowercase and then in uppercase,
    gives the destination when its value is not empty once trimmed; the
    trimmed value is stored in the cache and returned, and the store is
    not queried.  (3) Otherwise the store is queried, and an active
    tenant's URL is stored in the cache and returned.  Consequently,
    with a live cache entry the result is the cached value under every
    environment: an override set after the entry was cached has no
    effect while the entry lives. *)
Theorem resolve_chain_order h d secretID s :
  let lower :=
    TrimSpace (Getenv h ("CLIENT_" +:+ ToLower (ReplaceAll secretID "-" "_")))
  in
  let upper :=
    TrimSpace (Getenv h ("CLIENT_" +:+ ToUpper (ReplaceAll secretID "-" "_")))
  in
  let lookup := cache.Get (Now h) secretID (Cache s) (clock s) in
  let populated url :=
    {| Cache := (cache.Set_ (Now h) secretID url (Cache s) lookup.2.2).1;
       clock := S lookup.2.2; sent := sent s |} in
  let r := resolveClientWebhookCached h d secretID s in
  (∀ v, lookup.1 = (v, true) →
        r = {| val := (v, true); final := tick 1 s; trace := [] |})
  ∧ (lookup.1.2 = false → lower ≠ "" →
     r = {| val := (lower, true); final := populated lower; trace := [] |})
  ∧ (lookup.1.2 = false → lower = "" → upper ≠ "" →
     r = {| val := (upper, true); final := populated upper; trace := [] |})
  ∧ (lookup.1.2 = false → lower = "" → upper = "" →
     ∀ client, ClientSvc d secretID = (Some client, None) →
               IsActive client = true →
     r = {| val := (WebhookURL client, true);
            final := populated (WebhookURL client);
            trace := [StoreQuery secretID] |})
  ∧ (∀ v getenv, lookup.1 = (v, true) →
       val (resolveClientWebhookCached
              {| Getenv := getenv; Now := Now h |} d secretID s)
       = (v, true)).
Proof.
  intros lower upper lookup populated r.
  split; [|split; [|split; [|split]]].
  - intros v Hv. by apply resolve_cached.
  - intros Hmiss Hl. apply resolve_from_env; [done|]. by apply env_lower.
  - intros Hmiss Hl Hu. apply resolve_from_env; [done|].
    by apply env_upper.
  - intros Hmiss Hl Hu client Hc Ha. subst r.
    rewrite resolve_from_store; [|done|by rewrite env_none].
    by rewrite Hc, Ha.
  - intros v getenv Hv.
    by rewrite (resolve_cached {| Getenv := getenv; Now := Now h |}
                  d secretID s v).
Qed.

End resolver_claims.

(** ** The webhook handler *)

Lemma elem_of_requests (t : list Effect) (req : OutRequest) :
  HTTPSend req ∈ t ↔ req ∈ requests t.
Proof.
  induction t as [|e t IH]; simpl.
  - by rewrite !elem_of_nil.
  - rewrite elem_of_cons, IH.
    destruct e; rewrite ?elem_of_cons;
      (split;
       [ intros [Heq|Hin];
         [try discriminate; injection Heq as ->; by left | by auto]
       | try (intros [->|Hin]; by auto); by auto ]).
Qed.

Lemma logs_requests (t : list Effect) :
  Forall (λ e, isLogLine e = true) t → requests t = [].
Proof.
  induction 1 as [|e t He _ IH]; [done|]. by destruct e.
Qed.

Lemma logs_storeQueries (t : list Effect) :
  Forall (λ e, isLogLine e = true) t → storeQueries t = [].
Proof.
  induction 1 as [|e t He _ IH]; [done|]. by destruct e.
Qed.

Lemma logs_not_outbound (t : list Effect) :
  Forall (λ e, isLogLine e = true) t → Forall (λ e, isOutbound e = false) t.
Proof. intros Ht. eapply Forall_impl; [done|]. by intros []. Qed.

Section quiet_facts.
Context {RT : GoRuntime}.
Import router.

Lemma quiet_ret {A} (a : A) : quiet (ret a).
Proof. exists a, []. by split. Qed.

Lemma quiet_logInfo l : quiet (logInfo l).
Proof. exists tt, [InfoLog l]. split; [by repeat constructor|done]. Qed.

Lemma quiet_bind {A B} (m : M A) (f : A → M B) :
  quiet m → (∀ a, quiet (f a)) → quiet (bind m f).
Proof.
  intros (a & t & Ht & Hm) Hf. destruct (Hf a) as (b & t' & Ht' & Hfa).
  exists b, (t ++ t'). split; [by apply Forall_app|].
  intros s. unfold bind. by rewrite Hm; simpl; rewrite Hfa.
Qed.

Lemma quiet_rangeBody body : quiet (rangeBody body).
Proof.
  induction body as [|[key value] rest IH]; simpl; [apply quiet_ret|].
  destruct (_ && _).
  { apply quiet_bind; [apply quiet_logInfo|intros; apply quiet_ret]. }
  destruct value; try done.
  destruct (HasPrefix s "{"); [|done].
  apply quiet_bind; [apply quiet_logInfo|intros; apply quiet_ret].
Qed.

Lemma quiet_jsonDataFromJSON bodyBytes : quiet (jsonDataFromJSON bodyBytes).
Proof.
  unfold jsonDataFromJSON.
  destruct (isEmpty (TrimSpace bodyBytes)); [apply quiet_ret|].
  destruct (json_Unmarshal_map bodyBytes) as [m|e].
  2:{ apply quiet_bind; [apply quiet_logInfo|intros; apply quiet_ret]. }
  apply quiet_bind; [apply quiet_logInfo|intros _].
  destruct (nonBlankString _ "jsonData").
  { apply quiet_bind; [apply quiet_logInfo|intros; apply quiet_ret]. }
  destruct (jlookup_object _ "body") as [body|].
  2:{ apply quiet_bind; [apply quiet_logInfo|intros; apply quiet_ret]. }
  apply quiet_bind; [apply quiet_logInfo|intros _].
  apply quiet_bind; [apply quiet_rangeBody|intros jsonDataStr].
  destruct (isEmpty jsonDataStr); [|apply quiet_ret].
  destruct (nonBlankString body "jsonData");
    (apply quiet_bind; [apply quiet_logInfo|intros; apply quiet_ret]).
Qed.

Lemma quiet_extractJsonData req ctLower bodyBytes :
  quiet (extractJsonData req ctLower bodyBytes).
Proof.
  unfold extractJsonData.
  destruct (HasPrefix ctLower "application/json");
    [apply quiet_jsonDataFromJSON|].
  destruct (HasPrefix ctLower "multipart/form-data"); apply quiet_ret.
Qed.

End quiet_facts.

(** Normal form of the requests and store queries of a composed trace. *)
Ltac trace_norm :=
  repeat first
    [ rewrite app_nil_r | rewrite requests_app | rewrite storeQueries_app
    | progress simpl ].

Section handler_facts.
Context {RT : GoRuntime} (h : Host).
Import router.
Implicit Types (d : Dependencies) (s : State) (req : Request).

Lemma notifySlack_frame d msg s :
  final (notifySlack d msg s) = s
  ∧ requests (trace (notifySlack d msg s)) = []
  ∧ storeQueries (trace (notifySlack d msg s)) = [].
Proof.
  unfold notifySlack. destruct (negb _); [done|]. by destruct (_ && _).
Qed.

(** Resolution sends nothing; it asks the store at most once, for the
    secret it was given. *)
Lemma resolve_frame d secretID s :
  let rr := resolveClientWebhookCached h d secretID s in
  sent (final rr) = sent s
  ∧ (trace rr = [] ∨ trace rr = [StoreQuery secretID]).
Proof.
  intros rr. subst rr.
  destruct (cache.Get (Now h) secretID (Cache s) (clock s)).1
    as [v [|]] eqn:Hg.
  { rewrite (resolve_cached h d secretID s v Hg). simpl. by auto. }
  destruct (resolveClientWebhookURLFromEnv h secretID) as [url [|]] eqn:He.
  { rewrite (resolve_from_env h d secretID s url); [simpl; by auto| |done].
    by rewrite Hg. }
  rewrite resolve_from_store; [|by rewrite Hg|by rewrite He].
  destruct (ClientSvc d secretID) as [[client|] [e|]]; simpl; auto.
  destruct (IsActive client); simpl; auto.
Qed.

Lemma forward_spec d secretID contentType bodyBytes targetURL s :
  let out := forwardRequest targetURL contentType bodyBytes in
  let r := forward d secretID contentType bodyBytes targetURL s in
  storeQueries (trace r) = []
  ∧ match http_NewRequest "POST" targetURL with
    | Err e =>
        val r = RespJSON StatusInternalServerError [("error", "erro interno")]
        ∧ requests (trace r) = []
    | Ok _ =>
        requests (trace r) = [out]
        ∧ val r = match HTTPClient d (sent s) out with
                  | Ok resp =>
                      RespMirror (StatusCode resp) (RespContentType resp)
                        (RespBody resp)
                  | Err _ =>
                      RespJSON StatusBadGateway
                        [("error", "destino indisponível")]
                  end
    end.
Proof.
  intros out r. subst out r. unfold forward, bind. simpl.
  destruct (http_NewRequest "POST" targetURL) as [u|e]; simpl.
  - destruct (HTTPClient d (sent s) _) as [resp|e]; simpl; [done|].
    destruct (notifySlack_frame d
                (MsgForwardFailed targetURL secretID e)
                {| Cache := Cache s; clock := clock s; sent := S (sent s) |})
      as (_ & Hr & Hq).
    by rewrite ?app_nil_r, ?requests_app, ?storeQueries_app, Hr, Hq.
  - destruct (notifySlack_frame d
                (MsgNewRequestError targetURL secretID e) s)
      as (_ & Hr & Hq).
    by rewrite ?app_nil_r, ?requests_app, ?storeQueries_app, Hr, Hq.
Qed.

Lemma route_spec d secretID contentType bodyBytes jsonDataStr s :
  let rr := resolveClientWebhookCached h d secretID s in
  let r := route h d secretID contentType bodyBytes jsonDataStr s in
  match val rr with
  | (_, false) =>
      val r = RespJSON StatusNotFound [("error", "Cliente não encontrado")]
      ∧ final r = final rr
      ∧ requests (trace r) = []
      ∧ storeQueries (trace r) = storeQueries (trace rr)
  | (targetURL, true) =>
      if rawGroupMatch jsonDataStr then
        r = {| val := RespJSON StatusOK [("status", "ignored_group_message")];
               final := final rr;
               trace := trace rr ++ [InfoLog (RejectedGroup "filter_raw_match")]
            |}
      else
        let f := forward d secretID contentType bodyBytes targetURL (final rr)
        in
        val r = val f ∧ final r = final f ∧ trace r = trace rr ++ trace f
  end.
Proof.
  intros rr r. subst r. unfold route, bind. fold rr.
  destruct (resolve_frame d secretID s) as [_ Ht]. fold rr in Ht.
  clearbody rr.
  destruct (val rr) as [targetURL [|]]; simpl.
  - by destruct (rawGroupMatch jsonDataStr).
  - destruct (notifySlack_frame d (MsgClientNotFound secretID) (final rr))
      as (Hf & Hr & Hq).
    trace_norm. rewrite Hf, Hr, Hq, ?app_nil_r. repeat split; try done.
    by destruct Ht as [-> | ->].
Qed.

Lemma webhook_spec d req s :
  let secretID := TrimSpace (Param_secretId req) in
  let contentType := Header_ContentType req in
  let r := webhook h d req s in
  if isEmpty secretID then
    r = {| val := RespJSON StatusBadRequest [("error", "secret id ausente")];
           final := s; trace := [] |}
  else
    match Body req with
    | Err _ =>
        val r = RespJSON StatusBadRequest [("error", "corpo inválido")]
        ∧ final r = s
        ∧ requests (trace r) = [] ∧ storeQueries (trace r) = []
    | Ok bodyBytes =>
        let jsonDataStr :=
          val (extractJsonData req (ToLower contentType) bodyBytes s) in
        if isEmpty (TrimSpace jsonDataStr) then
          val r = RespJSON StatusBadRequest [("error", "jsonData ausente")]
          ∧ final r = s
          ∧ requests (trace r) = [] ∧ storeQueries (trace r) = []
        else
          let rt := route h d secretID contentType bodyBytes jsonDataStr s in
          ∃ logs, Forall (λ e, isLogLine e = true) logs
                  ∧ val r = val rt ∧ final r = final rt
                  ∧ trace r = logs ++ trace rt
    end.
Proof.
  intros secretID contentType r. subst r. unfold webhook.
  fold secretID contentType.
  destruct (isEmpty secretID); [done|].
  unfold bind. simpl.
  set (warn := if negb _ then logInfo _ else ret tt).
  assert (Hw : final (warn s) = s) by (subst warn; by destruct (negb _)).
  assert (Hwt : Forall (λ e, isLogLine e = true) (trace (warn s))).
  { subst warn. destruct (negb _); simpl; by repeat constructor. }
  clearbody warn. rewrite Hw.
  destruct (Body req) as [bodyBytes|e]; simpl.
  2:{ destruct (notifySlack_frame d (MsgBodyReadError secretID e) s)
        as (Hf & Hr & Hq).
      trace_norm.
      by rewrite Hf, Hr, Hq, (logs_requests _ Hwt), (logs_storeQueries _ Hwt). }
  destruct (quiet_extractJsonData req (ToLower contentType) bodyBytes)
    as (p & t & Ht & Hx).
  rewrite !Hx. simpl.
  set (dbg := if negb (isEmpty p) then logInfo _ else ret tt).
  assert (Hd : final (dbg s) = s) by (subst dbg; by destruct (negb _)).
  assert (Hdt : Forall (λ e, isLogLine e = true) (trace (dbg s))).
  { subst dbg. destruct (negb _); simpl; by repeat constructor. }
  clearbody dbg. rewrite Hd.
  destruct (isEmpty (TrimSpace p)); simpl.
  - destruct (notifySlack_frame d
                (MsgJsonDataMissing secretID contentType
                   (String.length bodyBytes)) s) as (Hf & Hr & Hq).
    trace_norm.
    by rewrite Hf, Hr, Hq, (logs_requests _ Hwt), (logs_storeQueries _ Hwt),
      (logs_requests _ Ht), (logs_storeQueries _ Ht),
      (logs_requests _ Hdt), (logs_storeQueries _ Hdt).
  - exists (trace (warn s) ++ t ++ trace (dbg s)).
    split; [by repeat apply Forall_app_2|].
    by rewrite <- !app_assoc.
Qed.

End handler_facts.

Section handler_claims.
Context {RT : GoRuntime} (h : Host).
Import router.
Implicit Types (d : Dependencies) (s : State) (req : Request).

(** C1, as amended.  The payload is extracted before the tenant is
    resolved.  A request whose extracted payload is blank receives 400
    whatever its secret resolves to, and the resolver is not run: the
    cache and the clock are untouched and the store is not queried.  A
    request whose secret resolves to no tenant receives 404 when its
    payload is not blank. *)
Theorem payload_before_tenant d req s bodyBytes :
  let secretID := TrimSpace (Param_secretId req) in
  let jsonDataStr :=
    val (extractJsonData req (ToLower (Header_ContentType req)) bodyBytes s)
  in
  let r := webhook h d req s in
  secretID ≠ "" → Body req = Ok bodyBytes →
  (TrimSpace jsonDataStr = "" →
     val r = RespJSON StatusBadRequest [("error", "jsonData ausente")]
     ∧ final r = s ∧ storeQueries (trace r) = [] ∧ requests (trace r) = [])
  ∧ (TrimSpace jsonDataStr ≠ "" →
     (val (resolveClientWebhookCached h d secretID s)).2 = false →
     val r = RespJSON StatusNotFound [("error", "Cliente não encontrado")]).
Proof.
  intros secretID jsonDataStr r Hsecret Hbody.
  pose proof (webhook_spec h d req s) as Hs. cbv zeta in Hs.
  fold secretID r in Hs. apply isEmpty_false in Hsecret.
  rewrite Hsecret, Hbody in Hs. fold jsonDataStr in Hs.
  split.
  - intros Hblank. rewrite Hblank in Hs. simpl in Hs. tauto.
  - intros Hnb Hmiss. apply isEmpty_false in Hnb. rewrite Hnb in Hs.
    destruct Hs as (logs & _ & -> & _).
    pose proof (route_spec h d secretID (Header_ContentType req) bodyBytes
                  jsonDataStr s) as Hr. cbv zeta in Hr.
    destruct (val (resolveClientWebhookCached h d secretID s))
      as [url ok]. simpl in Hmiss. subst ok. tauto.
Qed.

(** C2, as amended.  When the lower-cased payload contains [@g.us] as
    it stands (the filter does not remove whitespace before looking for
    this token), the payload is not blank and the secret resolves to a
    tenant, the raw filter marks the event with the reason
    [filter_raw_match], whether or not the payload is JSON, and the
    handler answers 200 [ignored_group_message]; nothing is sent to the
    destination and no alert is raised. *)
Theorem raw_filter_ignores_group d req s bodyBytes :
  let secretID := TrimSpace (Param_secretId req) in
  let jsonDataStr :=
    val (extractJsonData req (ToLower (Header_ContentType req)) bodyBytes s)
  in
  let r := webhook h d req s in
  secretID ≠ "" → Body req = Ok bodyBytes →
  TrimSpace jsonDataStr ≠ "" →
  Contains (ToLower jsonDataStr) "@g.us" = true →
  (val (resolveClientWebhookCached h d secretID s)).2 = true →
  val r = RespJSON StatusOK [("status", "ignored_group_message")]
  ∧ InfoLog (RejectedGroup "filter_raw_match") ∈ trace r
  ∧ requests (trace r) = []
  ∧ Forall (λ e, isOutbound e = false) (trace r).
Proof.
  intros secretID jsonDataStr r Hsecret Hbody Hnb Hg Hok.
  pose proof (webhook_spec h d req s) as Hs. cbv zeta in Hs.
  fold secretID r in Hs. apply isEmpty_false in Hsecret, Hnb.
  rewrite Hsecret, Hbody in Hs. fold jsonDataStr in Hs. rewrite Hnb in Hs.
  destruct Hs as (logs & Hlogs & -> & _ & ->).
  pose proof (route_spec h d secretID (Header_ContentType req) bodyBytes
                jsonDataStr s) as Hr. cbv zeta in Hr.
  destruct (resolve_frame h d secretID s) as [_ Ht].
  set (rr := resolveClientWebhookCached h d secretID s) in *.
  clearbody rr. destruct (val rr) as [url ok].
  simpl in Hok. subst ok.
  assert (Hm : rawGroupMatch jsonDataStr = true).
  { unfold rawGroupMatch. by rewrite Hg. }
  rewrite Hm in Hr. rewrite Hr. simpl. split; [done|].
  split; [rewrite !elem_of_app; right; right; by apply list_elem_of_singleton|].
  split.
  - trace_norm. rewrite (logs_requests _ Hlogs).
    by destruct Ht as [-> | ->].
  - apply Forall_app. split; [by apply logs_not_outbound|].
    apply Forall_app. split; [|by repeat constructor].
    destruct Ht as [-> | ->]; by repeat constructor.
Qed.

(** C4.  Every request the handler sends is the only one it sends; it
    is a POST to the resolved destination whose body is the raw request
    body, byte for byte, and whose Content-Type is the one of the
    inbound request, or [application/x-www-form-urlencoded] when that
    one is empty; and when the destination answers, its status code,
    Content-Type and body are what the caller receives. *)
Theorem relay_fidelity d req s out :
  let r := webhook h d req s in
  let contentType := Header_ContentType req in
  out ∈ requests (trace r) →
  requests (trace r) = [out]
  ∧ Method out = "POST"
  ∧ Body req = Ok (ReqBody out)
  ∧ ContentType out =
      (if isEmpty contentType then "application/x-www-form-urlencoded"
       else contentType)
  ∧ val (resolveClientWebhookCached h d (TrimSpace (Param_secretId req)) s)
    = (URL out, true)
  ∧ (∀ resp, HTTPClient d (sent s) out = Ok resp →
       val r = RespMirror (StatusCode resp) (RespContentType resp)
                 (RespBody resp)).
Proof.
  intros r contentType Hin.
  pose proof (webhook_spec h d req s) as Hs. cbv zeta in Hs.
  fold r contentType in Hs.
  destruct (isEmpty (TrimSpace (Param_secretId req))).
  { rewrite Hs in Hin. by apply elem_of_nil in Hin. }
  destruct (Body req) as [bodyBytes|e].
  2:{ destruct Hs as (_ & _ & Hq & _). rewrite Hq in Hin.
      by apply elem_of_nil in Hin. }
  destruct (isEmpty (TrimSpace _)).
  { destruct Hs as (_ & _ & Hq & _). rewrite Hq in Hin.
    by apply elem_of_nil in Hin. }
  destruct Hs as (logs & Hlogs & Hv & _ & Ht).
  rewrite Hv. rewrite Ht, requests_app, (logs_requests _ Hlogs) in Hin |- *.
  rewrite app_nil_l in Hin |- *.
  match type of Hin with
  | context [route h d ?sid ?ct ?b ?p s] =>
      pose proof (route_spec h d sid ct b p s) as Hr; cbv zeta in Hr;
      destruct (resolve_frame h d sid s) as [Hsent Htr];
      pose proof (forward_spec d sid ct b) as Hf; cbv zeta in Hf;
      set (rt := route h d sid ct b p s) in *;
      set (rr := resolveClientWebhookCached h d sid s) in *
  end.
  clearbody rt rr. destruct (val rr) as [url [|]].
  2:{ destruct Hr as (_ & _ & Hq & _). rewrite Hq in Hin.
      by apply elem_of_nil in Hin. }
  destruct (rawGroupMatch _).
  { rewrite Hr in Hin. simpl in Hin. rewrite requests_app in Hin.
    simpl in Hin. rewrite app_nil_r in Hin.
    destruct Htr as [Htr | Htr]; rewrite Htr in Hin;
      by apply elem_of_nil in Hin. }
  destruct Hr as (Hrv & _ & Hrt).
  specialize (Hf url (final rr)). destruct Hf as [_ Hf].
  assert (Hrq : requests (trace rt)
                = requests (trace (forward d (TrimSpace (Param_secretId req))
                                     contentType bodyBytes url (final rr)))).
  { rewrite Hrt, requests_app. by destruct Htr as [-> | ->]. }
  rewrite Hrq in Hin |- *. rewrite Hrv.
  destruct (http_NewRequest "POST" url).
  2:{ destruct Hf as [_ Hq]. rewrite Hq in Hin.
      by apply elem_of_nil in Hin. }
  destruct Hf as [Hq Hfv]. rewrite Hq in Hin |- *.
  apply list_elem_of_singleton in Hin. subst out.
  repeat split; try done.
  intros resp Hresp. rewrite Hfv, Hsent. by rewrite Hresp.
Qed.

End handler_claims.

Section extraction_claims.
Context {RT : GoRuntime}.
Import router.

(** C5, as amended.  For a JSON body that decodes to an object whose
    [jsonData] member is the string [e]: when [e] is not blank the
    extracted payload is exactly [e]; when [e] is blank (and there is no
    [body] object) the member is passed over and the payload is the
    whole trimmed body. *)
Theorem envelope_payload req ctLower bodyBytes m e s :
  HasPrefix ctLower "application/json" = true →
  TrimSpace bodyBytes ≠ "" →
  json_Unmarshal_map bodyBytes = Ok (Some m) →
  jlookup m "jsonData" = Some (JString e) →
  (TrimSpace e ≠ "" →
     val (extractJsonData req ctLower bodyBytes s) = e)
  ∧ (TrimSpace e = "" → jlookup_object m "body" = None →
     val (extractJsonData req ctLower bodyBytes s) = TrimSpace bodyBytes).
Proof.
  intros Hct Hbody Hm He.
  unfold extractJsonData, jsonDataFromJSON. rewrite Hct.
  apply isEmpty_false in Hbody. rewrite Hbody, Hm.
  unfold bind, nonBlankString, jlookup_string. simpl. rewrite He.
  split.
  - intros Hne. apply isEmpty_false in Hne. by rewrite Hne.
  - intros Hblank Hnobody. rewrite Hblank, Hnobody. done.
Qed.

End extraction_claims.

Section store_claims.
Context {RT : GoRuntime} (h : Host).
Import router.
Implicit Types (d : Dependencies) (s : State) (req : Request).

(** C8.  When the cache and the environment give nothing, a store that
    answers with an error, with an inactive tenant or with no tenant
    makes [Resolve] return the same thing: not-found with the empty
    URL, the cache as it was, and one query made.  The result does not
    depend on which of the three happened.  On the webhook path each
    gives 404: the block that runs the resolver answers 404, and so does
    the handler on every request for which it asks the store. *)
Theorem store_failures_are_not_found d req s :
  let secretID := TrimSpace (Param_secretId req) in
  let lookup := cache.Get (Now h) secretID (Cache s) (clock s) in
  let missed := {| Cache := Cache s; clock := lookup.2.2; sent := sent s |} in
  lookup.1.2 = false →
  (resolveClientWebhookURLFromEnv h secretID).2 = false →
  storeFailure (ClientSvc d secretID) →
  resolveClientWebhookCached h d secretID s
    = {| val := ("", false); final := missed;
         trace := [StoreQuery secretID] |}
  ∧ (∀ contentType bodyBytes jsonDataStr,
       val (route h d secretID contentType bodyBytes jsonDataStr s)
       = RespJSON StatusNotFound [("error", "Cliente não encontrado")])
  ∧ (storeQueries (trace (webhook h d req s)) ≠ [] →
     val (webhook h d req s)
       = RespJSON StatusNotFound [("error", "Cliente não encontrado")]
     ∧ final (webhook h d req s) = missed
     ∧ requests (trace (webhook h d req s)) = []).
Proof.
  intros secretID lookup missed Hmiss Henv Hfail.
  assert (Hres : resolveClientWebhookCached h d secretID s
                 = {| val := ("", false); final := missed;
                      trace := [StoreQuery secretID] |}).
  { rewrite resolve_from_store by done.
    destruct Hfail as [client e | client Hoff | ]; [by destruct client| |done].
    by rewrite Hoff. }
  assert (Hroute : ∀ contentType bodyBytes jsonDataStr,
            let rt := route h d secretID contentType bodyBytes jsonDataStr s
            in val rt
               = RespJSON StatusNotFound [("error", "Cliente não encontrado")]
               ∧ final rt = missed ∧ requests (trace rt) = []).
  { intros contentType bodyBytes jsonDataStr.
    pose proof (route_spec h d secretID contentType bodyBytes jsonDataStr s)
      as Hr. cbv zeta in Hr.
    rewrite Hres in Hr. cbn [val final trace] in Hr. cbv zeta. tauto. }
  split; [done|]. split; [intros; by apply Hroute|].
  intros Hasked.
  pose proof (webhook_spec h d req s) as Hs. cbv zeta in Hs.
  fold secretID in Hs.
  destruct (isEmpty secretID).
  { by rewrite Hs in Hasked. }
  destruct (Body req) as [bodyBytes|e].
  2:{ by destruct Hs as (_ & _ & _ & Hq). }
  destruct (isEmpty (TrimSpace _)).
  { by destruct Hs as (_ & _ & _ & Hq). }
  destruct Hs as (logs & Hlogs & -> & -> & ->).
  destruct (Hroute (Header_ContentType req) bodyBytes
              (val (extractJsonData req (ToLower (Header_ContentType req))
                      bodyBytes s))) as (Hv & Hf & Hq).
  by rewrite Hv, Hf, requests_app, Hq, (logs_requests _ Hlogs).
Qed.

End store_claims.

(** ** The claims on the sample deployment *)

(** The counterexample of C1: the secret resolves to no tenant and the
    body yields an empty payload; the answer is 400, not 404, and the
    store was never asked. *)
Lemma tenant_before_payload_counterexample :
  val (Sample.resolve "nobody" Sample.fresh) = ("", false)
  ∧ Sample.payload "application/json" "" = ""
  ∧ val (Sample.handle (Sample.post "nobody" "application/json" "")
           Sample.fresh)
    = RespJSON StatusBadRequest [("error", "jsonData ausente")]
  ∧ val (Sample.handle (Sample.post "nobody" "application/json" "")
           Sample.fresh)
    ≠ RespJSON StatusNotFound [("error", "Cliente não encontrado")]
  ∧ storeQueries
      (trace (Sample.handle (Sample.post "nobody" "application/json" "")
                Sample.fresh)) = [].
Proof. by vm_compute. Qed.

(** The witness of C1 as amended: 400 for the empty payload, 404 for the
    same unknown secret once the payload is not blank. *)
Lemma payload_before_tenant_witness :
  val (Sample.handle (Sample.post "nobody" "application/json" "")
         Sample.fresh)
    = RespJSON StatusBadRequest [("error", "jsonData ausente")]
  ∧ val (Sample.handle (Sample.post "nobody" "application/json" "hello")
           Sample.fresh)
    = RespJSON StatusNotFound [("error", "Cliente não encontrado")].
Proof.
  split.
  - apply (payload_before_tenant (RT := RefRuntime.runtime) Sample.host
             Sample.deps (Sample.post "nobody" "application/json" "")
             Sample.fresh "").
    + discriminate.
    + reflexivity.
    + reflexivity.
  - apply (payload_before_tenant (RT := RefRuntime.runtime) Sample.host
             Sample.deps (Sample.post "nobody" "application/json" "hello")
             Sample.fresh "hello").
    + discriminate.
    + reflexivity.
    + by vm_compute.
    + by vm_compute.
Defined.

(** The counterexample of C2: [@g.us] appears in the payload only once
    the blank is removed; the filter does not match and the body is
    forwarded to the destination. *)
Lemma group_after_collapse_counterexample :
  Sample.payload "application/json" "123@g .us" = "123@g .us"
  ∧ Contains (Map router.dropSpace (RefRuntime.ToLower "123@g .us")) "@g.us"
    = true
  ∧ router.rawGroupMatch (RT := RefRuntime.runtime) "123@g .us" = false
  ∧ val (Sample.handle (Sample.post "abc" "application/json" "123@g .us")
           Sample.warm)
    = RespMirror 201 "text/plain" "ok"
  ∧ requests
      (trace (Sample.handle (Sample.post "abc" "application/json" "123@g .us")
                Sample.warm))
    = [router.forwardRequest "http://dest/x" "application/json" "123@g .us"].
Proof. by vm_compute. Qed.

(** The witness of C2 as amended: a payload that is not JSON and holds
    [@G.us] is ignored. *)
Lemma raw_filter_ignores_group_witness :
  val (Sample.handle (Sample.post "abc" "application/json" "123@G.us")
         Sample.warm)
    = RespJSON StatusOK [("status", "ignored_group_message")]
  ∧ requests
      (trace (Sample.handle (Sample.post "abc" "application/json" "123@G.us")
                Sample.warm)) = [].
Proof.
  destruct (raw_filter_ignores_group (RT := RefRuntime.runtime) Sample.host
              Sample.deps (Sample.post "abc" "application/json" "123@G.us")
              Sample.warm "123@G.us") as (Hv & _ & Hq & _).
  - discriminate.
  - reflexivity.
  - by vm_compute.
  - by vm_compute.
  - by vm_compute.
  - by split.
Defined.

(** The witness of C3: the cached route wins over the store, and over any
    environment; the override of [e-1] is found under its uppercase name;
    the active tenant [abc] comes from the store on a cold cache. *)
Lemma resolve_chain_order_witness :
  val (Sample.resolve "abc" Sample.warm) = ("http://dest/x", true)
  ∧ trace (Sample.resolve "abc" Sample.warm) = []
  ∧ val (router.resolveClientWebhookCached (RT := RefRuntime.runtime)
           {| Getenv := λ _, "http://elsewhere"; Now := Now Sample.host |}
           Sample.deps "abc" Sample.warm)
    = ("http://dest/x", true)
  ∧ val (Sample.resolve "e-1" Sample.fresh) = ("http://env/e1", true)
  ∧ trace (Sample.resolve "e-1" Sample.fresh) = []
  ∧ val (Sample.resolve "abc" Sample.fresh) = ("http://dest/x", true)
  ∧ trace (Sample.resolve "abc" Sample.fresh) = [StoreQuery "abc"].
Proof.
  destruct (resolve_chain_order (RT := RefRuntime.runtime) Sample.host
              Sample.deps "abc" Sample.warm) as (Hhit & _ & _ & _ & Hany).
  destruct (resolve_chain_order (RT := RefRuntime.runtime) Sample.host
              Sample.deps "e-1" Sample.fresh) as (_ & _ & Henv & _).
  destruct (resolve_chain_order (RT := RefRuntime.runtime) Sample.host
              Sample.deps "abc" Sample.fresh) as (_ & _ & _ & Hstore & _).
  unfold Sample.resolve.
  rewrite (Hhit "http://dest/x") by (by vm_compute).
  rewrite (Hany "http://dest/x") by (by vm_compute).
  rewrite Henv by (by vm_compute).
  rewrite (Hstore eq_refl eq_refl eq_refl
             (Sample.tenant "abc" "http://dest/x" true) eq_refl eq_refl).
  by vm_compute.
Defined.

(** The witness of C4: the envelope goes out as it came in, and the
    destination's 201 comes back. *)
Lemma relay_fidelity_witness :
  val (Sample.handle
         (Sample.post "abc" "application/json" (Sample.envelope "hi"))
         Sample.fresh)
    = RespMirror 201 "text/plain" "ok"
  ∧ requests
      (trace (Sample.handle
                (Sample.post "abc" "application/json" (Sample.envelope "hi"))
                Sample.fresh))
    = [router.forwardRequest "http://dest/x" "application/json"
         (Sample.envelope "hi")].
Proof.
  destruct (relay_fidelity (RT := RefRuntime.runtime) Sample.host Sample.deps
              (Sample.post "abc" "application/json" (Sample.envelope "hi"))
              Sample.fresh
              (router.forwardRequest "http://dest/x" "application/json"
                 (Sample.envelope "hi")))
    as (Hq & _ & _ & _ & _ & Hmirror).
  - vm_compute. apply list_elem_of_singleton. reflexivity.
  - split; [|exact Hq].
    apply (Hmirror {| StatusCode := 201; RespContentType := "text/plain";
                      RespBody := "ok" |}).
    reflexivity.
Defined.

(** The counterexample of C5: for the empty event the envelope is a
    well-formed JSON body, and the extracted payload is the envelope
    itself, not the empty string. *)
Lemma envelope_of_blank_event_counterexample :
  json_Unmarshal_map (GoRuntime := RefRuntime.runtime) (Sample.envelope "")
    = Ok (Some [("jsonData", JString "")])
  ∧ Sample.payload "application/json" (Sample.envelope "")
    = Sample.envelope ""
  ∧ Sample.payload "application/json" (Sample.envelope "") ≠ "".
Proof. by vm_compute. Qed.

(** The witness of C5 as amended. *)
Lemma envelope_payload_witness :
  Sample.payload "application/json" (Sample.envelope "hi") = "hi".
Proof.
  apply (envelope_payload (RT := RefRuntime.runtime)
           (Sample.post "abc" "application/json" (Sample.envelope "hi"))
           "application/json" (Sample.envelope "hi")
           [("jsonData", JString "hi")] "hi" Sample.fresh).
  - reflexivity.
  - by vm_compute.
  - by vm_compute.
  - reflexivity.
  - by vm_compute.
Defined.

(** The witness of C8: the secret whose query fails and the secret of the
    inactive tenant get the same answer from the resolver, and 404. *)
Lemma store_failures_are_not_found_witness :
  val (Sample.handle (Sample.post "boom" "application/json" "hello")
         Sample.fresh)
    = RespJSON StatusNotFound [("error", "Cliente não encontrado")]
  ∧ val (Sample.handle (Sample.post "off" "application/json" "hello")
           Sample.fresh)
    = RespJSON StatusNotFound [("error", "Cliente não encontrado")]
  ∧ val (Sample.resolve "boom" Sample.fresh) = ("", false)
  ∧ val (Sample.resolve "off" Sample.fresh) = ("", false)
  ∧ final (Sample.resolve "boom" Sample.fresh)
    = final (Sample.resolve "off" Sample.fresh).
Proof.
  destruct (store_failures_are_not_found (RT := RefRuntime.runtime)
              Sample.host Sample.deps
              (Sample.post "boom" "application/json" "hello") Sample.fresh)
    as (Hboom & _ & Hb).
  { by vm_compute. }
  { by vm_compute. }
  { apply router.storeError. }
  destruct (store_failures_are_not_found (RT := RefRuntime.runtime)
              Sample.host Sample.deps
              (Sample.post "off" "application/json" "hello") Sample.fresh)
    as (Hoff & _ & Ho).
  { by vm_compute. }
  { by vm_compute. }
  { apply router.storeInactive. reflexivity. }
  destruct Hb as (Hvb & _); [by vm_compute|].
  destruct Ho as (Hvo & _); [by vm_compute|].
  split; [exact Hvb|]. split; [exact Hvo|].
  unfold Sample.resolve.
  change (TrimSpace (Param_secretId
            (Sample.post "boom" "application/json" "hello")))
    with "boom" in Hboom.
  change (TrimSpace (Param_secretId
            (Sample.post "off" "application/json" "hello")))
    with "off" in Hoff.
  by rewrite Hboom, Hoff.
Defined.

(** The counterexample of C3: a variable that holds only blanks is not
    empty, yet it is not taken as the destination and the store is asked;
    and the value of a padded variable is not what is returned and
    cached, its trimmed form is. *)
Lemma env_override_nonempty_counterexample :
  Getenv Sample.host "CLIENT_blank" = "   "
  ∧ val (Sample.resolve "blank" Sample.fresh) = ("", false)
  ∧ trace (Sample.resolve "blank" Sample.fresh) = [StoreQuery "blank"]
  ∧ Getenv Sample.host "CLIENT_E_1" = " http://env/e1 "
  ∧ val (Sample.resolve "e-1" Sample.fresh) = ("http://env/e1", true)
  ∧ val (Sample.resolve "e-1" Sample.fresh)
    ≠ (Getenv Sample.host "CLIENT_E_1", true)
  ∧ (cache.value <$>
       cache.items (Cache (final (Sample.resolve "e-1" Sample.fresh)))
         !! "e-1") = Some "http://env/e1".
Proof. by vm_compute. Qed.

(** * Further properties of the code *)

(** ** The cache: writes, deletions and the sweep *)

Section cache_extras.
Context {K V : Type} `{Countable K} `{GoZero V}.
Implicit Types (c : cache.MemoryCache K V) (key : K) (now : nat → Time)
  (n m : nat).

(** X1.  A value written with [Set] at one clock reading is what a later
    [Get] returns as long as the clock has not passed the reading of the
    write plus the TTL, and is not found once it has; an earlier entry of
    the key has no say: the write opens a fresh window.  The TTL of the
    cache does not change. *)
Theorem Set_then_Get now key v c n m :
  let c' := (cache.Set_ now key v c n).1 in
  (now m ≤ now n + cache.ttl c → (cache.Get now key c' m).1 = (v, true))
  ∧ (now n + cache.ttl c < now m → (cache.Get now key c' m).1 = (zero, false))
  ∧ cache.ttl c' = cache.ttl c
  ∧ (cache.Set_ now key v c n).2 = S n.
Proof.
  simpl. repeat split.
  - intros Hle.
    rewrite (Get_hit _ _ _ _ (cache.Entry v (Add (now n) (cache.ttl c))));
      [done| |done].
    simpl. apply lookup_insert_eq.
  - intros Hlt.
    rewrite (Get_expired _ _ _ _ (cache.Entry v (Add (now n) (cache.ttl c))));
      [done| |done].
    simpl. apply lookup_insert_eq.
Qed.

Lemma Get_result_lookup now key c c' n :
  cache.items c !! key = cache.items c' !! key →
  (cache.Get now key c n).1 = (cache.Get now key c' n).1.
Proof.
  intros Heq. unfold cache.Get. rewrite Heq.
  destruct (cache.items c' !! key) as [e|]; [|done].
  by destruct (After (now n) (cache.expiresAt e)).
Qed.

(** X2.  [Set] and [Delete] act on their key only: what [Get] returns
    for any other key is what it returned before.  After [Delete] the key
    itself is not found, whatever the clock says. *)
Theorem Set_Delete_one_key now key key' v c n m :
  key ≠ key' →
  (cache.Get now key' (cache.Set_ now key v c n).1 m).1
    = (cache.Get now key' c m).1
  ∧ (cache.Get now key' (cache.Delete key c) m).1 = (cache.Get now key' c m).1
  ∧ (cache.Get now key (cache.Delete key c) m).1 = (zero, false).
Proof.
  intros Hne. repeat split.
  - apply Get_result_lookup. simpl. by apply lookup_insert_ne.
  - apply Get_result_lookup. simpl. by apply lookup_delete_ne.
  - rewrite Get_absent; [done|]. simpl. apply lookup_delete_eq.
Qed.

(** X3.  A tick of the janitor at time [t] keeps exactly the entries
    whose deadline [t] has not passed, unchanged; and for a clock that
    reads [t] or later, [Get] returns on the swept table what it returned
    on the table before the sweep. *)
Theorem sweep_removes_expired_only (t : Time) c :
  (∀ key e, cache.items (cache.sweep t c) !! key = Some e ↔
            cache.items c !! key = Some e ∧ t ≤ cache.expiresAt e)
  ∧ (∀ now key n, t ≤ now n →
       (cache.Get now key (cache.sweep t c) n).1 = (cache.Get now key c n).1)
  ∧ cache.ttl (cache.sweep t c) = cache.ttl c.
Proof.
  split; [|split; [|done]].
  - intros key e. rewrite sweep_lookup.
    destruct (cache.items c !! key) as [e'|]; [|by intuition].
    destruct (After t (cache.expiresAt e')) eqn:Ha.
    + apply After_spec in Ha. split; [done|]. intros [[= ->] Hle]. lia.
    + apply After_false in Ha. split; [by intros [= ->]|by intros [? _]].
  - intros now key n Hle. unfold cache.Get at 1. rewrite sweep_lookup.
    unfold cache.Get.
    destruct (cache.items c !! key) as [e|]; [|done].
    destruct (After t (cache.expiresAt e)) eqn:Ha;
      [|by destruct (After (now n) (cache.expiresAt e))].
    apply After_spec in Ha.
    assert (Hx : After (now n) (cache.expiresAt e) = true)
      by (apply After_spec; lia).
    by rewrite Hx.
Qed.

End cache_extras.

(** The witness of X2, on the warm cache of the sample deployment. *)
Lemma Set_Delete_one_key_witness :
  (cache.Get (Now Sample.host) "abc"
     (cache.Set_ (Now Sample.host) "xyz" "http://other" (Cache Sample.warm) 0).1
     1).1
    = ("http://dest/x", true)
  ∧ (cache.Get (Now Sample.host) "abc"
       (cache.Delete "abc" (Cache Sample.warm)) 0).1 = ("", false).
Proof.
  destruct (Set_Delete_one_key (Now Sample.host) "xyz" "abc" "http://other"
              (Cache Sample.warm) 0 1) as (Hset & _ & _); [discriminate|].
  destruct (Set_Delete_one_key (Now Sample.host) "abc" "xyz" "http://other"
              (Cache Sample.warm) 0 0) as (_ & _ & Hdel); [discriminate|].
  split; [|exact Hdel]. rewrite Hset. by vm_compute.
Defined.

(** ** The resolver and the handler on the cache *)

Section resolver_extras.
Context {RT : GoRuntime} (h : Host).
Import router.
Implicit Types (d : Dependencies) (s : State) (req : Request).

Lemma Get_found_entry (c : cache.MemoryCache string string) now key n v :
  (cache.Get now key c n).1 = (v, true) →
  ∃ e, cache.items c !! key = Some e ∧ cache.value e = v
       ∧ now n ≤ cache.expiresAt e.
Proof.
  unfold cache.Get. destruct (cache.items c !! key) as [e|]; [|by inversion 1].
  destruct (After (now n) (cache.expiresAt e)) eqn:Ha; [by inversion 1|].
  intros [= <-]. exists e. by rewrite <- After_false.
Qed.

(** What a resolution does to the cache: nothing, or one write for the
    secret it was given, with the URL it returns. *)
Lemma resolve_cache_effect d secretID s :
  let r := resolveClientWebhookCached h d secretID s in
  Cache (final r) = Cache s
  ∨ ∃ n, Cache (final r)
         = (cache.Set_ (Now h) secretID (val r).1 (Cache s) n).1
         ∧ (val r).2 = true ∧ clock (final r) = S n.
Proof.
  intros r. subst r.
  destruct (cache.Get (Now h) secretID (Cache s) (clock s)).1
    as [v [|]] eqn:Hg.
  { rewrite (resolve_cached h d secretID s v Hg). by left. }
  destruct (resolveClientWebhookURLFromEnv h secretID) as [url [|]] eqn:He.
  { rewrite (resolve_from_env h d secretID s url);
      [|by rewrite Hg|done]. right. by eexists. }
  rewrite resolve_from_store; [|by rewrite Hg|by rewrite He].
  destruct (ClientSvc d secretID) as [[client|] [e|]]; simpl; auto.
  destruct (IsActive client); simpl; [|by auto]. right. by eexists.
Qed.

(** X4.  A resolution that succeeds leaves in the cache an entry for the
    secret that holds the URL it returned; a second resolution made
    before the clock passes that entry's deadline returns the same URL
    from the cache alone: it reads the clock once, asks the store nothing
    and leaves the cache as it is. *)
Theorem resolve_repeat d secretID s url :
  let r1 := resolveClientWebhookCached h d secretID s in
  val r1 = (url, true) →
  ∃ e, cache.items (Cache (final r1)) !! secretID = Some e
       ∧ cache.value e = url
       ∧ (Now h (clock (final r1)) ≤ cache.expiresAt e →
          resolveClientWebhookCached h d secretID (final r1)
          = {| val := (url, true); final := tick 1 (final r1); trace := [] |}).
Proof.
  intros r1 Hv.
  assert (He : ∃ e, cache.items (Cache (final r1)) !! secretID = Some e
                    ∧ cache.value e = url).
  { subst r1. revert Hv.
    destruct (cache.Get (Now h) secretID (Cache s) (clock s)).1
      as [v [|]] eqn:Hg.
    { rewrite (resolve_cached h d secretID s v Hg). simpl. intros [= ->].
      apply Get_found_entry in Hg as (e & Hl & Hval & _). by exists e. }
    destruct (resolveClientWebhookURLFromEnv h secretID) as [u [|]] eqn:Hu.
    { rewrite (resolve_from_env h d secretID s u); [|by rewrite Hg|done].
      simpl. intros [= ->]. eexists. split; [apply lookup_insert_eq|done]. }
    rewrite resolve_from_store; [|by rewrite Hg|by rewrite Hu].
    destruct (ClientSvc d secretID) as [[client|] [e|]]; simpl; try done.
    destruct (IsActive client); simpl; [|done]. intros [= <-].
    eexists. split; [apply lookup_insert_eq|done]. }
  destruct He as (e & Hl & Hval). exists e. split; [done|]. split; [done|].
  intros Hle. apply resolve_cached. rewrite (Get_hit _ _ _ _ e); by subst.
Qed.

End resolver_extras.

Section handler_extras.
Context {RT : GoRuntime} (h : Host).
Import router.
Implicit Types (d : Dependencies) (s : State) (req : Request).

Lemma forward_final d secretID contentType bodyBytes targetURL s :
  Cache (final (forward d secretID contentType bodyBytes targetURL s))
  = Cache s.
Proof.
  unfold forward, bind. simpl.
  destruct (http_NewRequest "POST" targetURL) as [u|e]; simpl.
  - destruct (HTTPClient d (sent s) _) as [resp|e]; simpl; [done|].
    by destruct (notifySlack_frame d (MsgForwardFailed targetURL secretID e)
                   {| Cache := Cache s; clock := clock s;
                      sent := S (sent s) |}) as (-> & _).
  - by destruct (notifySlack_frame d
                   (MsgNewRequestError targetURL secretID e) s) as (-> & _).
Qed.

(** The cache after the handler is the cache after its resolution, when
    it gets that far, and the cache it started with otherwise. *)
Lemma webhook_final_cache d req s :
  Cache (final (webhook h d req s)) = Cache s
  ∨ Cache (final (webhook h d req s))
    = Cache (final (resolveClientWebhookCached h d
                      (TrimSpace (Param_secretId req)) s)).
Proof.
  pose proof (webhook_spec h d req s) as Hs. cbv zeta in Hs.
  destruct (isEmpty (TrimSpace (Param_secretId req))).
  { rewrite Hs. by left. }
  destruct (Body req) as [bodyBytes|e].
  2:{ destruct Hs as (_ & -> & _). by left. }
  destruct (isEmpty (TrimSpace _)).
  { destruct Hs as (_ & -> & _). by left. }
  destruct Hs as (logs & _ & _ & -> & _). right.
  match goal with
  | |- context [route h d ?sid ?ct ?b ?p s] =>
      pose proof (route_spec h d sid ct b p s) as Hr; cbv zeta in Hr;
      pose proof (forward_final d sid ct b) as Hf;
      set (rt := route h d sid ct b p s) in *;
      set (rr := resolveClientWebhookCached h d sid s) in *
  end.
  clearbody rt rr. destruct (val rr) as [url [|]].
  - destruct (rawGroupMatch _); [by rewrite Hr|].
    destruct Hr as (_ & -> & _). apply Hf.
  - by destruct Hr as (_ & -> & _).
Qed.

(** X5.  A webhook call touches the cache for its own secret only: the
    entry of every other key is what it was, and so is the TTL of the
    cache. *)
Theorem webhook_keeps_other_routes d req s key :
  key ≠ TrimSpace (Param_secretId req) →
  cache.items (Cache (final (webhook h d req s))) !! key
    = cache.items (Cache s) !! key
  ∧ cache.ttl (Cache (final (webhook h d req s))) = cache.ttl (Cache s).
Proof.
  intros Hne.
  destruct (webhook_final_cache d req s) as [-> | ->]; [done|].
  destruct (resolve_cache_effect h d (TrimSpace (Param_secretId req)) s)
    as [-> | (n & -> & _)]; [done|].
  simpl. by rewrite lookup_insert_ne.
Qed.

(** X6.  Whatever the request, the handler asks the store at most once
    and sends at most one request.  A JSON answer of its own carries one
    of the codes 200, 400, 404, 500 and 502; with 502 exactly one request
    went out, with any other of these codes none did; and an answer
    copied from the destination means that exactly one request went
    out. *)
Theorem webhook_at_most_once d req s :
  let r := webhook h d req s in
  (length (storeQueries (trace r)) ≤ 1)%nat
  ∧ (length (requests (trace r)) ≤ 1)%nat
  ∧ match val r with
    | RespJSON code _ =>
        code ∈ [StatusOK; StatusBadRequest; StatusNotFound;
                StatusInternalServerError; StatusBadGateway]
        ∧ length (requests (trace r))
          = (if decide (code = StatusBadGateway) then 1 else 0)%nat
    | RespMirror _ _ _ => length (requests (trace r)) = 1%nat
    end.
Proof.
  intros r.
  pose proof (webhook_spec h d req s) as Hs. cbv zeta in Hs. fold r in Hs.
  destruct (isEmpty (TrimSpace (Param_secretId req))).
  { rewrite Hs. simpl. repeat split; try lia. in_list. }
  destruct (Body req) as [bodyBytes|e].
  2:{ destruct Hs as (-> & _ & -> & ->). simpl.
      repeat split; try lia. in_list. }
  destruct (isEmpty (TrimSpace _)).
  { destruct Hs as (-> & _ & -> & ->). simpl.
    repeat split; try lia. in_list. }
  destruct Hs as (logs & Hlogs & -> & _ & ->).
  rewrite requests_app, storeQueries_app, (logs_requests _ Hlogs),
    (logs_storeQueries _ Hlogs), !app_nil_l.
  match goal with
  | |- context [route h d ?sid ?ct ?b ?p s] =>
      pose proof (route_spec h d sid ct b p s) as Hr; cbv zeta in Hr;
      destruct (resolve_frame h d sid s) as [Hsent Htr];
      pose proof (forward_spec d sid ct b) as Hf; cbv zeta in Hf;
      set (rt := route h d sid ct b p s) in *;
      set (rr := resolveClientWebhookCached h d sid s) in *
  end.
  clearbody rt rr.
  assert (Hq : (length (storeQueries (trace rr)) ≤ 1)%nat
               ∧ requests (trace rr) = []).
  { destruct Htr as [-> | ->]; simpl; split; (lia || done). }
  destruct Hq as [Hq Hrq].
  destruct (val rr) as [url [|]].
  2:{ destruct Hr as (-> & _ & -> & ->). simpl.
      repeat split; try lia. in_list. }
  destruct (rawGroupMatch _).
  { rewrite Hr. simpl. rewrite requests_app, storeQueries_app, Hrq. simpl.
    rewrite app_nil_r. repeat split; try lia. in_list. }
  destruct Hr as (-> & _ & ->).
  rewrite requests_app, storeQueries_app, Hrq, app_nil_l.
  specialize (Hf url (final rr)). destruct Hf as [-> Hf]. rewrite app_nil_r.
  split; [done|].
  destruct (http_NewRequest "POST" url).
  2:{ destruct Hf as [-> ->]. simpl. repeat split; try lia. in_list. }
  destruct Hf as [-> ->]. simpl. split; [lia|].
  destruct (HTTPClient d _ _); [done|]. simpl. split; [in_list|done].
Qed.

End handler_extras.

(** The witness of X4: the tenant [abc] is resolved from the store on a
    cold cache, and the next resolution is a hit. *)
Lemma resolve_repeat_witness :
  ∃ e, cache.items (Cache (final (Sample.resolve "abc" Sample.fresh))) !! "abc"
       = Some e
       ∧ cache.value e = "http://dest/x"
       ∧ (Now Sample.host (clock (final (Sample.resolve "abc" Sample.fresh)))
          ≤ cache.expiresAt e →
          Sample.resolve "abc" (final (Sample.resolve "abc" Sample.fresh))
          = {| val := ("http://dest/x", true);
               final := tick 1 (final (Sample.resolve "abc" Sample.fresh));
               trace := [] |}).
Proof.
  apply (resolve_repeat (RT := RefRuntime.runtime) Sample.host Sample.deps
           "abc" Sample.fresh "http://dest/x").
  by vm_compute.
Defined.

(** The witness of X5: a call for the secret [e-1] leaves the route of
    [abc] where it was. *)
Lemma webhook_keeps_other_routes_witness :
  cache.items
    (Cache (final (Sample.handle (Sample.post "e-1" "application/json" "hi")
                     Sample.warm))) !! "abc"
  = cache.items (Cache Sample.warm) !! "abc"
  ∧ cache.ttl
      (Cache (final (Sample.handle (Sample.post "e-1" "application/json" "hi")
                       Sample.warm)))
    = cache.ttl (Cache Sample.warm).
Proof.
  apply (webhook_keeps_other_routes (RT := RefRuntime.runtime) Sample.host
           Sample.deps (Sample.post "e-1" "application/json" "hi")
           Sample.warm "abc").
  by vm_compute.
Defined.

(** ** The search through the members of [body] *)

Section extraction_extras.
Context {RT : GoRuntime}.
Import router.
Implicit Types (s : State) (body : jobject).

(** A member of [body] stops the loop: its key has the shape of a JSON
    object, or its value is a string that opens one. *)
Definition stopsLoop (kv : string * jvalue) : bool :=
  (HasPrefix kv.1 "{" && HasSuffix kv.1 "}")
  || match kv.2 with JString v => HasPrefix v "{" | _ => false end.

Lemma HasPrefix_nonempty (x p : string) :
  HasPrefix x p = true → p ≠ "" → x ≠ "".
Proof. destruct p, x; simpl; congruence. Qed.

(** X7.  The loop over the members of [body] only reads: it leaves the
    state as it is.  It ends with the empty string exactly when no member
    stops it.  Otherwise what it yields opens with a brace and comes from
    a member of [body]: it is that member's key, which also closes with a
    brace, or that member's string value.  The statement speaks of the
    members of [body] and not of their order, which a [range] over a Go
    map leaves open. *)
Theorem rangeBody_result body s :
  let r := rangeBody body s in
  final r = s
  ∧ (val r = "" ↔ Forall (λ kv, stopsLoop kv = false) body)
  ∧ (val r ≠ "" →
     HasPrefix (val r) "{" = true
     ∧ ∃ key value, (key, value) ∈ body
         ∧ ((val r = key ∧ HasSuffix key "}" = true)
            ∨ value = JString (val r))).
Proof.
  induction body as [|[key value] rest IH].
  { simpl. split; [done|]. split; [by split|]. intros Hne. by destruct Hne. }
  destruct IH as (IHf & IHe & IHm).
  destruct (stopsLoop (key, value)) eqn:Hst.
  - assert (Hr : final (rangeBody ((key, value) :: rest) s) = s
                 ∧ HasPrefix (val (rangeBody ((key, value) :: rest) s)) "{"
                   = true
                 ∧ ((val (rangeBody ((key, value) :: rest) s) = key
                     ∧ HasSuffix key "}" = true)
                    ∨ value
                      = JString (val (rangeBody ((key, value) :: rest) s)))).
    { revert Hst. unfold stopsLoop. simpl.
      destruct (HasPrefix key "{") eqn:Hk, (HasSuffix key "}") eqn:Hs;
        simpl; try (intros _; by auto);
        destruct value as [| | |v| |]; try done;
        destruct (HasPrefix v "{") eqn:Hv; try done; simpl; by auto. }
    destruct Hr as (Hf & Hp & Hor). cbv zeta.
    split; [done|]. split.
    + split.
      * intros Hv. rewrite Hv in Hp. done.
      * intros Hall. apply Forall_cons in Hall as [Hno _]. congruence.
    + intros _. split; [done|]. exists key, value.
      split; [apply list_elem_of_here|done].
  - assert (Hr : rangeBody ((key, value) :: rest) s = rangeBody rest s).
    { revert Hst. unfold stopsLoop. simpl.
      destruct (HasPrefix key "{"), (HasSuffix key "}"); simpl; try done;
        destruct value as [| | |v| |]; try done;
        by destruct (HasPrefix v "{"). }
    cbv zeta. rewrite Hr. split; [done|]. split.
    + rewrite IHe, Forall_cons. tauto.
    + intros [Hp (k & v' & Hin & Hor)]%IHm. split; [done|].
      exists k, v'. split; [by apply list_elem_of_further|done].
Qed.

End extraction_extras.

(** ** The administration routes *)

Section admin_extras.
Context {RT : GoRuntime} (h : Host).
Import router.
Implicit Types (d : Dependencies) (s : State).

(** X8.  [resolveBySecret] never looks at the cache and never writes to
    it: the state is left as it is.  With an override in the environment
    it answers 200 with the override, rate 60 and the free plan, and the
    store is not asked, while the webhook's resolver, on a cache that
    holds a live route for the same secret, returns that route instead.
    Without an override the store is asked once, and the answer is the
    tenant's row when the store returns an active tenant without error,
    and 404 otherwise. *)
Theorem resolveBySecret_skips_cache d secretId s :
  let r := resolveBySecret h d secretId s in
  final r = s
  ∧ (∀ url, resolveClientWebhookURLFromEnv h secretId = (url, true) →
       val r = AdminResolved StatusOK
                 {| ResolvedWebhookURL := url; ResolvedRateLimitPerMin := 60;
                    ResolvedPlan := PlanFREE |}
       ∧ trace r = []
       ∧ ∀ v, (cache.Get (Now h) secretId (Cache s) (clock s)).1 = (v, true) →
              val (resolveClientWebhookCached h d secretId s) = (v, true))
  ∧ ((resolveClientWebhookURLFromEnv h secretId).2 = false →
       trace r = [StoreQuery secretId]
       ∧ (∀ cli, ClientSvc d secretId = (Some cli, None) →
                 IsActive cli = true →
                 val r = AdminResolved StatusOK
                           {| ResolvedWebhookURL := WebhookURL cli;
                              ResolvedRateLimitPerMin := RateLimitPerMin cli;
                              ResolvedPlan := Plan cli |})
       ∧ (storeFailure (ClientSvc d secretId) →
          val r = AdminJSON StatusNotFound
                    [("error", "Cliente não encontrado")])).
Proof.
  intros r. subst r.
  assert (Hhit : ∀ v,
            (cache.Get (Now h) secretId (Cache s) (clock s)).1 = (v, true) →
            val (resolveClientWebhookCached h d secretId s) = (v, true)).
  { intros v Hg. by rewrite (resolve_cached h d secretId s v Hg). }
  unfold resolveBySecret.
  destruct (resolveClientWebhookURLFromEnv h secretId) as [url [|]] eqn:He.
  - simpl. split; [done|]. split; [|done].
    intros ? [= <-]. split; [done|]. split; [done|]. exact Hhit.
  - unfold bind, getBySecretID, emit. simpl.
    destruct (ClientSvc d secretId) as [[cli|] [e|]] eqn:Hc; simpl;
      try (split; [done|]; split; [by intros ? [=]|]; intros _;
           split; [done|]; split; [by intros ? [=]|done]).
    destruct (IsActive cli) eqn:Ha; simpl;
      (split; [done|]); (split; [by intros ? [=]|]); intros _;
      (split; [done|]).
    + split; [by intros ? [= <-] _|]. inversion 1; congruence.
    + split; [|done]. intros ? [= <-]. congruence.
Qed.

(** X9.  The purge route answers 401 and leaves the state as it is when
    the configured token is blank, whatever key is presented, and when
    the key presented is not the token.  With the right key and a secret
    that is not blank it answers 204, removes the entry of the trimmed
    secret and no other, and the next resolution of that secret does not
    come from the cache: an override in the environment takes effect at
    once. *)
Theorem adminCachePurge_spec d adminKey secretId s :
  let r := adminCachePurge d adminKey secretId s in
  (TrimSpace (AdminServiceToken (Cfg d)) = ""
   ∨ adminKey ≠ AdminServiceToken (Cfg d) →
   val r = AdminJSON StatusUnauthorized [("error", "unauthorized")]
   ∧ final r = s)
  ∧ (TrimSpace (AdminServiceToken (Cfg d)) ≠ "" →
     adminKey = AdminServiceToken (Cfg d) →
     TrimSpace secretId ≠ "" →
     val r = AdminStatus StatusNoContent
     ∧ cache.items (Cache (final r)) !! TrimSpace secretId = None
     ∧ (∀ key, key ≠ TrimSpace secretId →
          cache.items (Cache (final r)) !! key = cache.items (Cache s) !! key)
     ∧ clock (final r) = clock s
     ∧ ∀ url, resolveClientWebhookURLFromEnv h (TrimSpace secretId)
              = (url, true) →
         val (resolveClientWebhookCached h d (TrimSpace secretId) (final r))
         = (url, true)).
Proof.
  intros r. subst r. unfold adminCachePurge. split.
  - intros [Hb | Hk].
    + apply isEmpty_true in Hb. by rewrite Hb.
    + apply String.eqb_neq in Hk. rewrite Hk, orb_true_r. done.
  - intros Hb%isEmpty_false -> Hs%isEmpty_false.
    rewrite Hb, String.eqb_refl, Hs.
    unfold bind, purge, onCache. cbn -[resolveClientWebhookCached].
    split; [done|]. split; [apply lookup_delete_eq|].
    split; [by intros key Hne; apply lookup_delete_ne|]. split; [done|].
    intros url He.
    rewrite (resolve_from_env h d (TrimSpace secretId) _ url); [done| |done].
    simpl. rewrite Get_absent; [done|]. simpl. apply lookup_delete_eq.
Qed.

End admin_extras.

(** ** The identifier converter: one call *)

Lemma length_append (s1 s2 : string) :
  String.length (s1 +:+ s2) = (String.length s1 + String.length s2)%nat.
Proof. induction s1 as [|a s1 IH]; simpl; [done|by rewrite IH]. Qed.

Lemma length_slice_to (n : nat) (s : string) :
  (String.length (slice_to n s) ≤ n)%nat.
Proof.
  unfold slice_to. revert s.
  induction n as [|n IH]; intros [|a s]; simpl; try lia.
  specialize (IH s). lia.
Qed.

Lemma length_slice_to_long (n : nat) (s : string) :
  (n ≤ String.length s)%nat → String.length (slice_to n s) = n.
Proof.
  unfold slice_to. revert s.
  induction n as [|n IH]; intros [|a s]; simpl; try lia.
  intros Hn. rewrite IH; lia.
Qed.

Section conversion_extras.
Context {RT : GoRuntime}.
Import webhook.
Implicit Types (c : LIDConverter) (s : State).

(** X10.  A call of [ConvertLIDToJID] on a legacy identifier sends at
    most one request, and it sends one exactly when the converter has a
    base URL and a token and the request can be built.  It returns an
    identifier without error exactly when the service gave a positive
    answer to that request, and then it returns the identifier of that
    answer.  A missing base URL is reported before a missing token. *)
Theorem ConvertLIDToJID_outcome c lid apiToken s :
  IsLID lid = true →
  let r := ConvertLIDToJID c lid apiToken s in
  (length (requests (trace r)) ≤ 1)%nat
  ∧ ((∃ reqBody, sendable c apiToken lid reqBody) ↔ requests (trace r) ≠ [])
  ∧ (∀ jid, val r = Ok jid ↔ converted c apiToken s (trace r) lid jid)
  ∧ (BaseURL c = "" → val r = Err ErrURLNotConfigured).
Proof.
  intros Hl r. subst r. unfold ConvertLIDToJID. rewrite Hl. simpl.
  destruct (isEmpty (BaseURL c)) eqn:Hb.
  { simpl. split; [lia|]. split.
    - split; [|done]. intros (reqBody & Hne & _).
      by apply isEmpty_false in Hne; congruence.
    - split; [|done]. intros jid. split; [done|].
      by intros (i & ? & ? & ? & _ & Hi & _). }
  assert (Hurl : BaseURL c ≠ "") by by apply isEmpty_false.
  destruct (isEmpty apiToken) eqn:Ht.
  { simpl. split; [lia|]. split.
    - split; [|done]. intros (reqBody & _ & Hne & _).
      by apply isEmpty_false in Hne; congruence.
    - split; [|done]. intros jid. split; [done|].
      by intros (i & ? & ? & ? & _ & Hi & _). }
  assert (Htok : apiToken ≠ "") by by apply isEmpty_false.
  destruct (json_Marshal_LIDConvertRequest {| LID := lid |})
    as [reqBody|e] eqn:Hm.
  2:{ simpl. split; [lia|]. split.
      - split; [|done]. intros (reqBody & _ & _ & ? & _); congruence.
      - split; [|done]. intros jid. split; [done|].
        by intros (i & ? & ? & ? & _ & Hi & _). }
  destruct (http_NewRequest "POST" (BaseURL c +:+ "/user/parselid"))
    as [u|e] eqn:Hn.
  2:{ simpl. split; [lia|]. split.
      - split; [|done]. intros (reqBody' & _ & _ & _ & ?); congruence.
      - split; [|done]. intros jid. split; [done|].
        by intros (i & ? & ? & ? & _ & Hi & _). }
  destruct u. unfold bind, httpDo. simpl.
  assert (Hconv : ∀ t jid,
            converted c apiToken s
              (HTTPSend (parselidRequest c apiToken reqBody) :: t) lid jid →
            requests t = [] →
            ∃ resp response,
              HTTPClient c (sent s) (parselidRequest c apiToken reqBody)
              = Ok resp
              ∧ StatusCode resp = StatusOK
              ∧ json_Decode_LIDConvertResponse (RespBody resp) = Ok response
              ∧ Status response = true ∧ Success (Data response) = true
              ∧ JID (Data response) = jid).
  { intros t jid (i & reqBody' & resp & response & Hm' & Hi & Hd & Hrest)
      Ht'. simpl in Hi. rewrite Ht' in Hi.
    destruct i as [|i]; [|done]. rewrite Nat.add_0_r in Hd.
    assert (reqBody' = reqBody) as -> by congruence. by exists resp, response. }
  assert (Hsend : ∃ reqBody', sendable c apiToken lid reqBody').
  { by exists reqBody. }
  destruct (HTTPClient c (sent s) (parselidRequest c apiToken reqBody))
    as [resp|e] eqn:Hd; simpl.
  2:{ split; [lia|]. split; [done|]. split; [|done]. intros jid.
      split; [done|]. intros Hc. by destruct (Hconv [] jid Hc eq_refl)
        as (? & ? & ? & _). }
  destruct (StatusCode resp =? StatusOK) eqn:Hc; simpl.
  2:{ split; [lia|]. split; [done|]. split; [|done]. intros jid.
      split; [done|]. intros Hcv.
      destruct (Hconv [] jid Hcv eq_refl) as (? & ? & [= <-] & Hst & _).
      apply Z.eqb_neq in Hc. done. }
  destruct (json_Decode_LIDConvertResponse (RespBody resp))
    as [response|e] eqn:Hdec; simpl.
  2:{ split; [lia|]. split; [done|]. split; [|done]. intros jid.
      split; [done|]. intros Hcv.
      destruct (Hconv [] jid Hcv eq_refl) as (? & ? & [= <-] & _ & ? & _).
      congruence. }
  destruct (Status response) eqn:Hst; simpl.
  2:{ split; [lia|]. split; [done|]. split; [|done]. intros jid.
      split; [done|]. intros Hcv.
      destruct (Hconv [] jid Hcv eq_refl)
        as (? & ? & [= <-] & _ & ? & ? & _). congruence. }
  destruct (Success (Data response)) eqn:Hsu; simpl.
  2:{ split; [lia|]. split; [done|]. split; [|done]. intros jid.
      split; [done|]. intros Hcv.
      destruct (Hconv [] jid Hcv eq_refl)
        as (? & ? & [= <-] & _ & ? & ? & ? & _). congruence. }
  split; [lia|]. split; [done|]. split; [|done]. intros jid. split.
  - intros [= <-]. exists 0%nat, reqBody, resp, response.
    rewrite Nat.add_0_r. apply Z.eqb_eq in Hc. done.
  - intros Hcv.
    destruct (Hconv [] jid Hcv eq_refl)
      as (? & ? & [= <-] & _ & ? & _ & _ & <-). congruence.
Qed.

(** X11.  When the service answers a request with a status other than
    200, the error carries that status and the body of the answer, cut
    to its first 200 bytes and marked with three dots when it is longer:
    the text it carries never exceeds 203 bytes, and a body of at most
    200 bytes is carried whole. *)
Theorem ConvertLIDToJID_status_error c lid apiToken s reqBody resp :
  IsLID lid = true →
  sendable c apiToken lid reqBody →
  HTTPClient c (sent s) (parselidRequest c apiToken reqBody) = Ok resp →
  StatusCode resp ≠ StatusOK →
  ∃ shown,
    val (ConvertLIDToJID c lid apiToken s)
    = Err (ErrAPIStatus (StatusCode resp) shown)
    ∧ (String.length shown ≤ 203)%nat
    ∧ ((String.length (RespBody resp) ≤ 200)%nat → shown = RespBody resp)
    ∧ ((200 < String.length (RespBody resp))%nat →
       shown = slice_to 200 (RespBody resp) +:+ "..."
       ∧ String.length shown = 203%nat).
Proof.
  intros Hl (Hurl%isEmpty_false & Htok%isEmpty_false & Hm & Hn) Hd Hc.
  unfold ConvertLIDToJID. rewrite Hl, Hurl, Htok, Hm, Hn. simpl.
  unfold bind, httpDo. simpl. rewrite Hd. simpl.
  apply Z.eqb_neq in Hc. rewrite Hc. simpl.
  eexists. split; [done|].
  destruct (200 <? String.length (RespBody resp))%nat eqn:Hlen.
  - apply Nat.ltb_lt in Hlen.
    assert (String.length (slice_to 200 (RespBody resp) +:+ "...") = 203%nat).
    { rewrite length_append, length_slice_to_long by lia. done. }
    split; [lia|]. split; [lia|done].
  - apply Nat.ltb_ge in Hlen. split; [lia|]. split; [done|lia].
Qed.

End conversion_extras.

(** ** The identifier converter: a whole event *)

Section detection_extras.
Context {RT : GoRuntime}.
Import webhook.
Implicit Types (c : LIDConverter) (s : State).

(** One call sends at most one request, and a call on a legacy identifier
    that returns without error has sent one. *)
Lemma ConvertLIDToJID_requests c lid apiToken s :
  let r := ConvertLIDToJID c lid apiToken s in
  (length (requests (trace r)) ≤ 1)%nat
  ∧ (IsLID lid = true → is_Ok (val r) = true →
     length (requests (trace r)) = 1%nat)
  ∧ Cache (final r) = Cache s ∧ clock (final r) = clock s.
Proof.
  unfold ConvertLIDToJID, bind, httpDo.
  repeat (case_match; simpl; try done); repeat split; try done; try lia.
  intros Hl. by rewrite Hl in *.
Qed.

(** Runs a block of [DetectAndConvertIDs] through its cases; the call of
    [ConvertLIDToJID] is replaced by an arbitrary run that satisfies
    [ConvertLIDToJID_requests]. *)
Ltac block_cases c apiToken info s :=
  let x := fresh "x" in
  let Hx := fresh "Hx" in
  let He := fresh "He" in
  let Hl := fresh "Hl" in
  let Hq := fresh "Hq" in
  let Hok := fresh "Hok" in
  let HC := fresh "HC" in
  let Hk := fresh "Hk" in
  let jid := fresh "jid" in
  let e := fresh "e" in
  let s' := fresh "s'" in
  let t := fresh "t" in
  cbv zeta;
  match goal with
  | |- context [jlookup_string info ?field] =>
      destruct (jlookup_string info field) as [x|] eqn:Hx
  end;
  [ destruct (isEmpty x) eqn:He;
    [ | destruct (IsLID x) eqn:Hl;
        [ unfold bind;
          destruct (ConvertLIDToJID_requests c x apiToken s)
            as (Hq & Hok & HC & Hk);
          specialize (Hok Hl);
          destruct (ConvertLIDToJID c x apiToken s) as [[jid|e] s' t];
          cbn [val final trace is_Ok] in Hq, Hok, HC, Hk;
          [ specialize (Hok eq_refl) | clear Hok ]
        | ] ]
  | ];
  cbn [val final trace];
  repeat match goal with
    | |- context [if ?b then _ else _] => destruct b eqn:?
    end;
  cbn [val final trace]; rewrite ?app_nil_r.

(** The cost of a block: at most one request, at most one more entry in
    [Conversions] and only when a request went out; the cache, the clock
    and [OriginalData] stay as they are. *)
Definition block_cost
    (block : LIDConverter → string → jobject → ConvertedEventInfo
             → M ConvertedEventInfo) : Prop :=
  ∀ c apiToken info result s,
    let r := block c apiToken info result s in
    Cache (final r) = Cache s ∧ clock (final r) = clock s
    ∧ (length (requests (trace r)) ≤ 1)%nat
    ∧ (size (Conversions (val r))
       ≤ size (Conversions result) + length (requests (trace r)))%nat
    ∧ OriginalData (val r) = OriginalData result.

Ltac block_cost_proof c apiToken info s :=
  block_cases c apiToken info s; simpl;
  rewrite ?map_size_insert;
  repeat match goal with
    | |- context [match ?o with Some _ => _ | None => _ end] => destruct o
    end; simpl;
  repeat split; try done; try lia.

Lemma detectChat_cost : block_cost detectChat.
Proof.
  intros c apiToken info result s. unfold detectChat.
  block_cost_proof c apiToken info s.
Qed.

Lemma detectSender_cost : block_cost detectSender.
Proof.
  intros c apiToken info result s. unfold detectSender.
  block_cost_proof c apiToken info s.
Qed.

Lemma detectSenderAlt_cost : block_cost detectSenderAlt.
Proof.
  intros c apiToken info result s. unfold detectSenderAlt.
  block_cost_proof c apiToken info s.
Qed.

Lemma detectRecipientAlt_cost : block_cost detectRecipientAlt.
Proof.
  intros c apiToken info result s. unfold detectRecipientAlt.
  block_cost_proof c apiToken info s.
Qed.

Lemma detectIsGroup_OriginalData info (result : ConvertedEventInfo) :
  OriginalData (detectIsGroup info result) = OriginalData result.
Proof.
  unfold detectIsGroup. destruct (jlookup info "IsGroup") as [[]|]; done.
Qed.

Lemma detectGroupChat_OriginalData (result : ConvertedEventInfo) :
  OriginalData (detectGroupChat result) = OriginalData result.
Proof.
  unfold detectGroupChat. destruct (isEmpty (ChatJID result)); [done|].
  by destruct (_ || _).
Qed.

(** X12.  A call of [DetectAndConvertIDs] sends at most four requests
    and nothing else: the cache and the clock are as before, and the
    count of requests sent grows by the requests of the trace.  A result
    has at most as many entries in [Conversions] as requests went out,
    and its [OriginalData] is the text that was given. *)
Theorem DetectAndConvertIDs_cost c jsonDataStr apiToken s :
  let r := DetectAndConvertIDs c jsonDataStr apiToken s in
  (length (requests (trace r)) ≤ 4)%nat
  ∧ Cache (final r) = Cache s ∧ clock (final r) = clock s
  ∧ sent (final r) = (sent s + length (requests (trace r)))%nat
  ∧ ∀ result, val r = Ok result →
      (size (Conversions result) ≤ length (requests (trace r)))%nat
      ∧ OriginalData result = jsonDataStr.
Proof.
  intros r. subst r. unfold DetectAndConvertIDs.
  destruct (json_Unmarshal_envelope jsonDataStr) as [env|e0]; simpl.
  2:{ split; [lia|]. split; [done|]. split; [done|]. split; [lia|done]. }
  unfold bind. simpl.
  destruct (Info (Event env)) as [info|]; simpl.
  2:{ split; [lia|]. split; [done|]. split; [done|]. split; [lia|].
      intros result [= <-].
      rewrite detectGroupChat_Conversions, detectGroupChat_OriginalData.
      simpl. by rewrite map_size_empty. }
  set (r1 := detectChat c apiToken info (emptyInfo jsonDataStr) s).
  set (r2 := detectSender c apiToken info (val r1) (final r1)).
  set (r3 := detectSenderAlt c apiToken info (val r2) (final r2)).
  set (r4 := detectRecipientAlt c apiToken info (val r3) (final r3)).
  destruct (detectChat_cost c apiToken info (emptyInfo jsonDataStr) s)
    as (C1 & K1 & Q1 & Z1 & O1).
  destruct (detectSender_cost c apiToken info (val r1) (final r1))
    as (C2 & K2 & Q2 & Z2 & O2).
  destruct (detectSenderAlt_cost c apiToken info (val r2) (final r2))
    as (C3 & K3 & Q3 & Z3 & O3).
  destruct (detectRecipientAlt_cost c apiToken info (val r3) (final r3))
    as (C4 & K4 & Q4 & Z4 & O4).
  destruct (detectChat_spec c apiToken info (emptyInfo jsonDataStr) s)
    as (S1 & _).
  destruct (detectSender_spec c apiToken info (val r1) (final r1))
    as (S2 & _).
  destruct (detectSenderAlt_spec c apiToken info (val r2) (final r2))
    as (S3 & _).
  destruct (detectRecipientAlt_spec c apiToken info (val r3) (final r3))
    as (S4 & _).
  fold r1 in C1, K1, Q1, Z1, O1, S1. fold r2 in C2, K2, Q2, Z2, O2, S2.
  fold r3 in C3, K3, Q3, Z3, O3, S3. fold r4 in C4, K4, Q4, Z4, O4, S4.
  clearbody r1 r2 r3 r4.
  rewrite !app_nil_r, !requests_app, !length_app.
  simpl in Z1. rewrite map_size_empty in Z1.
  split; [lia|]. split; [congruence|]. split; [congruence|]. split; [lia|].
  intros result [= <-].
  rewrite detectGroupChat_Conversions, detectIsGroup_Conversions,
    detectGroupChat_OriginalData, detectIsGroup_OriginalData.
  split; [lia|]. by rewrite O4, O3, O2, O1.
Qed.

(** The two closing checks change nothing but the group flag. *)
Lemma group_checks_only_flag info (result : ConvertedEventInfo) :
  ∃ b, detectGroupChat (detectIsGroup info result) = set_IsGroup b result.
Proof.
  destruct result. unfold detectGroupChat, detectIsGroup.
  repeat (case_match; simpl); by eexists.
Qed.

Ltac block_plain info H :=
  let x := fresh "x" in
  let Hx := fresh "Hx" in
  cbv zeta;
  match goal with
  | |- context [jlookup_string info ?field] =>
      destruct (jlookup_string info field) as [x|] eqn:Hx; [|done]
  end;
  simpl; destruct (isEmpty x); [done|];
  by rewrite (H x eq_refl).

Lemma detectChat_plain c apiToken info result s :
  (∀ x, jlookup_string info "Chat" = Some x → IsLID x = false) →
  detectChat c apiToken info result s
  = ret (match jlookup_string info "Chat" with
         | Some x => if isEmpty x then result
                     else set_ChatJID x (set_Chat x result)
         | None => result
         end) s.
Proof. intros H. unfold detectChat. block_plain info H. Qed.

Lemma detectSender_plain c apiToken info result s :
  (∀ x, jlookup_string info "Sender" = Some x → IsLID x = false) →
  detectSender c apiToken info result s
  = ret (match jlookup_string info "Sender" with
         | Some x => if isEmpty x then result
                     else set_SenderJID x (set_Sender x result)
         | None => result
         end) s.
Proof. intros H. unfold detectSender. block_plain info H. Qed.

Lemma detectSenderAlt_plain c apiToken info result s :
  (∀ x, jlookup_string info "SenderAlt" = Some x → IsLID x = false) →
  detectSenderAlt c apiToken info result s
  = ret (match jlookup_string info "SenderAlt" with
         | Some x => if isEmpty x then result else set_SenderAlt x result
         | None => result
         end) s.
Proof. intros H. unfold detectSenderAlt. block_plain info H. Qed.

Lemma detectRecipientAlt_plain c apiToken info result s :
  (∀ x, jlookup_string info "RecipientAlt" = Some x → IsLID x = false) →
  detectRecipientAlt c apiToken info result s
  = ret (match jlookup_string info "RecipientAlt" with
         | Some x => if isEmpty x then result else set_RecipientAlt x result
         | None => result
         end) s.
Proof.
  intros H. unfold detectRecipientAlt. block_plain info H.
Qed.

(** X13.  When none of the four identifier fields of an event holds a
    legacy identifier, [DetectAndConvertIDs] sends nothing and leaves the
    state as it is, whatever the converter and the token are.  It records
    no conversion, so [ApplyConversionsToJSON] gives the event back as it
    came.  The chat and the sender are their own final identifiers, while
    the two alternative fields are kept without a final identifier. *)
Theorem DetectAndConvertIDs_without_legacy_ids c jsonDataStr apiToken s env :
  json_Unmarshal_envelope jsonDataStr = Ok env →
  (∀ info f x, Info (Event env) = Some info → f ∈ idFields →
               jlookup_string info f = Some x → IsLID x = false) →
  let r := DetectAndConvertIDs c jsonDataStr apiToken s in
  trace r = [] ∧ final r = s
  ∧ ∃ result, val r = Ok result
      ∧ Conversions result = ∅
      ∧ ApplyConversionsToJSON result = Ok jsonDataStr
      ∧ ∀ info, Info (Event env) = Some info →
          Chat result = default "" (jlookup_string info "Chat")
          ∧ ChatJID result = Chat result
          ∧ Sender result = default "" (jlookup_string info "Sender")
          ∧ SenderJID result = Sender result
          ∧ SenderAlt result = default "" (jlookup_string info "SenderAlt")
          ∧ SenderAltJID result = ""
          ∧ RecipientAlt result
            = default "" (jlookup_string info "RecipientAlt")
          ∧ RecipientAltJID result = "".
Proof.
  intros He Hplain r. subst r. unfold DetectAndConvertIDs. rewrite He.
  unfold bind at 1.
  assert (Hdone : ∀ result : ConvertedEventInfo,
            Conversions result = ∅ → OriginalData result = jsonDataStr →
            Conversions (detectGroupChat result) = ∅
            ∧ ApplyConversionsToJSON (detectGroupChat result)
              = Ok jsonDataStr).
  { intros result Hc Ho.
    assert (Conversions (detectGroupChat result) = ∅) as Hc'
      by by rewrite detectGroupChat_Conversions.
    split; [done|]. unfold ApplyConversionsToJSON.
    apply HasConversions_false in Hc'. rewrite Hc'. simpl.
    by rewrite detectGroupChat_OriginalData, Ho. }
  destruct (Info (Event env)) as [info|] eqn:Hi.
  2:{ simpl. split; [done|]. split; [done|]. eexists. split; [done|].
      destruct (Hdone (emptyInfo jsonDataStr)) as [Hc Ha]; [done..|].
      split; [done|]. split; [done|]. by intros info [=]. }
  unfold bind.
  rewrite detectChat_plain by (intros x; apply (Hplain info); [done|in_list]).
  cbn [ret val final trace].
  rewrite detectSender_plain
    by (intros x; apply (Hplain info); [done|in_list]).
  cbn [ret val final trace].
  rewrite detectSenderAlt_plain
    by (intros x; apply (Hplain info); [done|in_list]).
  cbn [ret val final trace].
  rewrite detectRecipientAlt_plain
    by (intros x; apply (Hplain info); [done|in_list]).
  cbn [ret val final trace app].
  split; [done|]. split; [done|]. eexists. split; [done|].
  match goal with
  | |- context [detectGroupChat (detectIsGroup info ?res)] =>
      destruct (group_checks_only_flag info res) as [b Hb];
      pose proof (Hdone (detectIsGroup info res)) as Hd;
      rewrite detectIsGroup_Conversions, detectIsGroup_OriginalData in Hd;
      rewrite Hb in *
  end.
  assert (Hfields : ∀ b' (res : ConvertedEventInfo),
            Conversions (set_IsGroup b' res) = Conversions res) by done.
  split; [|split].
  - simpl.
    destruct (jlookup_string info "Chat") as [x1|];
      [destruct (isEmpty x1)|];
      (destruct (jlookup_string info "Sender") as [x2|];
         [destruct (isEmpty x2)|]);
      (destruct (jlookup_string info "SenderAlt") as [x3|];
         [destruct (isEmpty x3)|]);
      (destruct (jlookup_string info "RecipientAlt") as [x4|];
         [destruct (isEmpty x4)|]); done.
  - apply Hd.
    + destruct (jlookup_string info "Chat") as [x1|];
        [destruct (isEmpty x1)|];
        (destruct (jlookup_string info "Sender") as [x2|];
           [destruct (isEmpty x2)|]);
        (destruct (jlookup_string info "SenderAlt") as [x3|];
           [destruct (isEmpty x3)|]);
        (destruct (jlookup_string info "RecipientAlt") as [x4|];
           [destruct (isEmpty x4)|]); done.
    + destruct (jlookup_string info "Chat") as [x1|];
        [destruct (isEmpty x1)|];
        (destruct (jlookup_string info "Sender") as [x2|];
           [destruct (isEmpty x2)|]);
        (destruct (jlookup_string info "SenderAlt") as [x3|];
           [destruct (isEmpty x3)|]);
        (destruct (jlookup_string info "RecipientAlt") as [x4|];
           [destruct (isEmpty x4)|]); done.
  - intros ? [= <-]. simpl.
    destruct (jlookup_string info "Chat") as [x1|];
      [destruct (isEmpty x1) eqn:E1|];
      (destruct (jlookup_string info "Sender") as [x2|];
         [destruct (isEmpty x2) eqn:E2|]);
      (destruct (jlookup_string info "SenderAlt") as [x3|];
         [destruct (isEmpty x3) eqn:E3|]);
      (destruct (jlookup_string info "RecipientAlt") as [x4|];
         [destruct (isEmpty x4) eqn:E4|]);
      rewrite ?isEmpty_true in *; subst; done.
Qed.

(** A block whose field holds no string, or an empty one, does nothing. *)
Ltac block_idle_proof info :=
  let x := fresh "x" in
  match goal with
  | |- context [jlookup_string info ?field] =>
      destruct (jlookup_string info field) as [x|]; [|done]
  end;
  simpl; intros ->; done.

Lemma detectChat_idle c apiToken info result s :
  default "" (jlookup_string info "Chat") = "" →
  detectChat c apiToken info result s = ret result s.
Proof. unfold detectChat. block_idle_proof info. Qed.

Lemma detectSender_idle c apiToken info result s :
  default "" (jlookup_string info "Sender") = "" →
  detectSender c apiToken info result s = ret result s.
Proof. unfold detectSender. block_idle_proof info. Qed.

(** What the blocks leave alone. *)
Ltac block_keeps c apiToken info s :=
  block_cases c apiToken info s; simpl;
  repeat split; try done; by rewrite lookup_insert_ne.

Lemma detectChat_keeps c apiToken info result s :
  let r := detectChat c apiToken info result s in
  SenderJID (val r) = SenderJID result
  ∧ SenderAltJID (val r) = SenderAltJID result
  ∧ Conversions (val r) !! "SenderAlt" = Conversions result !! "SenderAlt".
Proof. unfold detectChat. block_keeps c apiToken info s. Qed.

Lemma detectRecipientAlt_keeps c apiToken info result s :
  let r := detectRecipientAlt c apiToken info result s in
  SenderJID (val r) = SenderJID result
  ∧ SenderAltJID (val r) = SenderAltJID result
  ∧ Conversions (val r) !! "SenderAlt" = Conversions result !! "SenderAlt".
Proof. unfold detectRecipientAlt. block_keeps c apiToken info s. Qed.

Lemma detectSender_keeps c apiToken info result s :
  let r := detectSender c apiToken info result s in
  ChatJID (val r) = ChatJID result
  ∧ RecipientAltJID (val r) = RecipientAltJID result
  ∧ Conversions (val r) !! "RecipientAlt"
    = Conversions result !! "RecipientAlt".
Proof. unfold detectSender. block_keeps c apiToken info s. Qed.

Lemma detectSenderAlt_keeps c apiToken info result s :
  let r := detectSenderAlt c apiToken info result s in
  ChatJID (val r) = ChatJID result
  ∧ RecipientAltJID (val r) = RecipientAltJID result
  ∧ Conversions (val r) !! "RecipientAlt"
    = Conversions result !! "RecipientAlt".
Proof. unfold detectSenderAlt. block_keeps c apiToken info s. Qed.

(** The two blocks with a fallback, entered with the main identifier
    still empty. *)
Lemma detectSenderAlt_fallback c apiToken info result s :
  SenderJID result = "" → Conversions result !! "SenderAlt" = None →
  let r := detectSenderAlt c apiToken info result s in
  (is_Some (Conversions (val r) !! "SenderAlt")
   ∧ SenderJID (val r) = SenderAltJID (val r))
  ∨ (Conversions (val r) !! "SenderAlt" = None ∧ SenderJID (val r) = "").
Proof.
  intros Hj Hc. unfold detectSenderAlt.
  block_cases c apiToken info s; simpl in *;
    rewrite ?lookup_insert_eq; try (by right); try (by left).
  by rewrite Hj in *.
Qed.

Lemma detectRecipientAlt_fallback c apiToken info result s :
  ChatJID result = "" → Conversions result !! "RecipientAlt" = None →
  let r := detectRecipientAlt c apiToken info result s in
  (is_Some (Conversions (val r) !! "RecipientAlt")
   ∧ ChatJID (val r) = RecipientAltJID (val r))
  ∨ (Conversions (val r) !! "RecipientAlt" = None ∧ ChatJID (val r) = "").
Proof.
  intros Hj Hc. unfold detectRecipientAlt.
  block_cases c apiToken info s; simpl in *;
    rewrite ?lookup_insert_eq; try (by right); try (by left).
  by rewrite Hj in *.
Qed.

(** X14.  In a result of [DetectAndConvertIDs]: when the event has no
    sender, the final sender is the converted alternative sender if that
    conversion was recorded, and is empty otherwise, so an alternative
    sender that is not a legacy identifier is never taken; the same holds
    for the chat and the alternative recipient; and a final chat
    identifier that holds [@g.us] or [@broadcast] in any case sets the
    group flag, whatever the event said. *)
Theorem DetectAndConvertIDs_fallbacks c jsonDataStr apiToken s env info
    result :
  json_Unmarshal_envelope jsonDataStr = Ok env →
  Info (Event env) = Some info →
  val (DetectAndConvertIDs c jsonDataStr apiToken s) = Ok result →
  (default "" (jlookup_string info "Sender") = "" →
     (is_Some (Conversions result !! "SenderAlt") →
      SenderJID result = SenderAltJID result)
     ∧ (Conversions result !! "SenderAlt" = None → SenderJID result = ""))
  ∧ (default "" (jlookup_string info "Chat") = "" →
     (is_Some (Conversions result !! "RecipientAlt") →
      ChatJID result = RecipientAltJID result)
     ∧ (Conversions result !! "RecipientAlt" = None → ChatJID result = ""))
  ∧ (ChatJID result ≠ "" →
     Contains (ToLower (ChatJID result)) "@g.us"
     || Contains (ToLower (ChatJID result)) "@broadcast" = true →
     IsGroup result = true).
Proof.
  intros He Hi. unfold DetectAndConvertIDs. rewrite He, Hi.
  unfold bind. cbn [ret val final trace].
  set (r1 := detectChat c apiToken info (emptyInfo jsonDataStr) s).
  set (r2 := detectSender c apiToken info (val r1) (final r1)).
  set (r3 := detectSenderAlt c apiToken info (val r2) (final r2)).
  set (r4 := detectRecipientAlt c apiToken info (val r3) (final r3)).
  intros [= <-].
  destruct (group_checks_only_flag info (val r4)) as [b Hb].
  split; [|split].
  - intros Hs. rewrite Hb. cbn [SenderJID SenderAltJID Conversions set_IsGroup].
    destruct (detectChat_keeps c apiToken info (emptyInfo jsonDataStr) s)
      as (J1 & A1 & C1).
    fold r1 in J1, A1, C1.
    assert (val r2 = val r1) as E2.
    { subst r2. by rewrite detectSender_idle. }
    destruct (detectRecipientAlt_keeps c apiToken info (val r3) (final r3))
      as (J4 & A4 & C4).
    fold r4 in J4, A4, C4. rewrite J4, A4, C4.
    destruct (detectSenderAlt_fallback c apiToken info (val r2) (final r2))
      as [[Hsome Heq] | [Hnone Hempty]].
    + by rewrite E2, J1.
    + by rewrite E2, C1.
    + fold r3 in Hsome, Heq. split; [done|].
      intros Hn. rewrite Hn in Hsome. by destruct Hsome.
    + fold r3 in Hnone, Hempty. split; [|done].
      intros Hsome. rewrite Hnone in Hsome. by destruct Hsome.
  - intros Hs. rewrite Hb.
    cbn [ChatJID RecipientAltJID Conversions set_IsGroup].
    assert (val r1 = emptyInfo jsonDataStr) as E1.
    { subst r1. by rewrite detectChat_idle. }
    destruct (detectSender_keeps c apiToken info (val r1) (final r1))
      as (J2 & A2 & C2).
    fold r2 in J2, A2, C2.
    destruct (detectSenderAlt_keeps c apiToken info (val r2) (final r2))
      as (J3 & A3 & C3).
    fold r3 in J3, A3, C3.
    destruct (detectRecipientAlt_fallback c apiToken info (val r3)
                (final r3)) as [[Hsome Heq] | [Hnone Hempty]].
    + by rewrite J3, J2, E1.
    + by rewrite C3, C2, E1.
    + fold r4 in Hsome, Heq. split; [done|].
      intros Hn. rewrite Hn in Hsome. by destruct Hsome.
    + fold r4 in Hnone, Hempty. split; [|done].
      intros Hsome. rewrite Hnone in Hsome. by destruct Hsome.
  - unfold detectGroupChat.
    destruct (isEmpty (ChatJID (detectIsGroup info (val r4)))) eqn:Hc.
    { apply isEmpty_true in Hc. by intros []. }
    destruct (_ || _) eqn:Hg; [done|].
    intros _ Hg'. by rewrite Hg' in Hg.
Qed.

End detection_extras.

(** ** Writing the identifiers back *)

Section rewriting_extras.
Context {RT : GoRuntime}.
Import webhook.

(** X15.  [applyConversions] on a parsed document changes nothing
    outside [event.Info]: every top-level member other than [event] and
    every member of [event] other than [Info] is as it was, and a
    document without an [event] object, or whose event has no [Info]
    object, comes back unchanged.  Inside [Info] only the four
    identifier fields can change, and each of them holds its final
    identifier exactly when that identifier and the original are not
    empty and differ; it is as it was otherwise. *)
Theorem applyConversions_only_identifiers (c : ConvertedEventInfo)
    (m : jobject) :
  ∃ m', applyConversions c (Some m) = Some m'
    ∧ (∀ k, k ≠ "event" → jlookup m' k = jlookup m k)
    ∧ (jlookup_object m "event" = None → m' = m)
    ∧ ∀ event, jlookup_object m "event" = Some event →
        (jlookup_object event "Info" = None → m' = m)
        ∧ ∀ info, jlookup_object event "Info" = Some info →
            ∃ event' info',
              jlookup_object m' "event" = Some event'
              ∧ jlookup_object event' "Info" = Some info'
              ∧ (∀ k, k ≠ "Info" → jlookup event' k = jlookup event k)
              ∧ (∀ k, k ∉ idFields → jlookup info' k = jlookup info k)
              ∧ ∀ field jid orig,
                  (field, jid, orig)
                  ∈ [("Chat", ChatJID c, Chat c);
                     ("Sender", SenderJID c, Sender c);
                     ("SenderAlt", SenderAltJID c, SenderAlt c);
                     ("RecipientAlt", RecipientAltJID c, RecipientAlt c)] →
                  jlookup info' field
                  = if decide (jid ≠ "" ∧ orig ≠ "" ∧ jid ≠ orig)
                    then Some (JString jid) else jlookup info field.
Proof.
  unfold applyConversions. simpl.
  destruct (jlookup_object m "event") as [event|] eqn:He.
  2:{ exists m. split; [done|]. split; [done|]. split; [done|].
      by intros ? [=]. }
  destruct (jlookup_object event "Info") as [info|] eqn:Hi.
  2:{ exists m. split; [done|]. split; [done|]. split; [done|].
      intros ? [= <-]. split; [done|]. intros info. congruence. }
  eexists. split; [done|].
  split; [by intros k Hk; apply jlookup_jset_ne|]. split; [done|].
  intros ? [= <-]. split; [congruence|]. intros info' Hi'.
  assert (info' = info) as -> by congruence. clear Hi'.
  eexists _, _. unfold jlookup_object.
  rewrite jlookup_jset_eq. split; [done|].
  rewrite jlookup_jset_eq. split; [done|].
  split; [by intros k Hk; apply jlookup_jset_ne|]. split.
  - intros k Hk. rewrite !applyField_lookup.
    repeat case_decide; try done;
      destruct_and?; subst; exfalso; apply Hk; unfold idFields; in_list.
  - intros field jid orig Hin. rewrite !applyField_lookup.
    repeat (apply elem_of_cons in Hin as [[= -> -> ->] | Hin]);
      [..|by apply elem_of_nil in Hin];
      repeat case_decide; try done; destruct_and?; try done; tauto.
Qed.

End rewriting_extras.

(** ** The base URL of the converter *)

Lemma substring_whole (s : string) :
  String.substring 0 (String.length s) s = s.
Proof. induction s as [|a s IH]; simpl; [done|by rewrite IH]. Qed.

Lemma substring_split (s : string) (k : nat) :
  (k ≤ String.length s)%nat →
  String.substring 0 k s +:+ String.substring k (String.length s - k) s = s.
Proof.
  revert k. induction s as [|a s IH]; intros [|k] Hk; simpl in *; try lia.
  - done.
  - by rewrite substring_whole.
  - change (String a (substring 0 k s +:+ substring k (String.length s - k) s)
            = String a s).
    f_equal. apply IH. lia.
Qed.

Section construction_extras.
Context {RT : GoRuntime}.
Import webhook.

(** X16.  [NewLIDConverter] keeps the client and removes one trailing
    slash from the base URL, and no more than one: a base URL without a
    trailing slash is kept as it is, and one with a trailing slash is the
    stored URL followed by a slash.  A base URL that is just a slash is
    stored as the empty string, and the converter built from it reports
    on every legacy identifier that no URL is configured, without sending
    anything. *)
Theorem NewLIDConverter_BaseURL (baseURL : string) (client : Transport) :
  let c := NewLIDConverter baseURL client in
  HTTPClient c = client
  ∧ (HasSuffix baseURL "/" = false → BaseURL c = baseURL)
  ∧ (HasSuffix baseURL "/" = true → BaseURL c +:+ "/" = baseURL)
  ∧ (baseURL = "/" →
     ∀ lid apiToken s, IsLID lid = true →
       ConvertLIDToJID c lid apiToken s
       = {| val := Err ErrURLNotConfigured; final := s; trace := [] |}).
Proof.
  unfold NewLIDConverter. cbn [BaseURL HTTPClient].
  split; [done|]. split; [by intros ->|]. split.
  - intros Hs. rewrite Hs. revert Hs. unfold HasSuffix, slice_to.
    change (String.length "/") with 1%nat.
    intros [Hn He]%andb_true_iff. apply Nat.leb_le in Hn.
    apply String.eqb_eq in He.
    rewrite <- (substring_split baseURL (String.length baseURL - 1)) at 3
      by lia.
    replace (String.length baseURL - (String.length baseURL - 1))%nat
      with 1%nat by lia.
    by rewrite He.
  - intros -> lid apiToken s Hl. unfold ConvertLIDToJID. simpl.
    by rewrite Hl.
Qed.

End construction_extras.

(** ** The classifier of parse.go *)

Section classifier_extras.
Context {RT : GoRuntime}.
Import webhook.
Implicit Types (s : State).

Lemma markGroup_spec (cond : bool) (r : string) (st : bool * string) :
  (markGroup cond r st).1 = cond || st.1
  ∧ (markGroup cond r st).2
    = (if cond && isEmpty st.2 then r else st.2).
Proof. unfold markGroup. destruct cond, st as [b x]; simpl; done. Qed.

(** The reasons the legacy classifier gives for a group. *)
Definition groupReasons : list string :=
  ["is_group_true"; "chat_has_g_us"; "chat_status_broadcast";
   "message_group_id_broadcast"].

(** Every step of the classifier keeps this: a set flag comes with one of
    the reasons, a clear flag with none. *)
Definition flagged (st : bool * string) : Prop :=
  if st.1 then st.2 ∈ groupReasons else st.2 = "".

Lemma markGroup_flagged cond r st :
  r ∈ groupReasons → flagged st → flagged (markGroup cond r st).
Proof.
  unfold flagged, markGroup. destruct cond, st as [[] x]; simpl; try done.
  - intros Hr Hx. destruct (isEmpty x); done.
  - by intros Hr ->.
Qed.

(** X17.  The legacy classifier [ExtractEventInfo] answers
    [json_parse_failed], with a clear flag and no chat or sender, exactly
    when the event does not parse as an envelope.  On an event that
    parses, a set flag always comes with one of four reasons and a clear
    flag with none; the chat and the sender are the strings of [Info],
    empty when missing; and a chat that holds [@g.us] or [@broadcast] in
    any case sets the flag, whatever [IsGroup] says. *)
Theorem ExtractEventInfo_spec (jsonDataStr : string) isGroup chat sender
    reason :
  ExtractEventInfo jsonDataStr = (isGroup, chat, sender, reason) →
  (∀ e, json_Unmarshal_envelope jsonDataStr = Err e →
        (isGroup, chat, sender, reason)
        = (false, "", "", "json_parse_failed"))
  ∧ (∀ env, json_Unmarshal_envelope jsonDataStr = Ok env →
       (if isGroup then reason ∈ groupReasons else reason = "")
       ∧ chat = default "" (Info (Event env)
                              ≫= (λ info, jlookup_string info "Chat"))
       ∧ sender = default "" (Info (Event env)
                                ≫= (λ info, jlookup_string info "Sender"))
       ∧ (Contains (ToLower chat) "@g.us"
          || Contains (ToLower chat) "@broadcast" = true →
          isGroup = true)).
Proof.
  unfold ExtractEventInfo.
  destruct (json_Unmarshal_envelope jsonDataStr) as [env|e0].
  2:{ intros [= <- <- <- <-]. split; [done|]. by intros ? [=]. }
  cbv zeta.
  set (st0 := match mlookup (Info (Event env)) "IsGroup" with
              | Some v => _
              | None => (false, "")
              end).
  assert (H0 : flagged st0).
  { subst st0. unfold flagged.
    destruct (mlookup (Info (Event env)) "IsGroup") as [v|]; [|done].
    simpl. case_match; [|done]. unfold groupReasons. in_list. }
  set (chat0 := match mlookup (Info (Event env)) "Chat" with
                | Some (JString v) => v
                | _ => ""
                end).
  set (sender0 := match mlookup (Info (Event env)) "Sender" with
                  | Some (JString v) => v
                  | _ => ""
                  end).
  set (st1 := markGroup (Contains (ToLower chat0) "@g.us") "chat_has_g_us"
                st0).
  set (st2 := markGroup _ "chat_status_broadcast" st1).
  set (st3 := match Message (Event env) with
              | Some message => _
              | None => st2
              end).
  assert (H1 : flagged st1).
  { apply markGroup_flagged; [unfold groupReasons; in_list|done]. }
  assert (H2 : flagged st2).
  { apply markGroup_flagged; [unfold groupReasons; in_list|done]. }
  assert (H3 : flagged st3 ∧ (st2.1 = true → st3.1 = true)).
  { subst st3. destruct (Message (Event env)) as [message|]; [|done].
    destruct (jlookup_object message _) as [skdm|]; [|done].
    destruct (jlookup_string skdm "groupID") as [gid|]; [|done].
    split.
    - apply markGroup_flagged; [unfold groupReasons; in_list|done].
    - destruct (markGroup_spec
                  (Contains (ToLower gid) "@broadcast"
                   || Contains (ToLower gid) "status@broadcast"
                   || Contains (ToLower gid) "@g.us")
                  "message_group_id_broadcast" st2) as [-> _].
      intros ->. apply orb_true_r. }
  destruct H3 as [H3 Hkeep].
  intros [= <- <- <- <-]. split; [by intros ? [=]|].
  intros ? [= <-]. split; [exact H3|].
  split.
  { subst chat0. unfold mlookup, jlookup_string.
    destruct (Info (Event env)) as [info|]; simpl; [|done].
    by destruct (jlookup info "Chat") as [[]|]. }
  split.
  { subst sender0. unfold mlookup, jlookup_string.
    destruct (Info (Event env)) as [info|]; simpl; [|done].
    by destruct (jlookup info "Sender") as [[]|]. }
  intros Hc. apply Hkeep. subst st2 st1.
  destruct (markGroup_spec
              (Contains (ToLower chat0) "@broadcast"
               || Contains (ToLower chat0) "status@broadcast")
              "chat_status_broadcast"
              (markGroup (Contains (ToLower chat0) "@g.us") "chat_has_g_us"
                 st0)) as [-> _].
  destruct (markGroup_spec (Contains (ToLower chat0) "@g.us")
              "chat_has_g_us" st0) as [-> _].
  destruct (Contains (ToLower chat0) "@g.us"); [by rewrite orb_true_r|].
  simpl in Hc. rewrite Hc. done.
Qed.

End classifier_extras.

Section conversion_parse_extras.
Context {RT : GoRuntime}.
Import webhook.
Implicit Types (s : State).

(** On an envelope that parses, [DetectAndConvertIDs] returns a result
    whose conversions are keyed by the identifier fields. *)
Lemma DetectAndConvertIDs_keys c jsonDataStr apiToken s env :
  json_Unmarshal_envelope jsonDataStr = Ok env →
  ∃ info, val (DetectAndConvertIDs c jsonDataStr apiToken s) = Ok info
          ∧ ∀ f, is_Some (Conversions info !! f) → f ∈ idFields.
Proof.
  intros He. unfold DetectAndConvertIDs. rewrite He. unfold bind. simpl.
  destruct (Info (Event env)) as [info|]; simpl.
  2:{ eexists. split; [done|]. intros f.
      rewrite detectGroupChat_Conversions. simpl.
      rewrite lookup_empty. by intros []. }
  set (r1 := detectChat c apiToken info (emptyInfo jsonDataStr) s).
  set (r2 := detectSender c apiToken info (val r1) (final r1)).
  set (r3 := detectSenderAlt c apiToken info (val r2) (final r2)).
  set (r4 := detectRecipientAlt c apiToken info (val r3) (final r3)).
  destruct (detectChat_spec c apiToken info (emptyInfo jsonDataStr) s)
    as (_ & C1 & _).
  destruct (detectSender_spec c apiToken info (val r1) (final r1))
    as (_ & C2 & _).
  destruct (detectSenderAlt_spec c apiToken info (val r2) (final r2))
    as (_ & C3 & _).
  destruct (detectRecipientAlt_spec c apiToken info (val r3) (final r3))
    as (_ & C4 & _).
  fold r1 in C1. fold r2 in C2. fold r3 in C3. fold r4 in C4.
  eexists. split; [done|]. intros f [v Hv]. revert Hv.
  rewrite detectGroupChat_Conversions, detectIsGroup_Conversions.
  unfold idFields.
  intros [H4 | (-> & _)]%C4; [|in_list].
  apply C3 in H4 as [H3 | (-> & _)]; [|in_list].
  apply C2 in H3 as [H2 | (-> & _)]; [|in_list].
  apply C1 in H2 as [H1 | (-> & _)]; [|in_list].
  simpl in H1. by rewrite lookup_empty in H1.
Qed.

(** X18.  [ExtractEventInfoWithConversion]: the logger changes what is
    printed and nothing else, and without a logger nothing is printed.
    Without a converter the answer is the legacy classifier's, with no
    conversions, and nothing is sent.  With a converter, an event that
    does not parse gets the legacy answer for a failed parse, and the
    parse error is recorded under the key [conversion_error]; an event
    that parses gets the flag, the final chat and sender and the
    conversions of [DetectAndConvertIDs], a set flag comes with one of
    three reasons and a clear flag with none, and the key
    [conversion_error] is absent. *)
Theorem ExtractEventInfoWithConversion_spec jsonDataStr converter apiToken
    logger s :
  let r :=
    ExtractEventInfoWithConversion jsonDataStr converter apiToken logger s in
  let answer (x : Extracted) :=
    (isGroup x, chat x, sender x, reason x, conversions x, eventInfo x) in
  (∀ logger',
     let r' :=
       ExtractEventInfoWithConversion jsonDataStr converter apiToken logger'
         s in
     answer (val r') = answer (val r)
     ∧ final r' = final r ∧ trace r' = trace r)
  ∧ (logger = false → logged (val r) = [])
  ∧ (converter = None →
     trace r = [] ∧ final r = s
     ∧ answer (val r) = (ExtractEventInfo jsonDataStr, ∅, None))
  ∧ (∀ c e, converter = Some c →
       json_Unmarshal_envelope jsonDataStr = Err e →
       trace r = [] ∧ final r = s
       ∧ answer (val r)
         = (false, "", "", "json_parse_failed",
            {["conversion_error" := "erro ao fazer parse do evento: " +:+ e]},
            None))
  ∧ (∀ c env, converter = Some c →
       json_Unmarshal_envelope jsonDataStr = Ok env →
       ∃ info,
         val (DetectAndConvertIDs c jsonDataStr apiToken s) = Ok info
         ∧ answer (val r)
           = (IsGroup info, GetFinalChat info, GetFinalSender info,
              reason (val r), Conversions info, Some info)
         ∧ (if IsGroup info
            then reason (val r)
                 ∈ ["chat_has_g_us"; "chat_broadcast"; "is_group_true"]
            else reason (val r) = "")
         ∧ Conversions info !! "conversion_error" = None
         ∧ final r = final (DetectAndConvertIDs c jsonDataStr apiToken s)
         ∧ trace r = trace (DetectAndConvertIDs c jsonDataStr apiToken s)).
Proof.
  cbv zeta. unfold ExtractEventInfoWithConversion.
  destruct converter as [c|].
  2:{ destruct (ExtractEventInfo jsonDataStr) as [[[g ch] se] re].
      simpl. split; [done|]. split; [by intros ->|]. split; [done|].
      split; by intros ? ? [=]. }
  unfold bind.
  split; [|split; [|split; [done|split]]].
  - intros logger'.
    destruct (val (DetectAndConvertIDs c jsonDataStr apiToken s))
      as [info|err]; [done|].
    by destruct (ExtractEventInfo jsonDataStr) as [[[g ch] se] re].
  - intros ->.
    destruct (val (DetectAndConvertIDs c jsonDataStr apiToken s))
      as [info|err]; [done|].
    by destruct (ExtractEventInfo jsonDataStr) as [[[g ch] se] re].
  - intros ? e [= <-] He.
    unfold DetectAndConvertIDs, ExtractEventInfo. rewrite He. done.
  - intros ? env [= <-] He.
    destruct (DetectAndConvertIDs_keys c jsonDataStr apiToken s env He)
      as (info & Hv & Hkeys).
    exists info. rewrite Hv. cbn [val final trace]. rewrite app_nil_r.
    split; [done|]. split; [done|]. split.
    + cbn [reason]. destruct (IsGroup info); [|done].
      repeat case_match; in_list.
    + split; [|done].
      destruct (Conversions info !! "conversion_error") eqn:Hc; [|done].
      assert (Hin : "conversion_error" ∈ idFields) by (apply Hkeys; eauto).
      unfold idFields in Hin.
      repeat (apply elem_of_cons in Hin as [[=] | Hin]).
      by apply elem_of_nil in Hin.
Qed.

End conversion_parse_extras.

(** ** Alerts *)

Section notify_extras.
Context {RT : GoRuntime} (h : Host).
Import notify.
Implicit Types (s : State) (last : Table) (t : Transport).

(** An alert under [key] would be a repetition at the clock reading [n]:
    the key was stamped less than a minute before. *)
Definition repeated (key : string) (last : Table) (n : nat) : Prop :=
  ∃ at_, last !! key = Some at_ ∧ Now h n - at_ < Minute.

Lemma stamp_spec key last s :
  let r := stamp h key last s in
  trace r = []
  ∧ (repeated key last (clock s) →
     val r = (false, last) ∧ final r = tick 1 s)
  ∧ (¬ repeated key last (clock s) →
     ∃ n, val r = (true, <[key := Now h n]> last)).
Proof.
  unfold stamp, bind, timeNow, repeated. simpl.
  destruct (last !! key) as [at_|] eqn:Hl; simpl.
  - destruct (Now h (clock s) - at_ <? Minute) eqn:Hlt; simpl.
    + split; [done|]. split; [done|]. intros Hn. destruct Hn.
      exists at_. split; [done|]. by apply Z.ltb_lt.
    + split; [done|]. split; [|by eauto].
      intros (? & [= <-] & Hlt'). apply Z.ltb_ge in Hlt. lia.
  - split; [done|]. split; [by intros (? & [=] & _)|by eauto].
Qed.

Lemma send_spec t req prefix s :
  let r := send t req prefix s in
  (length (requests (trace r)) ≤ 1)%nat
  ∧ (is_Ok (http_NewRequest "POST" (URL req)) = true →
     requests (trace r) = [req])
  ∧ (is_Ok (http_NewRequest "POST" (URL req)) = false → trace r = []).
Proof.
  unfold send, bind, httpDo.
  destruct (http_NewRequest "POST" (URL req)); simpl;
    [|by split; [lia|]].
  destruct (t (sent s) req) as [resp|e]; simpl; [|by split; [lia|]].
  destruct (300 <=? StatusCode resp); simpl; by split; [lia|].
Qed.

(** A stamped key makes the next call within the minute a repetition. *)
Lemma repeated_insert key last at_ n :
  Now h n - at_ < Minute → repeated key (<[key := at_]> last) n.
Proof. intros Hlt. exists at_. split; [apply lookup_insert_eq|done]. Qed.



End notify_extras.

(** ** The configuration *)

Section config_extras.
Variable Atoi : string → result error Z.

(** X21.  [Load] never leaves the port empty: an unset [PORT] gives
    8080.  The TTL of the cache is 60 seconds when [CACHE_TTL_SECONDS]
    is unset, is not a number, or is a number that is not positive; a
    positive number of seconds up to 9223372036 gives that many seconds;
    and the first number above that bound wraps around to a negative
    TTL. *)
Theorem Load_defaults (getenv : string → string) :
  let cfg := config.Load Atoi getenv in
  Port cfg ≠ ""
  ∧ (getenv "PORT" = "" → Port cfg = "8080")
  ∧ (getenv "PORT" ≠ "" → Port cfg = getenv "PORT")
  ∧ (getenv "CACHE_TTL_SECONDS" = "" → CacheTTL cfg = 60 * config.Second)
  ∧ (∀ e, Atoi (getenv "CACHE_TTL_SECONDS") = Err e →
          CacheTTL cfg = 60 * config.Second)
  ∧ (∀ v, getenv "CACHE_TTL_SECONDS" ≠ "" →
          Atoi (getenv "CACHE_TTL_SECONDS") = Ok v →
          (v ≤ 0 → CacheTTL cfg = 60 * config.Second)
          ∧ (0 < v ≤ 9223372036 → CacheTTL cfg = v * config.Second)
          ∧ (v = 9223372037 → CacheTTL cfg < 0)).
Proof.
  unfold config.Load. simpl.
  split.
  { destruct (isEmpty (getenv "PORT")) eqn:Hp; [done|].
    by apply isEmpty_false. }
  split.
  { by intros ->. }
  split.
  { intros Hp%isEmpty_false. by rewrite Hp. }
  split.
  { intros ->. done. }
  split.
  { intros e ->. by destruct (negb _). }
  intros v Hs%isEmpty_false Hv. rewrite Hs, Hv. simpl.
  split; [|split].
  - intros Hle. apply Z.ltb_ge in Hle. by rewrite Hle.
  - intros [Hpos Hle]. apply Z.ltb_lt in Hpos. rewrite Hpos.
    unfold config.wrap64, config.Second.
    rewrite Z.mod_small; lia.
  - intros ->. done.
Qed.

End config_extras.

(** ** Creating and updating a tenant *)

Section control_extras.
Import control.
Implicit Types (db : Database) (input : Input).

Lemma defaults_spec (c : Row) :
  0 < RateLimitPerMin (defaults c) ∧ Plan (defaults c) ≠ ""
  ∧ (0 < RateLimitPerMin c →
     RateLimitPerMin (defaults c) = RateLimitPerMin c)
  ∧ (Plan c ≠ "" → Plan (defaults c) = Plan c)
  ∧ ID (defaults c) = ID c ∧ SecretID (defaults c) = SecretID c
  ∧ Name (defaults c) = Name c ∧ WebhookURL (defaults c) = WebhookURL c
  ∧ IsActive (defaults c) = IsActive c.
Proof.
  unfold defaults.
  destruct (RateLimitPerMin c <=? 0) eqn:Hr; simpl;
    destruct (isEmpty (Plan c)) eqn:Hp; simpl;
    rewrite ?Z.leb_le, ?Z.leb_gt, ?isEmpty_true, ?isEmpty_false in *;
    repeat split; try done; try lia; intros; try lia; congruence.
Qed.

(** [Create] of the service, down to the statement of the repository. *)
Lemma Create_spec db (c : Row) n :
  (Name c = "" ∨ WebhookURL c = "" →
   Create db c n
   = {| err := Some required; row := c; executed := []; drawn := n |})
  ∧ (Name c ≠ "" → WebhookURL c ≠ "" →
     ∃ c' k,
       Create db c n
       = {| err := Exec db (INSERT (ID c') (SecretID c') (Name c')
                              (WebhookURL c') (Plan c')
                              (RateLimitPerMin c') (IsActive c'));
            row := c';
            executed := [INSERT (ID c') (SecretID c') (Name c')
                           (WebhookURL c') (Plan c') (RateLimitPerMin c')
                           (IsActive c')];
            drawn := k |}
       ∧ IsActive c' = true ∧ 0 < RateLimitPerMin c' ∧ Plan c' ≠ ""
       ∧ Name c' = Name c ∧ WebhookURL c' = WebhookURL c
       ∧ (SecretID c ≠ "" → SecretID c' = SecretID c)
       ∧ (ID c = "" → ID c' = NewString db n)).
Proof.
  unfold Create. split.
  - intros [-> | ->]; [done|]. by rewrite orb_true_r.
  - intros Hn%isEmpty_false Hu%isEmpty_false. rewrite Hn, Hu.
    cbn -[defaults].
    destruct (defaults_spec c)
      as (Hr & Hp & _ & _ & Hid & Hsec & Hname & Hurl & _).
    unfold repository_Create. cbn -[defaults]. rewrite Hid.
    destruct (isEmpty (ID c)) eqn:Hi; cbn -[defaults]; rewrite Hsec;
      destruct (isEmpty (SecretID c)) eqn:Hs; cbn -[defaults];
      match goal with
      | |- ∃ _ _, {| err := _; row := ?c0; executed := _; drawn := ?k0 |}
                  = _ ∧ _ => exists c0, k0
      end; (split; [reflexivity|]); cbn -[defaults];
      rewrite ?isEmpty_true, ?isEmpty_false in *;
      repeat split; try done; congruence.
Qed.

(** X22.  [createClient] answers 400 and touches nothing when the body
    does not bind, and 400 with the validation message, again without any
    statement, when the name or the URL is empty.  Otherwise it executes
    exactly one INSERT, and the inserted tenant is active whatever the
    body said about [isActive], has a positive rate limit and a plan that
    is not empty, and carries a drawn identifier, the name, the URL and,
    when given, the secret of the body; the answer is 201 with that
    tenant when the database accepts the statement and 400 with the
    database's error when it does not. *)
Theorem createClient_inserts_active db bound n :
  let r := createClient db bound n in
  (∀ e, bound = Err e →
        r = (ReplyError StatusBadRequest "payload inválido", [], n))
  ∧ (∀ input, bound = Ok input →
       (in_Name input = "" ∨ in_WebhookURL input = "" →
        r = (ReplyError StatusBadRequest required, [], n))
       ∧ (in_Name input ≠ "" → in_WebhookURL input ≠ "" →
          ∃ c stmt,
            stmt = INSERT (ID c) (SecretID c) (Name c) (WebhookURL c)
                     (Plan c) (RateLimitPerMin c) (IsActive c)
            ∧ r.1.2 = [stmt]
            ∧ IsActive c = true
            ∧ 0 < RateLimitPerMin c ∧ Plan c ≠ ""
            ∧ Name c = in_Name input
            ∧ WebhookURL c = in_WebhookURL input
            ∧ (in_SecretID input ≠ "" → SecretID c = in_SecretID input)
            ∧ ID c = NewString db n
            ∧ r.1.1 = match Exec db stmt with
                      | None => ReplyClient StatusCreated c
                      | Some e => ReplyError StatusBadRequest e
                      end)).
Proof.
  cbv zeta. split; [by intros e ->|].
  intros input ->. unfold createClient.
  set (c0 := match in_IsActive input with
             | Some b => set_IsActive b _
             | None => _
             end).
  assert (ID c0 = "" ∧ SecretID c0 = in_SecretID input
          ∧ Name c0 = in_Name input
          ∧ WebhookURL c0 = in_WebhookURL input) as (I0 & S0 & N0 & U0).
  { subst c0. by destruct (in_IsActive input). }
  clearbody c0. destruct (Create_spec db c0 n) as [Hbad Hgood].
  rewrite N0, U0, S0 in *. split.
  - intros Hor. by rewrite (Hbad Hor).
  - intros Hn Hu.
    destruct (Hgood Hn Hu)
      as (c & k & -> & Ha & Hr & Hp & Hname & Hurl & Hsec & Hid).
    exists c, (INSERT (ID c) (SecretID c) (Name c) (WebhookURL c) (Plan c)
                 (RateLimitPerMin c) (IsActive c)).
    cbn [err row executed drawn].
    split; [done|]. split; [by destruct (Exec db _)|].
    split; [done|]. split; [done|]. split; [done|]. split; [done|].
    split; [done|]. split; [done|]. split; [by apply Hid|].
    by destruct (Exec db _).
Qed.

(** X23.  On a body that binds, [updateClient] executes nothing when
    the identifier of the route is empty and when the name or the URL is
    empty; the empty identifier is reported first.  Otherwise it
    executes exactly one UPDATE for the identifier of the route, with the
    name and the URL of the body, a positive rate limit and a plan that
    is not empty; the tenant is set active unless the body says
    otherwise, so a body without [isActive] activates it. *)
Theorem updateClient_statement db id input n :
  let r := updateClient db id (Ok input) n in
  (id = "" →
   r = (ReplyError StatusBadRequest "id é obrigatório", [], n))
  ∧ (id ≠ "" → in_Name input = "" ∨ in_WebhookURL input = "" →
     r = (ReplyError StatusBadRequest required, [], n))
  ∧ (id ≠ "" → in_Name input ≠ "" → in_WebhookURL input ≠ "" →
     ∃ plan rate,
       r.1.2 = [UPDATE (in_Name input) (in_WebhookURL input) plan rate
                  (default true (in_IsActive input)) id]
       ∧ 0 < rate ∧ plan ≠ ""
       ∧ (0 < in_RateLimitPerMin input → rate = in_RateLimitPerMin input)
       ∧ (in_Plan input ≠ "" → plan = in_Plan input)
       ∧ r.2 = n).
Proof.
  cbv zeta. unfold updateClient, Update.
  set (c0 := match in_IsActive input with
             | Some b => set_IsActive b _
             | None => _
             end).
  assert (ID c0 = id ∧ Name c0 = in_Name input
          ∧ WebhookURL c0 = in_WebhookURL input
          ∧ Plan c0 = in_Plan input
          ∧ RateLimitPerMin c0 = in_RateLimitPerMin input
          ∧ IsActive c0 = default true (in_IsActive input))
    as (I0 & N0 & U0 & P0 & R0 & A0).
  { subst c0. by destruct (in_IsActive input). }
  rewrite I0, N0, U0. clearbody c0.
  split; [by intros ->|]. split.
  - intros Hi%isEmpty_false Hor. rewrite Hi.
    destruct Hor as [-> | ->]; [done|]. by rewrite orb_true_r.
  - intros Hi%isEmpty_false Hn%isEmpty_false Hu%isEmpty_false.
    rewrite Hi, Hn, Hu. simpl.
    destruct (defaults_spec c0)
      as (Hr & Hp & Hrk & Hpk & Hid & _ & Hname & Hurl & Hact).
    exists (Plan (defaults c0)), (RateLimitPerMin (defaults c0)).
    rewrite Hname, Hurl, Hact, Hid, N0, U0, A0, I0.
    split; [by destruct (Exec db _)|]. split; [done|]. split; [done|].
    split; [by rewrite <- R0|]. split; [by rewrite <- P0|].
    by destruct (Exec db _).
Qed.

End control_extras.

(** ** Alerts of the webhook handler *)

(** The alerts of a trace, oldest first. *)
Definition alerts (t : list Effect) : list (SlackRoute * SlackMsg) :=
  omap (λ e, match e with SlackNotify r m => Some (r, m) | _ => None end) t.

Lemma alerts_app (t1 t2 : list Effect) :
  alerts (t1 ++ t2) = alerts t1 ++ alerts t2.
Proof. apply omap_app. Qed.

Lemma logs_alerts (t : list Effect) :
  Forall (λ e, isLogLine e = true) t → alerts t = [].
Proof.
  induction 1 as [|e t He _ IH]; [done|].
  destruct e; simpl in *; done.
Qed.

Section alert_extras.
Context {RT : GoRuntime} (h : Host).
Import router.
Implicit Types (d : Dependencies) (s : State) (req : Request).

Lemma notifySlack_run d msg s :
  final (notifySlack d msg s) = s
  ∧ ∀ s', trace (notifySlack d msg s') = trace (notifySlack d msg s).
Proof.
  unfold notifySlack. destruct (negb _); [done|]. by destruct (_ && _).
Qed.

Lemma notifySlack_alerts d msg s :
  let url := TrimSpace (SlackWebhookURL (Cfg d)) in
  let bt := TrimSpace (SlackBotToken (Cfg d)) in
  let ch := TrimSpace (SlackChannelID (Cfg d)) in
  (length (alerts (trace (notifySlack d msg s))) ≤ 1)%nat
  ∧ (url ≠ "" →
     alerts (trace (notifySlack d msg s)) = [(ViaWebhook url, msg)])
  ∧ (url = "" → bt ≠ "" → ch ≠ "" →
     alerts (trace (notifySlack d msg s)) = [(ViaBot bt ch, msg)])
  ∧ (url = "" → bt = "" ∨ ch = "" →
     alerts (trace (notifySlack d msg s)) = []).
Proof.
  cbv zeta. unfold notifySlack.
  destruct (isEmpty (TrimSpace (SlackWebhookURL (Cfg d)))) eqn:Hu; simpl.
  - apply isEmpty_true in Hu.
    destruct (isEmpty (TrimSpace (SlackBotToken (Cfg d)))) eqn:Hb; simpl.
    { apply isEmpty_true in Hb. split; [lia|]. split; [done|].
      split; [done|done]. }
    apply isEmpty_false in Hb.
    destruct (isEmpty (TrimSpace (SlackChannelID (Cfg d)))) eqn:Hc; simpl.
    { apply isEmpty_true in Hc. split; [lia|]. split; [done|].
      split; [done|done]. }
    apply isEmpty_false in Hc. split; [lia|]. split; [done|].
    split; [done|]. by intros _ [? | ?].
  - apply isEmpty_false in Hu. split; [lia|]. split; [done|].
    split; [done|done].
Qed.

Lemma resolve_alerts d secretID s :
  alerts (trace (resolveClientWebhookCached h d secretID s)) = [].
Proof.
  destruct (resolve_frame h d secretID s) as [_ Ht]. cbv zeta in Ht.
  by destruct Ht as [-> | ->].
Qed.

(** The alert of a forward: none when the destination answered, the one
    of the failure otherwise. *)
Lemma forward_alerts d secretID contentType bodyBytes targetURL s :
  let r := forward d secretID contentType bodyBytes targetURL s in
  match val r with
  | RespMirror _ _ _ => alerts (trace r) = []
  | RespJSON code body =>
      ∃ e,
        (code = StatusInternalServerError
         ∧ body = [("error", "erro interno")]
         ∧ alerts (trace r)
           = alerts (trace (notifySlack d
                              (MsgNewRequestError targetURL secretID e) s)))
        ∨ (code = StatusBadGateway
           ∧ body = [("error", "destino indisponível")]
           ∧ alerts (trace r)
             = alerts (trace (notifySlack d
                                (MsgForwardFailed targetURL secretID e) s)))
  end.
Proof.
  cbv zeta. unfold forward, bind. simpl.
  destruct (http_NewRequest "POST" targetURL) as [u|e]; simpl.
  - destruct (HTTPClient d (sent s) _) as [resp|e]; simpl; [done|].
    exists e. right. split; [done|]. split; [done|].
    destruct (notifySlack_run d (MsgForwardFailed targetURL secretID e) s)
      as [_ Htr].
    by rewrite app_nil_r, Htr.
  - exists e. left. split; [done|]. split; [done|]. by rewrite app_nil_r.
Qed.


End alert_extras.

(** ** The further properties on the sample deployment *)

(** The witness of X10: the service converts [123@lid], and exactly one
    request went out. *)
Lemma ConvertLIDToJID_outcome_witness :
  (length (requests (trace (webhook.ConvertLIDToJID (RT := RefRuntime.runtime)
                              Sample.converter "123@lid" "tok" Sample.fresh)))
   ≤ 1)%nat
  ∧ webhook.converted (RT := RefRuntime.runtime) Sample.converter "tok"
      Sample.fresh
      (trace (webhook.ConvertLIDToJID (RT := RefRuntime.runtime)
                Sample.converter "123@lid" "tok" Sample.fresh))
      "123@lid" "5511@s.whatsapp.net".
Proof.
  destruct (ConvertLIDToJID_outcome (RT := RefRuntime.runtime)
              Sample.converter "123@lid" "tok" Sample.fresh)
    as (Hle & _ & Hconv & _).
  - by vm_compute.
  - split; [exact Hle|]. apply Hconv. by vm_compute.
Defined.

(** The witness of X11: the service answers 500 for [999@lid], and the
    error carries the status and the short body whole. *)
Lemma ConvertLIDToJID_status_error_witness :
  ∃ shown,
    val (webhook.ConvertLIDToJID (RT := RefRuntime.runtime) Sample.converter
           "999@lid" "tok" Sample.fresh)
    = Err (webhook.ErrAPIStatus 500 shown)
    ∧ shown = "internal error".
Proof.
  destruct (ConvertLIDToJID_status_error (RT := RefRuntime.runtime)
              Sample.converter "999@lid" "tok" Sample.fresh
              (Sample.lidBody "999@lid")
              {| StatusCode := 500; RespContentType := "text/plain";
                 RespBody := "internal error" |})
    as (shown & Hv & _ & Hshort & _).
  - by vm_compute.
  - by vm_compute.
  - by vm_compute.
  - by vm_compute.
  - exists shown. split; [exact Hv|]. apply Hshort. vm_compute. lia.
Defined.

(** The witness of X13: an event whose chat is already a current
    identifier is left alone. *)
Lemma DetectAndConvertIDs_without_legacy_ids_witness :
  trace (webhook.DetectAndConvertIDs (RT := RefRuntime.runtime)
           Sample.converter
           (Sample.eventWith (Sample.member "Chat" "5511@s.whatsapp.net"))
           "tok" Sample.fresh) = []
  ∧ final (webhook.DetectAndConvertIDs (RT := RefRuntime.runtime)
             Sample.converter
             (Sample.eventWith (Sample.member "Chat" "5511@s.whatsapp.net"))
             "tok" Sample.fresh) = Sample.fresh.
Proof.
  destruct (DetectAndConvertIDs_without_legacy_ids (RT := RefRuntime.runtime)
              Sample.converter
              (Sample.eventWith (Sample.member "Chat" "5511@s.whatsapp.net"))
              "tok" Sample.fresh
              {| Event :=
                   {| Info := Some [("Chat", JString "5511@s.whatsapp.net")];
                      Message := None |} |})
    as (Ht & Hf & _).
  - by vm_compute.
  - intros info f x [= <-] Hf.
    unfold webhook.idFields in Hf.
    repeat (apply elem_of_cons in Hf as [-> | Hf]);
      [..|by apply elem_of_nil in Hf];
      vm_compute; (intros [= <-] || intros [=]); reflexivity.
  - by split.
Defined.

(** The witness of X14: an event with no sender and a legacy alternative
    sender gets the converted alternative as its final sender. *)
Lemma DetectAndConvertIDs_fallbacks_witness :
  SenderJID
    {| OriginalData := Sample.eventWith (Sample.member "SenderAlt" "123@lid");
       Chat := ""; ChatJID := ""; Sender := "";
       SenderJID := "5511@s.whatsapp.net";
       SenderAlt := "123@lid"; SenderAltJID := "5511@s.whatsapp.net";
       RecipientAlt := ""; RecipientAltJID := ""; IsGroup := false;
       Conversions := {["SenderAlt" := "123@lid -> 5511@s.whatsapp.net"]} |}
  = "5511@s.whatsapp.net"
  ∧ val (webhook.DetectAndConvertIDs (RT := RefRuntime.runtime)
           Sample.converter
           (Sample.eventWith (Sample.member "SenderAlt" "123@lid"))
           "tok" Sample.fresh)
    = Ok {| OriginalData :=
              Sample.eventWith (Sample.member "SenderAlt" "123@lid");
            Chat := ""; ChatJID := ""; Sender := "";
            SenderJID := "5511@s.whatsapp.net";
            SenderAlt := "123@lid"; SenderAltJID := "5511@s.whatsapp.net";
            RecipientAlt := ""; RecipientAltJID := ""; IsGroup := false;
            Conversions :=
              {["SenderAlt" := "123@lid -> 5511@s.whatsapp.net"]} |}.
Proof.
  assert (Hrun :
    val (webhook.DetectAndConvertIDs (RT := RefRuntime.runtime)
           Sample.converter
           (Sample.eventWith (Sample.member "SenderAlt" "123@lid"))
           "tok" Sample.fresh)
    = Ok {| OriginalData :=
              Sample.eventWith (Sample.member "SenderAlt" "123@lid");
            Chat := ""; ChatJID := ""; Sender := "";
            SenderJID := "5511@s.whatsapp.net";
            SenderAlt := "123@lid"; SenderAltJID := "5511@s.whatsapp.net";
            RecipientAlt := ""; RecipientAltJID := ""; IsGroup := false;
            Conversions :=
              {["SenderAlt" := "123@lid -> 5511@s.whatsapp.net"]} |})
    by (by vm_compute).
  split; [|exact Hrun].
  destruct (DetectAndConvertIDs_fallbacks (RT := RefRuntime.runtime)
              Sample.converter
              (Sample.eventWith (Sample.member "SenderAlt" "123@lid"))
              "tok" Sample.fresh
              {| Event :=
                   {| Info := Some [("SenderAlt", JString "123@lid")];
                      Message := None |} |}
              [("SenderAlt", JString "123@lid")] _
              ltac:(by vm_compute) eq_refl Hrun)
    as (Hsender & _).
  destruct Hsender as [Hs _]; [reflexivity|].
  apply Hs. vm_compute. eauto.
Defined.

(** The witness of X17: a chat in [@g.us] is a group, for that reason. *)
Lemma ExtractEventInfo_spec_witness :
  webhook.ExtractEventInfo (RT := RefRuntime.runtime)
    (Sample.eventWith (Sample.member "Chat" "123@g.us"))
  = (true, "123@g.us", "", "chat_has_g_us")
  ∧ "chat_has_g_us" ∈ groupReasons.
Proof.
  destruct (ExtractEventInfo_spec (RT := RefRuntime.runtime)
              (Sample.eventWith (Sample.member "Chat" "123@g.us"))
              true "123@g.us" "" "chat_has_g_us") as (_ & Hok).
  - by vm_compute.
  - split; [by vm_compute|].
    destruct (Hok {| Event := {| Info := Some [("Chat", JString "123@g.us")];
                                 Message := None |} |}) as (Hr & _).
    + by vm_compute.
    + exact Hr.
Defined.
